(** * Batched-service throughput model: fitting and invariant validation

    A shallow embedding of [analysis/fit-throughput-model.py] and
    [analysis/validate-invariants.py].

    Numbers.  The scripts compute with binary64 floats.  Here a float is an
    exact rational ([Qc], canonical fractions, so that equal numbers are equal
    terms) extended with the IEEE special values [+inf], [-inf] and [NaN];
    NumPy arithmetic never raises on a division by zero, it produces one of
    those values, whereas a division of two Python numbers raises
    [ZeroDivisionError].  Rounding, overflow and the sign of zero are not
    modelled: every statement below is about the exact-arithmetic reading of
    the program.

    Libraries.  [numpy.polyfit], [numpy.sqrt] and [scipy.stats.t.ppf] are not
    part of the repository; they enter through the interface [NumLib], which
    records the part of their contract the scripts rely on.

    Effects.  The scripts print to standard output and read CSV files.  The
    file system is an explicit finite map from paths to data frames, and
    standard output is a list of events threaded through a small state
    monad. *)

From Stdlib Require Import QArith Qcanon Ascii String.
From stdpp Require Import base numbers list strings gmap sorting pretty.

Local Open Scope Qc_scope.

(** * The programs *)

(** ** Floats: exact rationals with the IEEE special values *)

Inductive float64 :=
  | Fin (q : Qc)
  | PInf
  | NInf
  | NaN.

Global Instance float64_eq_dec : EqDecision float64.
Proof. solve_decision. Defined.

(** The number a finite float holds (0 for the special values). *)
Definition finite_part (a : float64) : Qc :=
  match a with Fin q => q | _ => 0 end.

(** Sign tests on finite numbers, as booleans. *)
Definition Qc_neg (q : Qc) : bool := bool_decide (q < 0).
Definition Qc_zero (q : Qc) : bool := bool_decide (q = 0).

Definition inf_of (neg : bool) : float64 := if neg then NInf else PInf.

Definition fopp (a : float64) : float64 :=
  match a with
  | Fin q => Fin (- q)
  | PInf => NInf
  | NInf => PInf
  | NaN => NaN
  end.

Definition fadd (a b : float64) : float64 :=
  match a, b with
  | NaN, _ | _, NaN => NaN
  | Fin p, Fin q => Fin (p + q)
  | PInf, NInf | NInf, PInf => NaN
  | PInf, _ | _, PInf => PInf
  | NInf, _ | _, NInf => NInf
  end.

Definition fsub (a b : float64) : float64 := fadd a (fopp b).

(** Multiplication of an infinity of sign [neg] by the finite [q]. *)
Definition inf_times (neg : bool) (q : Qc) : float64 :=
  if Qc_zero q then NaN else inf_of (xorb neg (Qc_neg q)).

Definition fmul (a b : float64) : float64 :=
  match a, b with
  | NaN, _ | _, NaN => NaN
  | Fin p, Fin q => Fin (p * q)
  | PInf, Fin q | Fin q, PInf => inf_times false q
  | NInf, Fin q | Fin q, NInf => inf_times true q
  | PInf, PInf | NInf, NInf => PInf
  | PInf, NInf | NInf, PInf => NInf
  end.

(** NumPy division: a zero divisor gives an infinity (or [NaN] for [0/0])
    and a warning, never an exception. *)
Definition fdiv (a b : float64) : float64 :=
  match a, b with
  | NaN, _ | _, NaN => NaN
  | Fin p, Fin q =>
      if Qc_zero q then (if Qc_zero p then NaN else inf_of (Qc_neg p))
      else Fin (p / q)
  | Fin _, (PInf | NInf) => Fin 0
  | PInf, Fin q => inf_of (Qc_neg q)
  | NInf, Fin q => inf_of (negb (Qc_neg q))
  | (PInf | NInf), (PInf | NInf) => NaN
  end.

(** [a ** 2] *)
Definition fsq (a : float64) : float64 := fmul a a.

(** Comparisons; any comparison with [NaN] is false. *)
Definition fle (a b : float64) : bool :=
  match a, b with
  | NaN, _ | _, NaN => false
  | Fin p, Fin q => bool_decide (p ≤ q)
  | NInf, _ | _, PInf => true
  | _, _ => false
  end.

Definition flt (a b : float64) : bool :=
  match a, b with
  | NaN, _ | _, NaN => false
  | Fin p, Fin q => bool_decide (p < q)
  | PInf, _ | _, NInf => false
  | _, _ => true
  end.

Definition of_int (n : Z) : float64 := Fin (Qc_of_Z n).

(** [np.sum] and [np.mean] of an array. *)
Definition fsum (l : list float64) : float64 := foldr fadd (Fin 0) l.
Definition fmean (l : list float64) : float64 :=
  fdiv (fsum l) (of_int (Z.of_nat (length l))).

(** The same over exact rationals. *)
Definition qsum (l : list Qc) : Qc := foldr Qcplus 0 l.
Definition qlen (l : list Qc) : Qc := Qc_of_Z (Z.of_nat (length l)).
Definition qmean (l : list Qc) : Qc := qsum l / qlen l.

(** ** The numerical libraries *)

(** Modelled from the spec: the closed-form least-squares line,
    slope = Σ(x-x̄)(y-ȳ) / Σ(x-x̄)², intercept = ȳ - slope·x̄, which is what
    [numpy.polyfit(x, y, 1)] (library code, not in the repository) computes
    in exact arithmetic on a design with at least two distinct abscissas. *)
Definition qsxx (xs : list Qc) : Qc :=
  qsum ((λ x, (x - qmean xs) * (x - qmean xs)) <$> xs).
Definition qsxy (xs ys : list Qc) : Qc :=
  qsum (zip_with (λ x y, (x - qmean xs) * (y - qmean ys)) xs ys).
Definition ols_slope (xs ys : list Qc) : Qc := qsxy xs ys / qsxx xs.
Definition ols_intercept (xs ys : list Qc) : Qc :=
  qmean ys - ols_slope xs ys * qmean xs.

(** What the scripts use of NumPy and SciPy.  [np_polyfit x y] stands for
    [np.polyfit(x, y, 1)] and returns (slope, intercept); on a rank-deficient
    design (all abscissas equal) NumPy only warns and returns some
    least-squares solution, about which nothing is assumed.  [np_sqrt] is
    [np.sqrt] on non-negative finite numbers and [stats_t_ppf q df] is
    [scipy.stats.t.ppf(q, df)]; both return a number close to the
    mathematical value, and only its sign is assumed: a square root is not
    negative, and the 0.975 quantile of a Student-t distribution is positive
    at every positive number of degrees of freedom. *)
Class NumLib := {
  np_polyfit : list float64 → list float64 → float64 * float64;
  np_sqrt : Qc → Qc;
  stats_t_ppf : Qc → Z → float64;
  np_polyfit_ols xs ys :
    length xs = length ys → qsxx xs ≠ 0 →
    np_polyfit (Fin <$> xs) (Fin <$> ys)
    = (Fin (ols_slope xs ys), Fin (ols_intercept xs ys));
  np_sqrt_nonneg q : 0 ≤ q → 0 ≤ np_sqrt q;
  stats_t_ppf_975 df :
    (0 < df)%Z → ∃ c, stats_t_ppf (Q2Qc 0.975) df = Fin c ∧ 0 < c
}.

(** [np.sqrt] on floats: [NaN] below zero. *)
Definition fsqrt `{NumLib} (a : float64) : float64 :=
  match a with
  | Fin q => if Qc_neg q then NaN else Fin (np_sqrt q)
  | PInf => PInf
  | NInf | NaN => NaN
  end.

(** ** Standard output and the file system *)

(** What is printed, line by line; an event carries the values of the
    line, not their formatting. *)
Inductive event :=
  | Skipping (csv_file : string)
  | InsufficientData
  | ClosureHeader (C : Z)
  | ValidPoints (n : nat)
  | Violations (n : nat)
  | ViolationsFound
  | ViolationLine (p : Z) (lhs : Qc) (rhs : Z) (file : string)
  | SyscallHeader
  | SyscallLine (p : Z) (theoretical : Qc)
  | SyscallNote
  | CyclesHeader
  | CyclesNote
  | CyclesEstimate (cycles : Qc).

Definition stdout := list event.

(** Computations that print. *)
Definition IO (A : Type) : Type := stdout → A * stdout.

Global Instance IO_ret : MRet IO := λ A a out, (a, out).
Global Instance IO_bind : MBind IO := λ A B f m out,
  let '(a, out') := m out in f a out'.

Definition print (e : event) : IO unit := λ out, (tt, out ++ [e]).

(** [for a in l: s = body(s, a)] *)
Fixpoint for_each {A S} (l : list A) (body : S → A → IO S) (s : S) : IO S :=
  match l with
  | [] => mret s
  | a :: l => s' ← body s a; for_each l body s'
  end.

(** A data frame as [pandas.read_csv] returns it: the number of rows and the
    columns by name.  Cells are finite numbers: a cell that is empty or not
    a number is outside this model (the closure check is read a second time
    below, on frames with empty cells). *)
Record DataFrame := {
  nrows : nat;
  columns : gmap string (list Qc)
}.

(** [df[name].iloc[0]]; [None] stands for the [IndexError] (or [KeyError]). *)
Definition iloc0 (df : DataFrame) (name : string) : option Qc :=
  col ← columns df !! name; head col.

Definition has_column (df : DataFrame) (name : string) : bool :=
  bool_decide (is_Some (columns df !! name)).

(** The files on disk; [pd.read_csv] raises on a path that is not there. *)
Definition filesystem := gmap string DataFrame.

(** ** [re.search(r'P(\d+)', csv_file)] followed by [int(group(1))]

    Paths are read as ASCII text: the digits are [0]..[9].  (On other text
    Python's [\d] and [int] also take the decimal digits of other scripts,
    which this reader does not.) *)

Definition digit (c : ascii) : option Z :=
  let n := Z.of_nat (nat_of_ascii c) in
  if bool_decide (48 ≤ n ≤ 57)%Z then Some (n - 48)%Z else None.

(** The value of the longest run of digits at the start of [s], given the
    value [acc] of the digits already read. *)
Fixpoint digits (s : string) (acc : option Z) : option Z :=
  match s with
  | EmptyString => acc
  | String c s' =>
      match digit c with
      | Some d => digits s' (Some (10 * default 0%Z acc + d)%Z)
      | None => acc
      end
  end.

Fixpoint search_P (s : string) : option Z :=
  match s with
  | EmptyString => None
  | String c s' =>
      if bool_decide (c = "P"%char) then
        match digits s' None with
        | Some p => Some p
        | None => search_P s'
        end
      else search_P s'
  end.

(** ** fit-throughput-model.py *)

Record results := {
  t0_us_per_batch : float64;
  t1_ns_per_op : float64;
  r_squared : float64;
  t0_confidence_interval : list float64;
  t1_confidence_interval : list float64;
  Tmax_Mops_s : float64;
  data_points : Z;
  raw_data : list (list float64)
}.

Definition e6 : float64 := of_int 1000000.
Definition e9 : float64 := of_int 1000000000.

(** The body of the loop over [csv_files]: one more data point, or none. *)
Definition collect_point (fs : filesystem)
    (points : list (Z * Qc)) (csv_file : string) : IO (list (Z * Qc)) :=
  match fs !! csv_file with
  | None => print (Skipping csv_file);; mret points
  | Some df =>
      if has_column df "rps" && bool_decide (0 < nrows df)%nat then
        match search_P csv_file with
        | Some p =>
            match iloc0 df "rps" with
            | Some throughput => mret (points ++ [(p, throughput)])
            | None => print (Skipping csv_file);; mret points
            end
        | None => mret points
        end
      else mret points
  end.

(** Tuples compare lexicographically. *)
Definition tuple_le (a b : Z * Qc) : Prop :=
  (a.1 < b.1)%Z ∨ (a.1 = b.1 ∧ a.2 ≤ b.2).

Global Instance tuple_le_dec : RelDecision tuple_le.
Proof. intros a b. unfold tuple_le. apply _. Defined.

(** Lines 45-92: the fit proper, on the sorted data points.  It runs on at
    least five of them, so that [n] and [n - 2] are not zero.  Depths are
    meant within the 64-bit integers: of larger ones [np.array] builds no
    numeric array, and [np.polyfit] raises. *)
Definition fit_points `{NumLib} (sorted_points : list (Z * Qc)) : results :=
  let p_values := sorted_points.*1 in
  let T_values := sorted_points.*2 in
  let y := zip_with (λ p T, fdiv (of_int p) (Fin T)) p_values T_values in
  let x := of_int <$> p_values in
  let '(t1_sec, t0_sec) := np_polyfit x y in
  let t0_us := fmul t0_sec e6 in
  let t1_ns := fmul t1_sec e9 in
  let y_pred := (λ xi, fadd t0_sec (fmul t1_sec xi)) <$> x in
  let ss_res := fsum (zip_with (λ yi pi, fsq (fsub yi pi)) y y_pred) in
  let ss_tot := fsum ((λ yi, fsq (fsub yi (fmean y))) <$> y) in
  let r_squared := fsub (Fin 1) (fdiv ss_res ss_tot) in
  let n := Z.of_nat (length x) in
  let mse := fdiv ss_res (of_int (n - 2)) in
  let x_mean := fmean x in
  let sxx := fsum ((λ xi, fsq (fsub xi x_mean)) <$> x) in
  let se_t1_sec := fsqrt (fdiv mse sxx) in
  let se_t0_sec :=
    fsqrt (fmul mse (fadd (fdiv (Fin 1) (of_int n)) (fdiv (fsq x_mean) sxx))) in
  let t_crit := stats_t_ppf (Q2Qc 0.975) (n - 2) in
  let t0_ci := [fsub t0_us (fmul (fmul t_crit se_t0_sec) e6);
                fadd t0_us (fmul (fmul t_crit se_t0_sec) e6)] in
  let t1_ci := [fsub t1_ns (fmul (fmul t_crit se_t1_sec) e9);
                fadd t1_ns (fmul (fmul t_crit se_t1_sec) e9)] in
  {| t0_us_per_batch := t0_us;
     t1_ns_per_op := t1_ns;
     r_squared := r_squared;
     t0_confidence_interval := t0_ci;
     t1_confidence_interval := t1_ci;
     Tmax_Mops_s :=
       if flt (Fin 0) t1_sec then fdiv (Fin 1) (fmul t1_sec e6) else PInf;
     data_points := Z.of_nat (length sorted_points);
     raw_data :=
       zip_with (λ p T, [of_int p; Fin T]) p_values T_values |}.

Definition fit_batched_service_model `{NumLib}
    (fs : filesystem) (csv_files : list string) : IO (option results) :=
  points ← for_each csv_files (collect_point fs) [];
  if bool_decide (length points < 5)%nat then
    print InsufficientData;; mret None
  else
    mret (Some (fit_points (merge_sort tuple_le points))).

(** ** validate-invariants.py *)

(** The body of the loop of [validate_pipeline_closure]; the state is
    [(violations, valid_points)].  Any exception skips the file silently. *)
Definition closure_point (fs : filesystem) (C : Z)
    (st : list (Z * Qc * Z * string) * list (Z * Qc * Z))
    (csv_file : string)
    : IO (list (Z * Qc * Z * string) * list (Z * Qc * Z)) :=
  let '(violations, valid_points) := st in
  match fs !! csv_file with
  | None => mret st
  | Some df =>
      if has_column df "rps" && has_column df "p50_latency_ms" then
        match search_P csv_file with
        | Some p =>
            match iloc0 df "rps", iloc0 df "p50_latency_ms" with
            | Some T, Some p50_ms =>
                let p50_s := p50_ms / Qc_of_Z 1000 in
                let lhs := T * p50_s in
                let rhs := (C * p)%Z in
                if bool_decide (lhs ≤ Qc_of_Z rhs) then
                  mret (violations, valid_points ++ [(p, lhs, rhs)])
                else
                  mret (violations ++ [(p, lhs, rhs, csv_file)], valid_points)
            | _, _ => mret st
            end
        | None => mret st
        end
      else mret st
  end.

Definition print_violation (_ : unit) (v : Z * Qc * Z * string) : IO unit :=
  let '(p, lhs, rhs, file) := v in print (ViolationLine p lhs rhs file).

(** [C] is the keyword argument, [None] when the caller leaves it out. *)
Definition validate_pipeline_closure
    (fs : filesystem) (csv_files : list string) (C : option Z)
    : IO (bool * list (Z * Qc * Z)) :=
  let C := default 50%Z C in
  '(violations, valid_points) ← for_each csv_files (closure_point fs C) ([], []);
  print (ClosureHeader C);;
  print (ValidPoints (length valid_points));;
  print (Violations (length violations));;
  (if bool_decide (violations ≠ []) then
     print ViolationsFound;;
     for_each violations print_violation ()
   else mret ());;
  mret (bool_decide (length violations = 0%nat), valid_points).

(** The loop of [validate_syscall_invariant].  [2 / (C * p)] divides two
    Python integers, which raises [ZeroDivisionError] on a zero divisor:
    [None] is that exception, which ends the function. *)
Fixpoint syscall_loop (C : Z) (p_values : list Z)
    (theoretical_values : list (Z * Qc)) : IO (option (list (Z * Qc))) :=
  match p_values with
  | [] => mret (Some theoretical_values)
  | p :: p_values =>
      if bool_decide (C * p = 0)%Z then mret None
      else
        let theoretical := Qc_of_Z 2 / Qc_of_Z (C * p) in
        let theoretical_values := theoretical_values ++ [(p, theoretical)] in
        print (SyscallLine p theoretical);;
        syscall_loop C p_values theoretical_values
  end.

Definition validate_syscall_invariant (p_values : list Z) (C : option Z)
    : IO (option (bool * list (Z * Qc))) :=
  let C := default 50%Z C in
  print SyscallHeader;;
  r ← syscall_loop C p_values [];
  match r with
  | None => mret None
  | Some theoretical_values =>
      print SyscallNote;;
      mret (Some (true, theoretical_values))
  end.

Definition validate_cycles_per_op_band (csv_files : list string)
    : IO (bool * Qc) :=
  print CyclesHeader;;
  print CyclesNote;;
  let estimated_cycles_per_op := Q2Qc 69.6 * Q2Qc 3.5 in
  print (CyclesEstimate estimated_cycles_per_op);;
  mret (true, estimated_cycles_per_op).

(** ** Observations *)

(** The data point a file contributes to the fit, if any: the file is
    readable, has an [rps] column and at least one row, and its name carries
    a depth. *)
Definition observation (fs : filesystem) (csv_file : string)
    : option (Z * Qc) :=
  df ← fs !! csv_file;
  guard (has_column df "rps" && bool_decide (0 < nrows df)%nat);;
  p ← search_P csv_file;
  throughput ← iloc0 df "rps";
  Some (p, throughput).

Definition observations (fs : filesystem) (csv_files : list string)
    : list (Z * Qc) :=
  omap (observation fs) csv_files.

(** A latency-bearing observation: depth, throughput, median latency in
    milliseconds, and the file it comes from. *)
Definition latency_observation (fs : filesystem) (csv_file : string)
    : option (Z * Qc * Qc * string) :=
  df ← fs !! csv_file;
  guard (has_column df "rps" && has_column df "p50_latency_ms");;
  p ← search_P csv_file;
  T ← iloc0 df "rps";
  p50_ms ← iloc0 df "p50_latency_ms";
  Some (p, T, p50_ms, csv_file).

(** Left- and right-hand side of the closure inequality [T · p50s ≤ C · p]. *)
Definition closure_lhs (o : Z * Qc * Qc * string) : Qc :=
  let '(_, T, p50_ms, _) := o in T * (p50_ms / Qc_of_Z 1000).
Definition closure_rhs (C : Z) (o : Z * Qc * Qc * string) : Z :=
  let '(p, _, _, _) := o in (C * p)%Z.
Definition violates (C : Z) (o : Z * Qc * Qc * string) : Prop :=
  Qc_of_Z (closure_rhs C o) < closure_lhs o.

Global Instance violates_dec C o : Decision (violates C o).
Proof. unfold violates. apply _. Defined.

Definition violation_record (C : Z) (o : Z * Qc * Qc * string)
    : Z * Qc * Z * string :=
  (o.1.1.1, closure_lhs o, closure_rhs C o, o.2).
Definition valid_record (C : Z) (o : Z * Qc * Qc * string) : Z * Qc * Z :=
  (o.1.1.1, closure_lhs o, closure_rhs C o).
Definition violation_line (v : Z * Qc * Z * string) : event :=
  let '(p, lhs, rhs, file) := v in ViolationLine p lhs rhs file.

(** The data model of the specification: depths are at least one,
    throughputs are positive, and a fit needs two distinct depths. *)
Definition valid_input (points : list (Z * Qc)) : Prop :=
  Forall (λ d, (1 ≤ d.1)%Z ∧ 0 < d.2) points
  ∧ (2 ≤ length (remove_dups points.*1))%nat.

Global Instance valid_input_dec points : Decision (valid_input points).
Proof. unfold valid_input. apply _. Defined.

(** Throughputs that follow the model [T(p) = p / (t0 + t1·p)] exactly. *)
Definition model_T (t0 t1 : Qc) (p : Z) : Qc :=
  Qc_of_Z p / (t0 + t1 * Qc_of_Z p).
Definition generated_from (t0 t1 : Qc) (points : list (Z * Qc)) : Prop :=
  Forall (λ d, d.2 = model_T t0 t1 d.1) points.

Global Instance generated_from_dec t0 t1 points :
  Decision (generated_from t0 t1 points).
Proof. unfold generated_from. apply _. Defined.

(** The linearized variables [x = p] and [y = p / T] over exact rationals. *)
Definition lin_x (points : list (Z * Qc)) : list Qc :=
  (λ d, Qc_of_Z d.1) <$> points.
Definition lin_y (points : list (Z * Qc)) : list Qc :=
  (λ d, Qc_of_Z d.1 / d.2) <$> points.

(** Goodness of fit in the specification's words, to compare the source
    with: residuals on the linearized scale, [y_i - ŷ_i] with
    [ŷ_i = t0 + t1·x_i], [SS_tot] about the mean of [y], and
    [R² = 1 - SS_res / SS_tot]. *)
Definition spec_ss_res (t0 t1 : Qc) (xs ys : list Qc) : Qc :=
  qsum (zip_with (λ y x, (y - (t0 + t1 * x)) * (y - (t0 + t1 * x))) ys xs).
Definition spec_ss_tot (ys : list Qc) : Qc :=
  qsum ((λ y, (y - qmean ys) * (y - qmean ys)) <$> ys).
Definition spec_r_squared (t0 t1 : Qc) (xs ys : list Qc) : float64 :=
  fsub (Fin 1) (fdiv (Fin (spec_ss_res t0 t1 xs ys)) (Fin (spec_ss_tot ys))).

(** The data points the fit runs on. *)
Definition sorted_observations (fs : filesystem) (csv_files : list string)
    : list (Z * Qc) :=
  merge_sort tuple_le (observations fs csv_files).

(** The unit factors, and the standard errors as the source computes them,
    over exact rationals. *)
Definition E6 : Qc := Qc_of_Z 1000000.
Definition E9 : Qc := Qc_of_Z 1000000000.

Definition q_mse (t0 t1 : Qc) (xs ys : list Qc) : Qc :=
  spec_ss_res t0 t1 xs ys / Qc_of_Z (Z.of_nat (length xs) - 2).
Definition q_se_t1 `{NumLib} (t0 t1 : Qc) (xs ys : list Qc) : Qc :=
  np_sqrt (q_mse t0 t1 xs ys / qsxx xs).
Definition q_se_t0 `{NumLib} (t0 t1 : Qc) (xs ys : list Qc) : Qc :=
  np_sqrt (q_mse t0 t1 xs ys
           * (1 / qlen xs + qmean xs * qmean xs / qsxx xs)).

(** What one file adds to [(violations, valid_points)]. *)
Definition closure_delta (fs : filesystem) (C : Z) (csv_file : string)
    : list (Z * Qc * Z * string) * list (Z * Qc * Z) :=
  match latency_observation fs csv_file with
  | None => ([], [])
  | Some o =>
      if decide (violates C o) then ([violation_record C o], [])
      else ([], [valid_record C o])
  end.

(** The theoretical syscall budget at concurrency [C] and depth [p]. *)
Definition syscalls_per_op (C p : Z) : Qc := Qc_of_Z 2 / Qc_of_Z (C * p).

(** ** A reference instance of the libraries

    Exact closed-form least squares, a square root correct to twelve
    decimals, and a table of the 0.975 quantiles of Student's t.  It makes
    the model run. *)

Definition ols_polyfit (x y : list float64) : float64 * float64 :=
  let x_mean := fmean x in
  let y_mean := fmean y in
  let sxy :=
    fsum (zip_with (λ xi yi, fmul (fsub xi x_mean) (fsub yi y_mean)) x y) in
  let sxx := fsum ((λ xi, fmul (fsub xi x_mean) (fsub xi x_mean)) <$> x) in
  let slope := fdiv sxy sxx in
  (slope, fsub y_mean (fmul slope x_mean)).

Definition approx_sqrt (q : Qc) : Qc :=
  let n := Qnum (this q) in
  let d := Qden (this q) in
  Q2Qc (Z.sqrt (n * Z.pos d * 10 ^ 24) # (d * 10 ^ 12)).

Definition t_table (q : Qc) (df : Z) : float64 :=
  if bool_decide (0 < df)%Z then
    Fin (match df with
         | 1 => Q2Qc 12.706 | 2 => Q2Qc 4.303 | 3 => Q2Qc 3.182
         | 4 => Q2Qc 2.776 | 5 => Q2Qc 2.571 | 6 => Q2Qc 2.447
         | 7 => Q2Qc 2.365 | 8 => Q2Qc 2.306 | 9 => Q2Qc 2.262
         | 10 => Q2Qc 2.228 | _ => Q2Qc 1.96
         end%Z)
  else NaN.

(** Sample inputs: one file per sample, each with a single row. *)
Definition frame (cells : list (string * Qc)) : DataFrame :=
  {| nrows := 1; columns := list_to_map (prod_map id (λ v, [v]) <$> cells) |}.
Definition bench_file (run p : Z) : string :=
  "run" +:+ pretty run +:+ "_P" +:+ pretty p +:+ ".csv".
Definition bench_fs (samples : list (string * list (string * Qc)))
    : filesystem :=
  list_to_map (prod_map id frame <$> samples).
Definition rps_sample (run : Z) (T : Z → Qc) (p : Z)
    : string * list (string * Qc) :=
  (bench_file run p, [("rps"%string, T p)]).

(** Exact model data at depths 1, 2, 4, 8, 16 for [t0] = 20 µs and
    [t1] = 100 ns (run 1) or 200 ns (run 2); throughput proportional to the
    depth (run 3, the model with [t1 = 0]); measurements off the model
    (run 4); five runs at the single depth 10; and two latency-bearing
    samples at depth 10, with and without a column of latencies beside. *)
Definition sample_t0 : Qc := Q2Qc 0.00002.
Definition sample_t1 : Qc := Q2Qc 0.0000001.
Definition depths : list Z := [1; 2; 4; 8; 16]%Z.
Definition shuffled : list Z := [8; 2; 1; 16; 4]%Z.

Definition sample_fs : filesystem :=
  bench_fs
    ((rps_sample 1 (model_T sample_t0 sample_t1) <$> depths)
     ++ (rps_sample 2 (model_T sample_t0 (sample_t1 + sample_t1)) <$> depths)
     ++ (rps_sample 3 (λ p, Qc_of_Z (1000 * p)) <$> depths)
     ++ (rps_sample 4 (λ p, Qc_of_Z (1000 * p + p * p)) <$> depths)
     ++ ((λ run, (bench_file run 10, [("rps"%string, Qc_of_Z (100000 + run))]))
           <$> [5; 6; 7; 8; 9]%Z)
     ++ [(bench_file 10 10, [("rps"%string, Qc_of_Z 100000);
                             ("p50_latency_ms"%string, Qc_of_Z 4)]);
         (bench_file 11 10, [("rps"%string, Qc_of_Z 100000);
                             ("p50_latency_ms"%string, Qc_of_Z 20)])]).

Definition run_files (run : Z) (ps : list Z) : list string :=
  bench_file run <$> ps.
Definition same_depth_files : list string :=
  (λ run, bench_file run 10) <$> [5; 6; 7; 8; 9]%Z.

(** ** Well-formed data frames *)

(** In a frame that pandas built, every column has one cell per row. *)
Definition well_formed (fs : filesystem) : Prop :=
  map_Forall (λ _ df,
    map_Forall (λ _ col, length col = nrows df) (columns df)) fs.

Global Instance well_formed_dec fs : Decision (well_formed fs).
Proof. unfold well_formed. apply _. Defined.

(** ** Paths

    A string that does not start with a digit: appended to a path, it
    cannot lengthen a run of digits the path ends with. *)
Definition no_leading_digit (s : string) : Prop :=
  match s with
  | EmptyString => True
  | String c _ => digit c = None
  end.

(** A path of ASCII text: every character is below 128.  Only on such
    paths is [digit] the [\d] of Python, which on other text also takes the
    decimal digits of other scripts. *)
Fixpoint ascii_path (s : string) : Prop :=
  match s with
  | EmptyString => True
  | String c s' => (nat_of_ascii c < 128)%nat ∧ ascii_path s'
  end.

Global Instance ascii_path_dec s : Decision (ascii_path s).
Proof. induction s; simpl; apply _. Defined.

(** ** Plots, files and exceptions

    Beyond printing, the scripts call matplotlib, write JSON files and may
    raise.  A run is described by the sequence of its effects, in order, and
    by how it ends.  Matplotlib calls are recorded with their data; colours,
    sizes and other styling arguments are left out, and so is the rendering
    of numbers in f-strings: a formatted number is recorded with its format.
    The calls themselves are taken not to raise. *)

Inductive exn := ZeroDivisionError | ValueError | KeyError | IndexError.

Global Instance exn_eq_dec : EqDecision exn.
Proof. solve_decision. Defined.

(** An f-string: text, and numbers with the digits after the point. *)
Inductive piece :=
  | Text (s : string)
  | Num (x : float64) (decimals : nat)
  | Int (n : Z)
  | Newline.

Definition fstring := list piece.

Inductive plt_call :=
  | plt_figure (width height : Z)
  | plt_scatter (xs ys : list float64) (label : string)
  | plt_plot (xs ys : list float64) (label : fstring)
  | plt_xlabel (s : string)
  | plt_ylabel (s : string)
  | plt_title (s : fstring)
  | plt_legend
  | plt_grid
  | plt_xlim (lo hi : float64)
  | plt_ylim (lo hi : float64)
  | plt_annotate (text : fstring) (xy xytext : float64 * float64)
  | plt_tight_layout
  | plt_savefig (path : string)
  | plt_close.

(** What [validate-invariants.py] saves. *)
Record invariant_results := {
  pipeline_closure_valid : bool;
  pipeline_closure_points_tested : Z;
  syscall_budget_valid : bool;
  syscall_budget_theoretical_values : list (Z * Qc);
  cycles_per_op_band_valid : bool;
  cycles_per_op_band_estimated_cycles_per_op : Qc
}.

Inductive document :=
  | FitResults (r : results)
  | InvariantResults (r : invariant_results).

Inductive effect :=
  (** a line printed by one of the functions above *)
  | Says (e : event)
  (** [print(f"...")] *)
  | Prints (line : fstring)
  (** a call of [matplotlib.pyplot] *)
  | Plt (call : plt_call)
  (** [json.dump(content, open(path, 'w'), indent=2)] *)
  | JsonDump (path : string) (content : document).

Definition trace := list effect.

Inductive outcome (A : Type) :=
  | Returned (a : A)
  | Raised (e : exn).
Global Arguments Returned {_} _.
Global Arguments Raised {_} _.

(** A script: it extends the trace and returns or raises. *)
Definition Script (A : Type) : Type := trace → outcome A * trace.

Global Instance Script_ret : MRet Script := λ A a tr, (Returned a, tr).
Global Instance Script_bind : MBind Script := λ A B f m tr,
  match m tr with
  | (Returned a, tr') => f a tr'
  | (Raised e, tr') => (Raised e, tr')
  end.

Definition raise {A} (e : exn) : Script A := λ tr, (Raised e, tr).
Definition emit (e : effect) : Script unit := λ tr, (Returned tt, tr ++ [e]).
Definition plt (call : plt_call) : Script unit := emit (Plt call).
Definition say (line : fstring) : Script unit := emit (Prints line).

(** A function that only prints, called from a script: its lines join the
    trace. *)
Definition call {A} (m : IO A) : Script A := λ tr,
  let '(a, out) := m [] in (Returned a, tr ++ (Says <$> out)).

(** Division of two Python floats (or integers): a zero divisor raises. *)
Definition py_div (a b : float64) : Script float64 :=
  match b with
  | Fin q => if Qc_zero q then raise ZeroDivisionError else mret (fdiv a b)
  | _ => mret (fdiv a b)
  end.

(** [l[i]] *)
Definition py_index {A} (l : list A) (i : nat) : Script A :=
  match l !! i with
  | Some a => mret a
  | None => raise IndexError
  end.

(** The builtin [max] of a sequence: the first item that no later item
    exceeds; [ValueError] on an empty one. *)
Definition py_max (l : list float64) : Script float64 :=
  match l with
  | [] => raise ValueError
  | x :: l => mret (foldl (λ best y, if flt best y then y else best) x l)
  end.

(** Unpacking the [zip] of all [rows] into two names: the zip has as many
    columns as the shortest row has cells, and there must be exactly two. *)
Definition row2 (row : list float64) : option (float64 * float64) :=
  match row with
  | a :: b :: _ => Some (a, b)
  | _ => None
  end.

Definition unzip2 (rows : list (list float64))
    : Script (list float64 * list float64) :=
  match mapM row2 rows with
  | Some pairs =>
      if bool_decide (Exists (λ row, length row = 2%nat) rows)
      then mret (pairs.*1, pairs.*2)
      else raise ValueError
  | None => raise ValueError
  end.

(** [np.linspace(start, stop, num)]: [num] evenly spaced samples, the last
    one [stop] itself. *)
Definition np_linspace (start stop : float64) (num : nat) : list float64 :=
  let step := fdiv (fsub stop start) (of_int (Z.of_nat (num - 1))) in
  (λ i, if bool_decide (S i = num) then stop
        else fadd (fmul (of_int (Z.of_nat i)) step) start) <$> seq 0 num.

Definition em6 : float64 := Fin (/ Qc_of_Z 1000000).
Definition em9 : float64 := Fin (/ Qc_of_Z 1000000000).

(** What a run leaves on disk: the JSON documents written and the figures
    saved, in order. *)
Definition json_dumps (tr : trace) : list (string * document) :=
  omap (λ e, match e with JsonDump path doc => Some (path, doc) | _ => None end)
       tr.

Definition saved_figures (tr : trace) : list string :=
  omap (λ e, match e with Plt (plt_savefig path) => Some path | _ => None end)
       tr.

(** The curve [p / (t0 + t1 * p) / 1e6] of the figures, in Mops/s. *)
Definition model_curve (t0 t1 p : float64) : float64 :=
  fdiv (fdiv p (fadd t0 (fmul t1 p))) e6.

Module fit_throughput_model.

Definition generate_figure (results : option results) (output_path : string)
    : Script unit :=
  match results with
  | None => mret ()
  | Some results =>
      '(p_values, T_values) ← unzip2 (raw_data results);
      let t0 := fmul (t0_us_per_batch results) em6 in
      let t1 := fmul (t1_ns_per_op results) em9 in
      p_max ← py_max p_values;
      let p_model := np_linspace (Fin 1) (fmul p_max (Fin (Q2Qc 1.2))) 200 in
      let T_model := model_curve t0 t1 <$> p_model in
      plt (plt_figure 10 6);;
      plt (plt_scatter p_values ((λ T, fdiv T e6) <$> T_values) "Measured");;
      plt (plt_plot p_model T_model
             [Text "Model: T(p) = p/("; Num (t0_us_per_batch results) 2;
              Text " + "; Num (t1_ns_per_op results) 1; Text "p)"]);;
      plt (plt_xlabel "Pipeline Depth (p)");;
      plt (plt_ylabel "Throughput (Mops/s)");;
      plt (plt_title [Text "Throughput vs Pipeline Depth (R² = ";
                      Num (r_squared results) 3; Text ")"]);;
      plt plt_legend;;
      plt plt_grid;;
      knee_p ← py_div (fmul (t0_us_per_batch results) em6)
                      (fmul (t1_ns_per_op results) em9);
      knee_T' ← py_div (Fin 1)
                       (fmul (fmul (Fin (Qc_of_Z 2)) (t1_ns_per_op results)) em9);
      knee_T ← py_div knee_T' e6;
      plt (plt_annotate [Text "Knee at p ≈ "; Num knee_p 0]
             (knee_p, knee_T)
             (fmul knee_p (Fin (Q2Qc 1.5)), fmul knee_T (Fin (Q2Qc 0.8))));;
      plt plt_tight_layout;;
      plt (plt_savefig output_path);;
      plt plt_close
  end.

(** [csv_files] is what [glob.glob] found in the data directory. *)
Definition main `{NumLib} (fs : filesystem) (csv_files : list string)
    : Script unit :=
  if bool_decide (csv_files = []) then
    say [Text "No CSV files found in ../data/bench"]
  else
    say [Text "Processing "; Int (Z.of_nat (length csv_files));
         Text " CSV files..."];;
    results ← call (fit_batched_service_model fs csv_files);
    match results with
    | Some r =>
        say [Newline; Text "CQDAM Throughput Model Results:"];;
        say [Text "========================================"];;
        lo0 ← py_index (t0_confidence_interval r) 0;
        hi0 ← py_index (t0_confidence_interval r) 1;
        say [Text "t₀ = "; Num (t0_us_per_batch r) 2; Text " μs/batch [";
             Num lo0 2; Text ", "; Num hi0 2; Text "]"];;
        lo1 ← py_index (t1_confidence_interval r) 0;
        hi1 ← py_index (t1_confidence_interval r) 1;
        say [Text "t₁ = "; Num (t1_ns_per_op r) 1; Text " ns/op [";
             Num lo1 1; Text ", "; Num hi1 1; Text "]"];;
        say [Text "R² = "; Num (r_squared r) 6];;
        say [Text "Tₘₐₓ = "; Num (Tmax_Mops_s r) 2; Text " Mops/s"];;
        say [Text "Data points: "; Int (data_points r)];;
        generate_figure results "throughput_vs_pipeline_model.png";;
        say [Newline; Text "Figure saved: throughput_vs_pipeline_model.png"];;
        emit (JsonDump "model_fit_results.json" (FitResults r));;
        say [Text "Results saved: model_fit_results.json"]
    | None => say [Text "Model fitting failed"]
    end.

End fit_throughput_model.

Module validate_invariants.

Definition generate_pipeline_closure_figure
    (valid_points : list (Z * Qc * Z)) (output_path : string) : Script unit :=
  if bool_decide (valid_points = []) then mret ()
  else
    let lhs_vals := (λ v : Z * Qc * Z, Fin v.1.2) <$> valid_points in
    let rhs_vals := (λ v : Z * Qc * Z, of_int v.2) <$> valid_points in
    plt (plt_figure 10 6);;
    plt (plt_scatter rhs_vals lhs_vals "Measured Points");;
    max_rhs ← py_max rhs_vals;
    max_lhs ← py_max lhs_vals;
    m ← py_max [max_rhs; max_lhs];
    let max_val := fmul m (Fin (Q2Qc 1.1)) in
    plt (plt_plot [Fin 0; max_val] [Fin 0; max_val]
           [Text "y = x (Closure Boundary)"]);;
    plt (plt_xlabel "C · p");;
    plt (plt_ylabel "T · p50s");;
    plt (plt_title [Text "Pipeline Closure Verification"; Newline;
                    Text "(All points must lie at or below y = x line)"]);;
    plt plt_legend;;
    plt plt_grid;;
    plt plt_tight_layout;;
    plt (plt_savefig output_path);;
    plt plt_close.

(** [sorted(list(set(p_values)))] of the depths found in the file names. *)
Definition depths_of (csv_files : list string) : list Z :=
  merge_sort Z.le (elements (list_to_set (omap search_P csv_files) : gset Z)).

Definition pass_fail (b : bool) : piece := Text (if b then "PASS" else "FAIL").

(** A raised [ZeroDivisionError] is [None] in [validate_syscall_invariant]. *)
Definition call_syscall (p_values : list Z)
    : Script (bool * list (Z * Qc)) :=
  r ← call (validate_syscall_invariant p_values None);
  match r with
  | Some v => mret v
  | None => raise ZeroDivisionError
  end.

(** [csv_files] is what [glob.glob] found in the data directory. *)
Definition main (fs : filesystem) (csv_files : list string) : Script unit :=
  say [Text "CQDAM System Invariant Validation"];;
  say [Text "========================================"];;
  if bool_decide (csv_files = []) then
    say [Text "No CSV files found in ../data/bench"]
  else
    say [Text "Processing "; Int (Z.of_nat (length csv_files));
         Text " CSV files..."];;
    let p_values := depths_of csv_files in
    say [Newline; Text "Validating System Invariants:"];;
    say [Text "------------------------------"];;
    '(closure_valid, closure_points) ←
      call (validate_pipeline_closure fs csv_files None);
    '(syscall_valid, syscall_points) ← call_syscall p_values;
    '(cycles_valid, cycles_estimate) ←
      call (validate_cycles_per_op_band csv_files);
    (if bool_decide (closure_points ≠ []) then
       generate_pipeline_closure_figure closure_points
         "pipeline_closure_validation.png";;
       say [Newline; Text "Pipeline closure figure saved: ";
            Text "pipeline_closure_validation.png"]
     else mret ());;
    say [Newline; Text "Invariant Validation Summary:"];;
    say [Text "1. Pipeline Closure: "; pass_fail closure_valid];;
    say [Text "2. Syscall Budget: "; pass_fail syscall_valid];;
    say [Text "3. Cycles/op Band: "; pass_fail cycles_valid];;
    let results := {|
      pipeline_closure_valid := closure_valid;
      pipeline_closure_points_tested :=
        (if bool_decide (closure_points ≠ [])
         then Z.of_nat (length closure_points) else 0)%Z;
      syscall_budget_valid := syscall_valid;
      syscall_budget_theoretical_values := syscall_points;
      cycles_per_op_band_valid := cycles_valid;
      cycles_per_op_band_estimated_cycles_per_op := cycles_estimate
    |} in
    emit (JsonDump "invariant_validation_results.json"
            (InvariantResults results));;
    say [Text "Results saved: invariant_validation_results.json"].

End validate_invariants.

(** ** generate-figures.py

    The third script draws the figures of the paper from the same files.
    Its table of benchmark rows is a pandas data frame, here the list of its
    rows; of pandas the figures use a filter, a test for emptiness and
    [sort_values], whose default algorithm is not stable: it enters through
    the interface [PandasLib] as some sorted rearrangement of the rows.
    [figure3_pipeline_closure] tests every latency cell with [pd.notna],
    which tells an empty field from a number, [figure5_energy_vs_pipeline]
    raises depths to the power 0.3, which has no exact rational value, and
    [main] lists the files of the output directory; none of the three is
    embedded. *)

(** [re.search(r'C(\d+)', csv_file)] followed by [int(group(1))] *)
Fixpoint search_C (s : string) : option Z :=
  match s with
  | EmptyString => None
  | String c s' =>
      if bool_decide (c = "C"%char) then
        match digits s' None with
        | Some p => Some p
        | None => search_C s'
        end
      else search_C s'
  end.

(** [os.path.basename]: what follows the last slash. *)
Fixpoint basename_from (s acc : string) : string :=
  match s with
  | EmptyString => acc
  | String c s' =>
      if bool_decide (c = "/"%char) then basename_from s' ""
      else basename_from s' (acc +:+ String c "")
  end.
Definition basename (s : string) : string := basename_from s "".

Fixpoint ends_with_slash (s : string) : bool :=
  match s with
  | EmptyString => false
  | String c EmptyString => bool_decide (c = "/"%char)
  | String _ s' => ends_with_slash s'
  end.

(** [os.path.join(a, b)] for a relative name [b]. *)
Definition path_join (a b : string) : string :=
  if bool_decide (a = "") || ends_with_slash a then a +:+ b
  else a +:+ "/" +:+ b.

(** Running a script on each item of a list, as a list comprehension does. *)
Fixpoint script_map {A B} (f : A → Script B) (l : list A) : Script (list B) :=
  match l with
  | [] => mret []
  | a :: l => b ← f a; bs ← script_map f l; mret (b :: bs)
  end.

(** [for a in l: body(a)] *)
Fixpoint script_for {A} (l : list A) (body : A → Script unit) : Script unit :=
  match l with
  | [] => mret ()
  | a :: l => body a;; script_for l body
  end.

Module generate_figures.

(** A row of the table that [load_benchmark_data] returns; a latency that
    the file does not have is [NaN] in pandas, [None] here. *)
Record row := {
  pipeline_depth : Z;
  clients : Z;
  throughput_ops_s : Qc;
  throughput_Mops_s : Qc;
  filename : string;
  p50_latency_ms : option Qc;
  p95_latency_ms : option Qc;
  p99_latency_ms : option Qc
}.

Class PandasLib := {
  (** [data.sort_values('pipeline_depth')] *)
  sort_values : list row → list row;
  sort_values_perm data : sort_values data ≡ₚ data;
  sort_values_sorted data :
    StronglySorted (λ a b, (pipeline_depth a ≤ pipeline_depth b)%Z)
      (sort_values data)
}.

(** The first cell of an optional column: [None] when the cell is missing
    and [iloc[0]] raises, [Some None] when the column is not there. *)
Definition optional_cell (df : DataFrame) (name : string)
    : option (option Qc) :=
  if has_column df name then Some <$> iloc0 df name else Some None.

(** The dictionary built for one file, or [None] when building it raises. *)
Definition make_row (df : DataFrame) (csv_file : string) (p c : Z)
    : option row :=
  T ← iloc0 df "rps";
  p50 ← optional_cell df "p50_latency_ms";
  p95 ← optional_cell df "p95_latency_ms";
  p99 ← optional_cell df "p99_latency_ms";
  Some {| pipeline_depth := p;
          clients := c;
          throughput_ops_s := T;
          throughput_Mops_s := T / E6;
          filename := basename csv_file;
          p50_latency_ms := p50;
          p95_latency_ms := p95;
          p99_latency_ms := p99 |}.

(** The body of the loop over [csv_files]. *)
Definition load_row (fs : filesystem) (data : list row) (csv_file : string)
    : IO (list row) :=
  match fs !! csv_file with
  | None => print (Skipping csv_file);; mret data
  | Some df =>
      if has_column df "rps" then
        match search_P csv_file with
        | Some p =>
            let c := default 50%Z (search_C csv_file) in
            match make_row df csv_file p c with
            | Some row => mret (data ++ [row])
            | None => print (Skipping csv_file);; mret data
            end
        | None => mret data
        end
      else mret data
  end.

(** [csv_files] is what [glob.glob] found in [data_dir]. *)
Definition load_benchmark_data (fs : filesystem) (csv_files : list string)
    : IO (list row) :=
  for_each csv_files (load_row fs) [].

Record model_params := {
  t0_us : float64;
  t1_ns : float64;
  r_squared : float64
}.

(** [data[data['clients'] == 50]]: a table without rows has no columns, and
    the lookup raises. *)
Definition c50_rows (data : list row) : Script (list row) :=
  if bool_decide (data = []) then raise KeyError
  else mret (filter (λ r, clients r = 50%Z) data).

(** [1 - np.sum((y - y_pred)**2) / np.sum((y - np.mean(y))**2)] *)
Definition np_r_squared (y y_pred : list float64) : float64 :=
  fsub (Fin 1)
    (fdiv (fsum (zip_with (λ yi pi, fsq (fsub yi pi)) y y_pred))
          (fsum ((λ yi, fsq (fsub yi (fmean y))) <$> y))).

Definition figure1_throughput_vs_pipeline `{NumLib} `{PandasLib}
    (data : list row) (output_dir : option string)
    : Script (option model_params) :=
  let output_dir := default "." output_dir in
  c50_data ← c50_rows data;
  if bool_decide (c50_data = []) then
    say [Text "No C=50 data found for Figure 1"];; mret None
  else
    let c50_data := sort_values c50_data in
    let p_vals := (λ r, of_int (pipeline_depth r)) <$> c50_data in
    let T_vals := (λ r, Fin (throughput_ops_s r)) <$> c50_data in
    let y := zip_with fdiv p_vals T_vals in
    let x := p_vals in
    let '(t1, t0) := np_polyfit x y in
    let t0_us := t0 in
    let t1_ns := fmul t1 (of_int 1000) in
    let y_pred := (λ xi, fadd t0 (fmul t1 xi)) <$> x in
    let r_squared := np_r_squared y y_pred in
    p_max ← py_max p_vals;
    let p_model := np_linspace (Fin 1) (fmul p_max (Fin (Q2Qc 1.2))) 200 in
    let T_model := model_curve t0 t1 <$> p_model in
    plt (plt_figure 10 6);;
    plt (plt_scatter p_vals ((λ T, fdiv T e6) <$> T_vals) "Measured");;
    plt (plt_plot p_model T_model
           [Text "Model: T(p) = p/("; Num t0_us 2; Text " + "; Num t1_ns 1;
            Text "p)"]);;
    let knee_p := fdiv t0 t1 in
    plt (plt_annotate [Text "Knee at p ≈ "; Num knee_p 0]
           (knee_p, of_int 2)
           (fmul knee_p (Fin (Q2Qc 1.5)), Fin (Q2Qc 1.5)));;
    plt (plt_xlabel "Pipeline Depth (p)");;
    plt (plt_ylabel "Throughput (Mops/s)");;
    plt (plt_title [Text "Throughput vs Pipeline with Model Overlay"]);;
    plt plt_legend;;
    plt plt_grid;;
    p_max ← py_max p_vals;
    plt (plt_xlim (of_int 0) (fmul p_max (Fin (Q2Qc 1.1))));;
    T_max ← py_max ((λ T, fdiv T e6) <$> T_vals);
    plt (plt_ylim (of_int 0) (fmul T_max (Fin (Q2Qc 1.1))));;
    plt (plt_savefig (path_join output_dir "figure1_throughput_vs_pipeline.png"));;
    plt plt_close;;
    mret (Some {| t0_us := t0_us; t1_ns := t1_ns; r_squared := r_squared |}).

Definition figure2_linearized_fit `{NumLib} `{PandasLib}
    (data : list row) (output_dir : option string) : Script unit :=
  let output_dir := default "." output_dir in
  c50_data ← c50_rows data;
  if bool_decide (c50_data = []) then mret ()
  else
    let c50_data := sort_values c50_data in
    let p_vals := (λ r, of_int (pipeline_depth r)) <$> c50_data in
    let T_vals := (λ r, Fin (throughput_ops_s r)) <$> c50_data in
    let y := zip_with (λ p T, fmul (fdiv p T) e6) p_vals T_vals in
    let x := p_vals in
    let '(t1, t0) := np_polyfit x y in
    x_max ← py_max x;
    let x_model := np_linspace (of_int 0) (fmul x_max (Fin (Q2Qc 1.1))) 100 in
    let y_model := (λ xi, fadd t0 (fmul t1 xi)) <$> x_model in
    let y_pred := (λ xi, fadd t0 (fmul t1 xi)) <$> x in
    let r_squared := np_r_squared y y_pred in
    plt (plt_figure 10 6);;
    plt (plt_scatter x y "Data");;
    plt (plt_plot x_model y_model
           [Text "Fit: y = "; Num t0 2; Text " + ";
            Num (fmul t1 (of_int 1000)) 1; Text "p (R² = "; Num r_squared 3;
            Text ")"]);;
    plt (plt_xlabel "Pipeline Depth (p)");;
    plt (plt_ylabel "p/T(p) (μs)");;
    plt (plt_title [Text "Linearized Fit p/T vs p with 95% CIs"]);;
    plt plt_legend;;
    plt plt_grid;;
    plt (plt_savefig (path_join output_dir "figure2_linearized_fit.png"));;
    plt plt_close.

(** The annotations of the first points: [enumerate(p_values[:3])]. *)
Definition annotate_points (p_values : list Z) (xs ys : list float64)
    : Script unit :=
  script_for (imap (λ i p, (i, p)) (take 3 p_values)) (λ '(i, p),
    x ← py_index xs i;
    y ← py_index ys i;
    plt (plt_annotate [Text "p="; Int p] (x, y) (of_int 5, of_int 5))).

Definition figure4_syscalls_vs_inverse_cp
    (p_values : option (list Z)) (C : option Z) (output_dir : option string)
    : Script unit :=
  let p_values := default [1; 10; 50; 100; 200; 500]%Z p_values in
  let C := default 50%Z C in
  let output_dir := default "." output_dir in
  inverse_cp ← script_map (λ p, py_div (of_int 1) (of_int (C * p))) p_values;
  syscalls_per_op ←
    script_map (λ p, py_div (of_int 2) (of_int (C * p))) p_values;
  plt (plt_figure 10 6);;
  plt (plt_plot inverse_cp syscalls_per_op [Text "Theory: 2/(Cp)"]);;
  plt (plt_xlabel "1/(Cp)");;
  plt (plt_ylabel "Syscalls per Operation");;
  plt (plt_title [Text "Syscalls/op vs 1/(Cp) with Overlay"]);;
  plt plt_legend;;
  plt plt_grid;;
  annotate_points p_values inverse_cp syscalls_per_op;;
  plt (plt_savefig (path_join output_dir "figure4_syscalls_vs_inverse_cp.png"));;
  plt plt_close.

End generate_figures.

(** A reference instance of the pandas interface: a stable merge sort. *)
Definition depth_le (a b : generate_figures.row) : Prop :=
  (generate_figures.pipeline_depth a ≤ generate_figures.pipeline_depth b)%Z.

Global Instance depth_le_dec : RelDecision depth_le.
Proof. intros a b. unfold depth_le. apply _. Defined.

(** The data point of a row, and the row a file gives, if any. *)
Definition row_point (r : generate_figures.row) : Z * Qc :=
  (generate_figures.pipeline_depth r, generate_figures.throughput_ops_s r).

Definition row_of (fs : filesystem) (csv_file : string)
    : option generate_figures.row :=
  df ← fs !! csv_file;
  guard (has_column df "rps");;
  p ← search_P csv_file;
  generate_figures.make_row df csv_file p (default 50%Z (search_C csv_file)).

(** Run 1 again, with its throughputs a thousand times larger. *)
Definition rescaled_fs : filesystem :=
  bench_fs (rps_sample 1 (λ p, model_T sample_t0 sample_t1 p * Qc_of_Z 1000)
              <$> depths).

(** ** The closure check on frames with empty cells

    [pandas.read_csv] reads an empty field as NaN, and the check computes in
    binary64.  In this second reading of [validate_pipeline_closure] a cell
    is a [float64], NaN included, and every arithmetic result is rounded by
    [fl], of which nothing is assumed.  (Cells of text, and depths too large
    to convert to binary64, stay outside.) *)
Class Binary64 := { fl : Qc → float64 }.

Definition rounded `{Binary64} (a : float64) : float64 :=
  match a with
  | Fin q => fl q
  | _ => a
  end.

Record RawFrame := {
  raw_nrows : nat;
  raw_columns : gmap string (list float64)
}.

Definition raw_iloc0 (df : RawFrame) (name : string) : option float64 :=
  col ← raw_columns df !! name; head col.

Definition raw_has_column (df : RawFrame) (name : string) : bool :=
  bool_decide (is_Some (raw_columns df !! name)).

Definition raw_filesystem := gmap string RawFrame.

Module with_empty_cells.

(** The body of the loop; the state is [(violations, valid_points)], and
    any exception leaves it as it is. *)
Definition closure_point `{Binary64} (fs : raw_filesystem) (C : Z)
    (st : list (Z * float64 * Z * string) * list (Z * float64 * Z))
    (csv_file : string)
    : list (Z * float64 * Z * string) * list (Z * float64 * Z) :=
  let '(violations, valid_points) := st in
  match fs !! csv_file with
  | None => st
  | Some df =>
      if raw_has_column df "rps" && raw_has_column df "p50_latency_ms" then
        match search_P csv_file with
        | Some p =>
            match raw_iloc0 df "rps", raw_iloc0 df "p50_latency_ms" with
            | Some T, Some p50_ms =>
                let p50_s := rounded (fdiv p50_ms (of_int 1000)) in
                let lhs := rounded (fmul T p50_s) in
                let rhs := (C * p)%Z in
                if fle lhs (rounded (of_int rhs)) then
                  (violations, valid_points ++ [(p, lhs, rhs)])
                else
                  (violations ++ [(p, lhs, rhs, csv_file)], valid_points)
            | _, _ => st
            end
        | None => st
        end
      else st
  end.

Definition print_violation (v : Z * float64 * Z * string) : Script unit :=
  let '(p, lhs, rhs, file) := v in
  say [Text "  p="; Int p; Text ": "; Num lhs 1; Text " > "; Int rhs;
       Text " ("; Text file; Text ")"].

Definition validate_pipeline_closure `{Binary64}
    (fs : raw_filesystem) (csv_files : list string) (C : option Z)
    : Script (bool * list (Z * float64 * Z)) :=
  let C := default 50%Z C in
  let '(violations, valid_points) :=
    foldl (closure_point fs C) ([], []) csv_files in
  emit (Says (ClosureHeader C));;
  emit (Says (ValidPoints (length valid_points)));;
  emit (Says (Violations (length violations)));;
  (if bool_decide (violations ≠ []) then
     emit (Says ViolationsFound);;
     script_for violations print_violation
   else mret ());;
  mret (bool_decide (length violations = 0%nat), valid_points).

End with_empty_cells.

(** Exact arithmetic is one such reading, and a frame of numbers is a frame
    without empty cells. *)
Definition exact_arithmetic : Binary64 := {| fl := Fin |}.

Definition raw_of (df : DataFrame) : RawFrame :=
  {| raw_nrows := nrows df; raw_columns := (λ col : list Qc, Fin <$> col) <$> columns df |}.

Definition raw_violation (v : Z * Qc * Z * string)
    : Z * float64 * Z * string :=
  let '(p, lhs, rhs, file) := v in (p, Fin lhs, rhs, file).

Definition raw_point (v : Z * Qc * Z) : Z * float64 * Z :=
  let '(p, lhs, rhs) := v in (p, Fin lhs, rhs).

(** A file whose only row has a throughput and an empty latency field:
    [rps,p50_latency_ms] over [100000,]. *)
Definition empty_latency_fs : raw_filesystem :=
  {[ "run_P10.csv" :=
       {| raw_nrows := 1;
          raw_columns :=
            list_to_map [("rps", [of_int 100000]);
                         ("p50_latency_ms", [NaN])] |} ]}.

(** * Properties *)

(** ** Exact rationals: a few order facts *)

Section qc_facts.
Implicit Types a b c : Qc.

Lemma Qc_square_nonneg a : 0 ≤ a * a.
Proof.
  destruct (Qclt_le_dec a 0) as [Hneg|Hpos].
  - replace (a * a) with ((- a) * (- a)) by ring.
    assert (0 ≤ - a).
    { apply Qclt_le_weak in Hneg. apply Qcopp_le_compat in Hneg.
      by replace (- 0) with 0 in Hneg by ring. }
    by apply Qcmult_nonneg_nonneg.
  - by apply Qcmult_nonneg_nonneg.
Qed.

Lemma Qc_square_zero a : a * a = 0 → a = 0.
Proof.
  intros H. destruct (decide (a = 0)) as [|Hne]; [done|].
  exfalso. apply Hne.
  rewrite <-(Qcmult_1_l a), <-(Qcmult_inv_l a Hne), <-Qcmult_assoc, H. ring.
Qed.

Lemma Qc_sub_le a c : 0 ≤ c → a - c ≤ a.
Proof.
  intros Hc. apply Qcle_minus_iff.
  by replace (a + - (a - c)) with c by ring.
Qed.

Lemma Qc_le_add a c : 0 ≤ c → a ≤ a + c.
Proof.
  intros Hc. apply Qcle_minus_iff.
  by replace (a + c + - a) with c by ring.
Qed.

Lemma Qc_div_nonneg a b : 0 ≤ a → 0 < b → 0 ≤ a / b.
Proof.
  intros Ha Hb. apply Qcmult_nonneg_nonneg; [done|].
  by apply Qclt_le_weak, Qcinv_pos.
Qed.

Lemma Qc_nonneg_ne_pos a : 0 ≤ a → a ≠ 0 → 0 < a.
Proof.
  intros Ha Hne. destruct (Qclt_le_dec 0 a) as [|Hle]; [done|].
  destruct Hne. by apply Qcle_antisym.
Qed.

Lemma Qc_sum_nonneg_zero a b : 0 ≤ a → 0 ≤ b → a + b = 0 → a = 0 ∧ b = 0.
Proof.
  intros Ha Hb Hab.
  assert (a ≤ 0).
  { rewrite <-Hab. by apply Qc_le_add. }
  assert (a = 0) as -> by (by apply Qcle_antisym).
  split; [done|]. by rewrite Qcplus_0_l in Hab.
Qed.

Lemma Qc_of_Z_ne_0 (n : Z) : n ≠ 0%Z → Qc_of_Z n ≠ 0.
Proof. rewrite <-Z2Qc_inj_0. by intros Hn ?%Z2Qc_inj. Qed.

Lemma Qc_of_Z_pos (n : Z) : (0 < n)%Z → 0 < Qc_of_Z n.
Proof. rewrite <-Z2Qc_inj_0. apply Z2Qc_inj_lt. Qed.
End qc_facts.

(** ** Finite floats compute like rationals *)

Section finite.
Implicit Types (a b : Qc) (l k : list Qc).

Lemma Qc_zero_false a : a ≠ 0 → Qc_zero a = false.
Proof. intros. unfold Qc_zero. by rewrite bool_decide_eq_false. Qed.

Lemma Qc_neg_false a : 0 ≤ a → Qc_neg a = false.
Proof.
  intros. unfold Qc_neg. rewrite bool_decide_eq_false. by apply Qcle_not_lt.
Qed.

Lemma fdiv_Fin a b : b ≠ 0 → fdiv (Fin a) (Fin b) = Fin (a / b).
Proof. intros. simpl. by rewrite Qc_zero_false. Qed.

Lemma fsum_Fin l : fsum (Fin <$> l) = Fin (qsum l).
Proof.
  unfold fsum. induction l as [|a l IH]; [done|].
  rewrite fmap_cons. simpl. by rewrite IH.
Qed.

Lemma qlen_ne_0 l : l ≠ [] → qlen l ≠ 0.
Proof. intros. apply Qc_of_Z_ne_0. destruct l; [done|]. simpl. lia. Qed.

Lemma fmean_Fin l : l ≠ [] → fmean (Fin <$> l) = Fin (qmean l).
Proof.
  intros. unfold fmean. rewrite fsum_Fin, length_fmap.
  by apply fdiv_Fin, qlen_ne_0.
Qed.

Lemma fmap_Fin (f : float64 → float64) (g : Qc → Qc) l :
  (∀ a, f (Fin a) = Fin (g a)) → f <$> (Fin <$> l) = Fin <$> (g <$> l).
Proof.
  intros Hfg. rewrite <-!list_fmap_compose. apply list_fmap_ext.
  intros _ a _. apply Hfg.
Qed.

Lemma zip_with_Fin (f : float64 → float64 → float64) (g : Qc → Qc → Qc) l k :
  (∀ a b, f (Fin a) (Fin b) = Fin (g a b)) →
  zip_with f (Fin <$> l) (Fin <$> k) = Fin <$> zip_with g l k.
Proof.
  intros Hfg. revert k. induction l as [|a l IH]; intros [|b k]; [done..|].
  simpl. by rewrite Hfg, IH.
Qed.
End finite.

(** ** Sums *)

Section sums.
Implicit Types (a b c : Qc) (l k : list Qc).

Lemma qsum_cons a l : qsum (a :: l) = a + qsum l.
Proof. done. Qed.

Lemma qsum_nonneg l : Forall (λ a, 0 ≤ a) l → 0 ≤ qsum l.
Proof.
  induction 1 as [|a l Ha _ IH]; [done|].
  rewrite qsum_cons. by apply Qcplus_nonneg_nonneg.
Qed.

Lemma qsum_nonneg_zero l :
  Forall (λ a, 0 ≤ a) l → qsum l = 0 → Forall (λ a, a = 0) l.
Proof.
  induction 1 as [|a l Ha Hl IH]; intros Hsum; [done|].
  rewrite qsum_cons in Hsum.
  apply Qc_sum_nonneg_zero in Hsum as [-> ?]; [|done|by apply qsum_nonneg].
  constructor; auto.
Qed.

Lemma qsum_zero l : Forall (λ a, a = 0) l → qsum l = 0.
Proof.
  induction 1 as [|a l -> _ IH]; [done|]. rewrite qsum_cons, IH. ring.
Qed.

Lemma qsum_scale {A} c (f : A → Qc) (l : list A) :
  qsum ((λ x, c * f x) <$> l) = c * qsum (f <$> l).
Proof.
  induction l as [|x l IH]; [simpl; ring|].
  rewrite !fmap_cons, !qsum_cons, IH. ring.
Qed.

Lemma qsum_affine a b l :
  qsum ((λ x, a + b * x) <$> l) = qlen l * a + b * qsum l.
Proof.
  unfold qlen. induction l as [|x l IH].
  { change (Qc_of_Z (Z.of_nat (length (@nil Qc)))) with (Qc_of_Z 0).
    rewrite Z2Qc_inj_0. simpl. ring. }
  rewrite length_cons, Nat2Z.inj_succ, <-Z.add_1_r, Z2Qc_inj_add, Z2Qc_inj_1.
  rewrite fmap_cons, !qsum_cons, IH. ring.
Qed.

Lemma squares_nonneg {A} (f : A → Qc) (l : list A) :
  Forall (λ a, 0 ≤ a) ((λ x, f x * f x) <$> l).
Proof. apply Forall_fmap, Forall_true. intros x. apply Qc_square_nonneg. Qed.

Lemma qsxx_nonneg l : 0 ≤ qsxx l.
Proof. apply qsum_nonneg, (squares_nonneg (λ x, x - qmean l)). Qed.

(** Two distinct abscissas make [Σ(x-x̄)²] positive. *)
Lemma qsxx_ne_0 l x1 x2 : x1 ∈ l → x2 ∈ l → x1 ≠ x2 → qsxx l ≠ 0.
Proof.
  intros H1 H2 Hne Hz.
  apply qsum_nonneg_zero in Hz; [|apply (squares_nonneg (λ x, x - qmean l))].
  rewrite Forall_fmap, Forall_forall in Hz.
  assert (∀ x, x ∈ l → x = qmean l) as Hall.
  { intros x Hx. specialize (Hz x Hx). simpl in Hz.
    apply Qc_square_zero in Hz.
    replace x with (x - qmean l + qmean l) by ring. rewrite Hz. ring. }
  apply Hne. by rewrite (Hall x1), (Hall x2).
Qed.

Lemma qsxx_pos l : qsxx l ≠ 0 → 0 < qsxx l.
Proof. apply Qc_nonneg_ne_pos, qsxx_nonneg. Qed.


Lemma spec_ss_res_nonneg a b l k : 0 ≤ spec_ss_res a b l k.
Proof.
  apply qsum_nonneg. rewrite zip_with_zip.
  apply Forall_fmap, Forall_true. intros [y x]. apply Qc_square_nonneg.
Qed.
End sums.

(** ** The reference instance meets the interface *)

Lemma ols_polyfit_ols xs ys :
  length xs = length ys → qsxx xs ≠ 0 →
  ols_polyfit (Fin <$> xs) (Fin <$> ys)
  = (Fin (ols_slope xs ys), Fin (ols_intercept xs ys)).
Proof.
  intros Hlen Hsxx.
  assert (xs ≠ []) as Hxs by (by intros ->).
  assert (ys ≠ []) as Hys by (intros ->; by destruct xs).
  unfold ols_polyfit. rewrite !fmean_Fin by done.
  rewrite (zip_with_Fin _ (λ x y, (x - qmean xs) * (y - qmean ys))) by done.
  rewrite (fmap_Fin _ (λ x, (x - qmean xs) * (x - qmean xs))) by done.
  rewrite !fsum_Fin. fold (qsxx xs) (qsxy xs ys).
  by rewrite fdiv_Fin.
Qed.

Lemma approx_sqrt_nonneg q : 0 ≤ q → 0 ≤ approx_sqrt q.
Proof.
  intros _. unfold approx_sqrt, Qcle. cbn [this Q2Qc].
  rewrite !Qred_correct. unfold Qle. cbn [Qnum Qden].
  rewrite Z.mul_0_l, Z.mul_1_r. apply Z.sqrt_nonneg.
Qed.

Lemma t_table_975 df :
  (0 < df)%Z → ∃ c, t_table (Q2Qc 0.975) df = Fin c ∧ 0 < c.
Proof.
  intros Hdf. unfold t_table. rewrite bool_decide_eq_true_2 by done.
  eexists; split; [done|].
  repeat case_match; done.
Qed.

Definition reference_lib : NumLib := {|
  np_polyfit := ols_polyfit;
  np_sqrt := approx_sqrt;
  stats_t_ppf := t_table;
  np_polyfit_ols := ols_polyfit_ols;
  np_sqrt_nonneg := approx_sqrt_nonneg;
  stats_t_ppf_975 := t_table_975
|}.

(** ** The loop that reads the files *)

Section loading.
Context (fs : filesystem).

Lemma collect_point_result points csv_file out :
  (collect_point fs points csv_file out).1
  = points ++ option_list (observation fs csv_file).
Proof.
  unfold collect_point, observation.
  destruct (fs !! csv_file) as [df|]; simpl; [|by rewrite app_nil_r].
  destruct (has_column df "rps" && bool_decide (0 < nrows df)%nat);
    simpl; [|by rewrite app_nil_r].
  destruct (search_P csv_file) as [p|]; simpl; [|by rewrite app_nil_r].
  destruct (iloc0 df "rps") as [T|]; simpl; [done|by rewrite app_nil_r].
Qed.

Lemma for_each_collect csv_files points out :
  (for_each csv_files (collect_point fs) points out).1
  = points ++ observations fs csv_files.
Proof.
  revert points out.
  induction csv_files as [|f files IH]; intros points out; simpl.
  { by rewrite app_nil_r. }
  unfold mbind, IO_bind.
  pose proof (collect_point_result points f out) as Hstep.
  destruct (collect_point fs points f out) as [points' out']. simpl in Hstep.
  rewrite IH, Hstep. unfold observations. simpl.
  destruct (observation fs f); simpl; by rewrite <-app_assoc.
Qed.

(** The value a run of the fitter returns. *)
Lemma fit_result `{NumLib} csv_files out :
  (fit_batched_service_model fs csv_files out).1
  = if bool_decide (length (observations fs csv_files) < 5)%nat then None
    else Some (fit_points (merge_sort tuple_le (observations fs csv_files))).
Proof.
  unfold fit_batched_service_model, mbind, IO_bind.
  pose proof (for_each_collect csv_files [] out) as Hpts.
  destruct (for_each csv_files (collect_point fs) [] out) as [points out'].
  simpl in Hpts. subst points.
  by destruct (bool_decide (length (observations fs csv_files) < 5)%nat).
Qed.
End loading.

(** ** The fit on valid data, over exact rationals *)

Section fit_finite.
Context `{NumLib}.

Lemma x_finite points : of_int <$> points.*1 = Fin <$> lin_x points.
Proof. unfold lin_x. by rewrite <-!list_fmap_compose. Qed.

Lemma y_finite points :
  Forall (λ d, d.2 ≠ 0) points →
  zip_with (λ p T, fdiv (of_int p) (Fin T)) points.*1 points.*2
  = Fin <$> lin_y points.
Proof.
  intros Hthr. rewrite zip_with_fst_snd. unfold lin_y.
  rewrite <-list_fmap_compose. apply Forall_fmap_ext_1.
  eapply Forall_impl; [done|]. intros [p T] HT. simpl in *.
  by rewrite Qc_zero_false.
Qed.

Lemma length_lin_x points : length (lin_x points) = length points.
Proof. apply length_fmap. Qed.
Lemma length_lin_y points : length (lin_y points) = length points.
Proof. apply length_fmap. Qed.

Lemma q_mse_nonneg t0 t1 xs ys :
  (2 < length xs)%nat → 0 ≤ q_mse t0 t1 xs ys.
Proof.
  intros. apply Qc_div_nonneg; [apply spec_ss_res_nonneg|].
  apply Qc_of_Z_pos. lia.
Qed.

Lemma se_t1_arg_nonneg t0 t1 xs ys :
  (2 < length xs)%nat → qsxx xs ≠ 0 → 0 ≤ q_mse t0 t1 xs ys / qsxx xs.
Proof. intros. by apply Qc_div_nonneg; [apply q_mse_nonneg|apply qsxx_pos]. Qed.

Lemma se_t0_arg_nonneg t0 t1 xs ys :
  (2 < length xs)%nat → qsxx xs ≠ 0 →
  0 ≤ q_mse t0 t1 xs ys * (1 / qlen xs + qmean xs * qmean xs / qsxx xs).
Proof.
  intros. apply Qcmult_nonneg_nonneg; [by apply q_mse_nonneg|].
  apply Qcplus_nonneg_nonneg.
  - apply Qc_div_nonneg; [done|]. apply Qc_of_Z_pos. lia.
  - apply Qc_div_nonneg; [apply Qc_square_nonneg|by apply qsxx_pos].
Qed.

(** On at least three points with non-zero throughputs and two distinct
    depths every intermediate value is finite, and the result is the
    one of the textbook formulas. *)
Lemma fit_points_finite points :
  let xs := lin_x points in
  let ys := lin_y points in
  let t1 := ols_slope xs ys in
  let t0 := ols_intercept xs ys in
  Forall (λ d, d.2 ≠ 0) points → qsxx xs ≠ 0 → (2 < length points)%nat →
  ∃ t_crit,
    0 < t_crit ∧
    fit_points points = {|
      t0_us_per_batch := Fin (t0 * E6);
      t1_ns_per_op := Fin (t1 * E9);
      r_squared := spec_r_squared t0 t1 xs ys;
      t0_confidence_interval :=
        [Fin (t0 * E6 - t_crit * q_se_t0 t0 t1 xs ys * E6);
         Fin (t0 * E6 + t_crit * q_se_t0 t0 t1 xs ys * E6)];
      t1_confidence_interval :=
        [Fin (t1 * E9 - t_crit * q_se_t1 t0 t1 xs ys * E9);
         Fin (t1 * E9 + t_crit * q_se_t1 t0 t1 xs ys * E9)];
      Tmax_Mops_s :=
        if bool_decide (0 < t1) then fdiv (Fin 1) (Fin (t1 * E6)) else PInf;
      data_points := Z.of_nat (length points);
      raw_data :=
        zip_with (λ p T, [of_int p; Fin T]) points.*1 points.*2
    |}.
Proof.
  intros xs ys t1 t0 Hthr Hsxx Hlen.
  assert (length xs = length points) as Hlenx by apply length_lin_x.
  assert (xs ≠ []) as Hxs by (intros E; rewrite E in Hlenx; simpl in *; lia).
  assert (ys ≠ []) as Hys.
  { intros E. pose proof (length_lin_y points) as Hleny. fold ys in Hleny.
    rewrite E in Hleny. simpl in *; lia. }
  destruct (stats_t_ppf_975 (Z.of_nat (length xs) - 2)) as (c & Hc & Hpos);
    [lia|].
  exists c. split; [done|].
  unfold fit_points. rewrite x_finite, y_finite by done. fold xs ys.
  rewrite np_polyfit_ols;
    [|unfold xs, ys; by rewrite length_lin_x, length_lin_y|done].
  fold t1 t0.
  rewrite (fmap_Fin _ (λ x, t0 + t1 * x)) by done.
  rewrite (zip_with_Fin _ (λ y p, (y - p) * (y - p))) by done.
  rewrite zip_with_fmap_r. rewrite !fmean_Fin by done.
  rewrite (fmap_Fin _ (λ y, (y - qmean ys) * (y - qmean ys))) by done.
  rewrite (fmap_Fin _ (λ x, (x - qmean xs) * (x - qmean xs))) by done.
  rewrite !fsum_Fin. fold (spec_ss_tot ys) (qsxx xs).
  change (qsum (zip_with _ ys xs)) with (spec_ss_res t0 t1 xs ys).
  fold (spec_r_squared t0 t1 xs ys).
  rewrite !length_fmap, <-Hlenx, Hc.
  unfold of_int.
  rewrite (fdiv_Fin (spec_ss_res _ _ _ _)) by (apply Qc_of_Z_ne_0; lia).
  fold (q_mse t0 t1 xs ys).
  rewrite (fdiv_Fin (q_mse _ _ _ _)) by done.
  rewrite (fdiv_Fin 1) by (apply Qc_of_Z_ne_0; lia).
  unfold fsq. cbn [fmul]. rewrite (fdiv_Fin (_ * _) (qsxx xs)) by done.
  cbn [fadd fmul]. fold (qlen xs).
  unfold fsqrt.
  rewrite !Qc_neg_false
    by (apply se_t1_arg_nonneg || apply se_t0_arg_nonneg; (done || lia)).
  fold (q_se_t1 t0 t1 xs ys) (q_se_t0 t0 t1 xs ys).
  done.
Qed.
End fit_finite.

(** ** Least squares on data that lie on a line *)

Section affine.
Implicit Types (a b : Qc) (xs : list Qc).

Lemma qmean_affine a b xs :
  xs ≠ [] → qmean ((λ x, a + b * x) <$> xs) = a + b * qmean xs.
Proof.
  intros Hxs. unfold qmean, qlen. rewrite length_fmap, qsum_affine.
  fold (qlen xs). field. by apply qlen_ne_0.
Qed.

Lemma qsxy_affine a b xs :
  xs ≠ [] → qsxy xs ((λ x, a + b * x) <$> xs) = b * qsxx xs.
Proof.
  intros Hxs. unfold qsxy, qsxx. rewrite qmean_affine by done.
  rewrite zip_with_fmap_r, zip_with_diag.
  rewrite <-(qsum_scale b (λ x, (x - qmean xs) * (x - qmean xs))).
  f_equal. apply list_fmap_ext. intros _ x _. ring.
Qed.

Lemma ols_slope_affine a b xs :
  qsxx xs ≠ 0 → ols_slope xs ((λ x, a + b * x) <$> xs) = b.
Proof.
  intros Hsxx. assert (xs ≠ []) by (by intros ->).
  unfold ols_slope. rewrite qsxy_affine by done. by field.
Qed.

Lemma ols_intercept_affine a b xs :
  qsxx xs ≠ 0 → ols_intercept xs ((λ x, a + b * x) <$> xs) = a.
Proof.
  intros Hsxx. assert (xs ≠ []) by (by intros ->).
  unfold ols_intercept. rewrite ols_slope_affine, qmean_affine by done. ring.
Qed.

Lemma spec_ss_res_affine a b xs :
  spec_ss_res a b xs ((λ x, a + b * x) <$> xs) = 0.
Proof.
  unfold spec_ss_res. rewrite zip_with_fmap_l, zip_with_diag.
  apply qsum_zero, Forall_fmap, Forall_true. intros x. simpl. ring.
Qed.

Lemma spec_ss_tot_affine a b xs :
  xs ≠ [] → spec_ss_tot ((λ x, a + b * x) <$> xs) = b * b * qsxx xs.
Proof.
  intros Hxs. unfold spec_ss_tot, qsxx. rewrite qmean_affine by done.
  rewrite <-(qsum_scale (b * b) (λ x, (x - qmean xs) * (x - qmean xs))).
  rewrite <-list_fmap_compose. f_equal. apply list_fmap_ext.
  intros _ x _. simpl. ring.
Qed.

(** Data with no spread in [y] lie on a horizontal line. *)
Lemma spec_ss_tot_zero xs ys :
  length xs = length ys → spec_ss_tot ys = 0 →
  ys = (λ x, qmean ys + 0 * x) <$> xs.
Proof.
  intros Hlen Hz.
  apply qsum_nonneg_zero in Hz; [|apply (squares_nonneg (λ y, y - qmean ys))].
  rewrite Forall_fmap in Hz.
  assert (Forall (λ y, y = qmean ys) ys) as Hall.
  { eapply Forall_impl; [done|]. intros y Hy. simpl in Hy.
    apply Qc_square_zero in Hy.
    replace y with (y - qmean ys + qmean ys) by ring. rewrite Hy. ring. }
  clear Hz. revert Hall. generalize (qmean ys). intros m. revert ys Hlen.
  induction xs as [|x xs IH]; intros [|y ys] Hlen Hall; try done.
  apply Forall_cons in Hall as [-> Hall]. rewrite fmap_cons.
  f_equal; [ring|]. apply IH; [by simplify_eq/=|done].
Qed.
End affine.

(** ** What valid input provides *)

Lemma two_distinct (l : list Z) :
  (2 ≤ length (remove_dups l))%nat → ∃ a b, a ∈ l ∧ b ∈ l ∧ a ≠ b.
Proof.
  intros Hlen. pose proof (NoDup_remove_dups l) as Hnd.
  destruct (remove_dups l) as [|a [|b k]] eqn:E; simpl in Hlen; [lia..|].
  exists a, b. rewrite <-!(elem_of_remove_dups l), E.
  split_and!; [set_solver..|].
  apply NoDup_cons in Hnd as [Hnd _]. set_solver.
Qed.

Lemma valid_input_throughput points :
  valid_input points → Forall (λ d, d.2 ≠ 0) points.
Proof.
  intros [Hall _]. eapply Forall_impl; [done|].
  intros d [_ Hpos] Hz. rewrite Hz in Hpos. by apply Qclt_not_eq in Hpos.
Qed.

Lemma valid_input_sxx points points' :
  valid_input points → points' ≡ₚ points → qsxx (lin_x points') ≠ 0.
Proof.
  intros [_ (p1 & p2 & H1 & H2 & Hne)%two_distinct] Hperm.
  apply list_elem_of_fmap in H1 as ([p1' T1] & -> & H1).
  apply list_elem_of_fmap in H2 as ([p2' T2] & -> & H2).
  rewrite <-Hperm in H1, H2. simpl in Hne.
  apply (qsxx_ne_0 _ (Qc_of_Z p1') (Qc_of_Z p2')).
  - apply list_elem_of_fmap. by exists (p1', T1).
  - apply list_elem_of_fmap. by exists (p2', T2).
  - by intros ?%Z2Qc_inj.
Qed.

(** ** Sorting the data points *)

Global Instance tuple_le_trans : Transitive tuple_le.
Proof.
  intros [p1 T1] [p2 T2] [p3 T3]. unfold tuple_le. simpl.
  intros [?|[-> ?]] [?|[-> ?]]; [left; lia|by left|by left|right].
  split; [done|]. by etrans.
Qed.

Global Instance tuple_le_antisym : AntiSymm (=) tuple_le.
Proof.
  intros [p1 T1] [p2 T2]. unfold tuple_le. simpl.
  intros [?|[-> ?]] [?|[? ?]]; try lia.
  f_equal. by apply Qcle_antisym.
Qed.

Global Instance tuple_le_total : Total tuple_le.
Proof.
  intros [p1 T1] [p2 T2]. unfold tuple_le. simpl.
  destruct (Z.lt_trichotomy p1 p2) as [?|[->|?]]; [by left; left| |by right; left].
  destruct (total Qcle T1 T2); [left|right]; by right.
Qed.

Lemma merge_sort_proper (l l' : list (Z * Qc)) :
  l ≡ₚ l' → merge_sort tuple_le l = merge_sort tuple_le l'.
Proof.
  intros Hperm. apply (Sorted_unique tuple_le).
  - apply Sorted_merge_sort, _.
  - apply Sorted_merge_sort, _.
  - by rewrite !merge_sort_Permutation.
Qed.

Lemma sorted_observations_perm fs csv_files :
  sorted_observations fs csv_files ≡ₚ observations fs csv_files.
Proof. apply merge_sort_Permutation. Qed.

Lemma fit_result_Some `{NumLib} fs csv_files out r :
  (fit_batched_service_model fs csv_files out).1 = Some r →
  (5 ≤ length (observations fs csv_files))%nat
  ∧ r = fit_points (sorted_observations fs csv_files).
Proof.
  rewrite fit_result. case_bool_decide; [done|].
  intros [= <-]. split; [lia|done].
Qed.

(** ** Claims about the fitter *)

Lemma raw_data_fit_points `{NumLib} points :
  raw_data (fit_points points) = (λ d, [of_int d.1; Fin d.2]) <$> points.
Proof.
  unfold fit_points. destruct (np_polyfit _ _) as [t1_sec t0_sec]. simpl.
  rewrite zip_with_fst_snd. apply list_fmap_ext. by intros _ [p T] _.
Qed.

Lemma sorted_observations_by_depth fs csv_files :
  StronglySorted Z.le (sorted_observations fs csv_files).*1.
Proof.
  apply (StronglySorted_fmap _ tuple_le).
  - intros a b [?|[-> _]]; lia.
  - apply StronglySorted_merge_sort; apply _.
Qed.

(** C10. Reordering the input files does not change what the fitter
    returns: the data points are sorted (as tuples, by depth and then by
    throughput) before anything is computed from them, so every field of
    the result is the same; and [raw_data] lists the data points in
    ascending order of depth. *)
Theorem fit_permutation_invariant `{NumLib} fs csv_files csv_files' out out' :
  csv_files ≡ₚ csv_files' →
  (fit_batched_service_model fs csv_files out).1
  = (fit_batched_service_model fs csv_files' out').1
  ∧ ∀ r, (fit_batched_service_model fs csv_files out).1 = Some r →
      raw_data r
      = (λ d, [of_int d.1; Fin d.2]) <$> sorted_observations fs csv_files
      ∧ StronglySorted Z.le (sorted_observations fs csv_files).*1.
Proof.
  intros Hperm. split.
  - rewrite !fit_result.
    assert (observations fs csv_files ≡ₚ observations fs csv_files') as Hobs
      by (unfold observations; by rewrite Hperm).
    by rewrite (Permutation_length Hobs), (merge_sort_proper _ _ Hobs).
  - intros r [_ ->]%fit_result_Some. split.
    + apply raw_data_fit_points.
    + apply sorted_observations_by_depth.
Qed.

Lemma fit_declines_loudly `{NumLib} fs csv_files out :
  (fit_batched_service_model fs csv_files out).1 = None →
  last (fit_batched_service_model fs csv_files out).2 = Some InsufficientData.
Proof.
  unfold fit_batched_service_model, mbind, IO_bind.
  destruct (for_each csv_files (collect_point fs) [] out) as [points out'].
  case_bool_decide; [|done]. intros _. simpl. apply last_snoc.
Qed.

(** C3 (as amended). On every input with fewer than five data points,
    whatever their depths, the fitter prints its message and returns
    [None]: no result is produced, and nothing is computed from the data.
    The guard counts data points, not distinct depths. *)
Theorem fit_insufficient_data `{NumLib} fs csv_files out :
  (length (observations fs csv_files) < 5)%nat →
  (fit_batched_service_model fs csv_files out).1 = None
  ∧ last (fit_batched_service_model fs csv_files out).2
    = Some InsufficientData.
Proof.
  intros Hlen.
  assert ((fit_batched_service_model fs csv_files out).1 = None) as Hnone.
  { rewrite fit_result. by rewrite bool_decide_eq_true_2. }
  split; [done|]. by apply fit_declines_loudly.
Qed.

(** On valid input the fitter's result is the closed-form one. *)
Lemma fit_valid `{NumLib} fs csv_files out r :
  let points := sorted_observations fs csv_files in
  let xs := lin_x points in
  let ys := lin_y points in
  let t1 := ols_slope xs ys in
  let t0 := ols_intercept xs ys in
  valid_input (observations fs csv_files) →
  (fit_batched_service_model fs csv_files out).1 = Some r →
  qsxx xs ≠ 0 ∧ (5 ≤ length xs)%nat ∧ length ys = length xs ∧
  ∃ t_crit,
    0 < t_crit ∧
    r = {|
      t0_us_per_batch := Fin (t0 * E6);
      t1_ns_per_op := Fin (t1 * E9);
      r_squared := spec_r_squared t0 t1 xs ys;
      t0_confidence_interval :=
        [Fin (t0 * E6 - t_crit * q_se_t0 t0 t1 xs ys * E6);
         Fin (t0 * E6 + t_crit * q_se_t0 t0 t1 xs ys * E6)];
      t1_confidence_interval :=
        [Fin (t1 * E9 - t_crit * q_se_t1 t0 t1 xs ys * E9);
         Fin (t1 * E9 + t_crit * q_se_t1 t0 t1 xs ys * E9)];
      Tmax_Mops_s :=
        if bool_decide (0 < t1) then fdiv (Fin 1) (Fin (t1 * E6)) else PInf;
      data_points := Z.of_nat (length points);
      raw_data := zip_with (λ p T, [of_int p; Fin T]) points.*1 points.*2
    |}.
Proof.
  intros points xs ys t1 t0 Hvalid [Hlen ->]%fit_result_Some.
  pose proof (sorted_observations_perm fs csv_files) as Hperm.
  fold points in Hperm |- *.
  assert (length points = length (observations fs csv_files)) as Hlenp
    by (by rewrite Hperm).
  assert (qsxx xs ≠ 0) as Hsxx by (by eapply valid_input_sxx).
  split_and!; [done|unfold xs; rewrite length_lin_x; lia| |].
  { unfold xs, ys. by rewrite length_lin_x, length_lin_y. }
  apply fit_points_finite; [|done|lia].
  rewrite Hperm. by apply valid_input_throughput.
Qed.

(** Exact model data are on the line [y = t0 + t1·x]. *)
Lemma lin_y_generated t0 t1 points :
  Forall (λ d, (1 ≤ d.1)%Z ∧ 0 < d.2) points →
  generated_from t0 t1 points →
  lin_y points = (λ x, t0 + t1 * x) <$> lin_x points.
Proof.
  intros Hvalid Hgen. unfold lin_y, lin_x. rewrite <-list_fmap_compose.
  apply Forall_fmap_ext_1.
  eapply Forall_impl; [apply Forall_and; split; [exact Hvalid|exact Hgen]|].
  intros [p T]; simpl. unfold model_T. intros [[Hp HT] ->].
  assert (Qc_of_Z p ≠ 0) by (apply Qc_of_Z_ne_0; lia).
  assert (t0 + t1 * Qc_of_Z p ≠ 0) as HD.
  { intros HD. rewrite HD in HT. apply Qclt_not_eq in HT. apply HT.
    unfold Qcdiv. change (/ 0) with 0. ring. }
  by field.
Qed.

(** C1 (as amended). On at least five data points with two distinct depths
    (each within the 64-bit integers) whose throughputs are exactly
    [p / (t0 + t1·p)] with [t1 ≠ 0], the fitter returns a result that
    recovers [t0] and [t1] (reported in µs per batch and ns per op), and its
    R² is 1.  Nothing is said of [t1 = 0], where the linearized data have no
    spread. *)
Theorem fit_recovers_model `{NumLib} fs csv_files out t0 t1 :
  generated_from t0 t1 (observations fs csv_files) →
  valid_input (observations fs csv_files) →
  Forall (λ d, (d.1 < 2 ^ 63)%Z) (observations fs csv_files) →
  (5 ≤ length (observations fs csv_files))%nat →
  t1 ≠ 0 →
  ∃ r, (fit_batched_service_model fs csv_files out).1 = Some r
    ∧ t0_us_per_batch r = Fin (t0 * E6)
    ∧ t1_ns_per_op r = Fin (t1 * E9)
    ∧ r_squared r = Fin 1.
Proof.
  intros Hgen Hvalid _ Hlen Ht1.
  destruct (fit_batched_service_model fs csv_files out).1 as [r|] eqn:Hfit;
    [|rewrite fit_result in Hfit; case_bool_decide; [lia|done]].
  exists r. split; [done|].
  destruct (fit_valid _ _ _ _ Hvalid Hfit) as (Hsxx & _ & _ & c & _ & ->).
  pose proof (sorted_observations_perm fs csv_files) as Hperm.
  clear Hfit. simpl.
  rewrite (lin_y_generated t0 t1 (sorted_observations fs csv_files)) in *;
    [|rewrite Hperm; apply Hvalid|unfold generated_from; by rewrite Hperm].
  rewrite ols_slope_affine, ols_intercept_affine by done.
  split_and!; [done..|].
  unfold spec_r_squared.
  rewrite spec_ss_res_affine, spec_ss_tot_affine
    by (by intros E; rewrite E in Hsxx).
  rewrite fdiv_Fin.
  - unfold fsub. cbn [fadd fopp]. apply (f_equal Fin). unfold Qcdiv. ring.
  - intros [E|E]%Qcmult_integral; [|done].
    by apply Qcmult_integral in E as [|].
Qed.



(** C6. On valid input, each confidence interval the fitter produces is a
    pair of finite numbers around the finite point estimate:
    [t0_ci[0] ≤ t0 ≤ t0_ci[1]] and [t1_ci[0] ≤ t1 ≤ t1_ci[1]]. *)
Theorem ci_contains_estimate `{NumLib} fs csv_files out r :
  valid_input (observations fs csv_files) →
  (fit_batched_service_model fs csv_files out).1 = Some r →
  ∃ t0 lo0 hi0 t1 lo1 hi1,
    t0_us_per_batch r = Fin t0
    ∧ t0_confidence_interval r = [Fin lo0; Fin hi0]
    ∧ lo0 ≤ t0 ≤ hi0
    ∧ t1_ns_per_op r = Fin t1
    ∧ t1_confidence_interval r = [Fin lo1; Fin hi1]
    ∧ lo1 ≤ t1 ≤ hi1.
Proof.
  intros Hvalid Hfit.
  destruct (fit_valid _ _ _ _ Hvalid Hfit) as (Hsxx & Hlen & _ & c & Hc & ->).
  simpl. do 6 eexists. split_and!; try done.
  all: apply Qc_sub_le || apply Qc_le_add.
  all: repeat apply Qcmult_nonneg_nonneg; try by apply Qclt_le_weak.
  all: try by apply Qc_of_Z_pos.
  all: apply np_sqrt_nonneg.
  all: apply se_t0_arg_nonneg || apply se_t1_arg_nonneg; (done || lia).
Qed.

(** The slope the fit found, in seconds per operation, and what is derived
    from it. *)
Lemma fit_points_Tmax `{NumLib} points :
  ∃ t1_sec,
    t1_ns_per_op (fit_points points) = fmul t1_sec e9
    ∧ Tmax_Mops_s (fit_points points)
      = if flt (Fin 0) t1_sec then fdiv (Fin 1) (fmul t1_sec e6) else PInf.
Proof.
  unfold fit_points. destruct (np_polyfit _ _) as [t1_sec t0_sec].
  by exists t1_sec.
Qed.

Lemma E6_pos : 0 < E6.
Proof. by apply Qc_of_Z_pos. Qed.
Lemma E9_pos : 0 < E9.
Proof. by apply Qc_of_Z_pos. Qed.

(** C7. For every result of the fitter with a finite slope [t1]: when
    [t1 > 0] the saturation throughput is [1/t1], that is, the reported
    figure in Mops/s times 10⁶ is the inverse of the reported [t1] in ns/op
    divided by 10⁹; when [t1 ≤ 0] the reported figure is [+inf], and
    nothing is raised. *)
Theorem Tmax_is_inverse_slope `{NumLib} fs csv_files out r t1 :
  (fit_batched_service_model fs csv_files out).1 = Some r →
  t1_ns_per_op r = Fin t1 →
  (0 < t1 → ∃ Tmax, Tmax_Mops_s r = Fin Tmax ∧ Tmax * E6 = 1 / (t1 / E9))
  ∧ (t1 ≤ 0 → Tmax_Mops_s r = PInf).
Proof.
  intros [_ ->]%fit_result_Some.
  destruct (fit_points_Tmax (sorted_observations fs csv_files))
    as (t1_sec & -> & ->).
  pose proof E6_pos as H6. pose proof E9_pos as H9.
  assert (E6 ≠ 0) by (by apply not_eq_sym, Qclt_not_eq).
  assert (E9 ≠ 0) as HE9 by (by apply not_eq_sym, Qclt_not_eq).
  destruct t1_sec as [q| | |]; simpl; unfold inf_times; fold E9;
    rewrite ?(Qc_zero_false E9) by done; try done.
  intros [= <-]. fold E6. split.
  - intros Hpos.
    assert (0 < q) as Hq.
    { apply (Qcmult_lt_mono_pos_r _ _ E9); [done|]. by rewrite Qcmult_0_l. }
    assert (q ≠ 0) by (by apply not_eq_sym, Qclt_not_eq).
    rewrite bool_decide_eq_true_2 by done.
    rewrite Qc_zero_false by (by intros [|]%Qcmult_integral).
    eexists; split; [done|]. by field.
  - intros Hle. rewrite bool_decide_eq_false_2; [done|].
    intros Hq. apply (Qcmult_lt_mono_pos_r _ _ E9) in Hq; [|done].
    rewrite Qcmult_0_l in Hq. by apply Qclt_not_le in Hq.
Qed.

(** ** Claims about the invariant checks *)

Section closure.
Context (fs : filesystem) (C : Z).

Lemma closure_point_spec violations valid_points csv_file out :
  closure_point fs C (violations, valid_points) csv_file out
  = ((violations ++ (closure_delta fs C csv_file).1,
      valid_points ++ (closure_delta fs C csv_file).2), out).
Proof.
  unfold closure_point, closure_delta, latency_observation.
  destruct (fs !! csv_file) as [df|]; simpl; [|by rewrite !app_nil_r].
  destruct (has_column df "rps" && has_column df "p50_latency_ms");
    simpl; [|by rewrite !app_nil_r].
  destruct (search_P csv_file) as [p|]; simpl; [|by rewrite !app_nil_r].
  destruct (iloc0 df "rps") as [T|]; simpl; [|by rewrite !app_nil_r].
  destruct (iloc0 df "p50_latency_ms") as [p50_ms|]; simpl;
    [|by rewrite !app_nil_r].
  unfold violates. simpl.
  case_bool_decide as Hle; case_decide as Hlt; simpl.
  - by apply Qcle_not_lt in Hle.
  - by rewrite app_nil_r.
  - by rewrite app_nil_r.
  - by apply Qcnot_le_lt in Hle.
Qed.

Lemma for_each_closure csv_files violations valid_points out :
  let obs := omap (latency_observation fs) csv_files in
  for_each csv_files (closure_point fs C) (violations, valid_points) out
  = ((violations ++ (violation_record C <$> filter (violates C) obs),
      valid_points
        ++ (valid_record C <$> filter (λ o, ¬ violates C o) obs)), out).
Proof.
  revert violations valid_points.
  induction csv_files as [|f files IH]; intros violations valid_points.
  { simpl. by rewrite !app_nil_r. }
  cbn [for_each omap list_omap]. unfold mbind at 1, IO_bind.
  rewrite closure_point_spec, IH.
  unfold closure_delta.
  destruct (latency_observation fs f) as [o|]; simpl;
    [|by rewrite !app_nil_r].
  rewrite !filter_cons.
  destruct (decide (violates C o)); simpl.
  - rewrite decide_False by naive_solver.
    by rewrite app_nil_r, <-app_assoc.
  - rewrite decide_True by done.
    by rewrite app_nil_r, <-app_assoc.
Qed.

Lemma for_each_print_violation violations out :
  for_each violations print_violation () out
  = ((), out ++ (violation_line <$> violations)).
Proof.
  revert out. induction violations as [|[[[p lhs] rhs] file] vs IH];
    intros out; simpl.
  { by rewrite app_nil_r. }
  unfold mbind, IO_bind, print. simpl. rewrite IH.
  by rewrite <-app_assoc.
Qed.
End closure.

Section syscall.
Context (C : Z).

Lemma syscall_loop_spec p_values theoretical_values out :
  C ≠ 0%Z → Forall (λ p, p ≠ 0%Z) p_values →
  syscall_loop C p_values theoretical_values out
  = (Some (theoretical_values ++ ((λ p, (p, syscalls_per_op C p)) <$> p_values)),
     out ++ ((λ p, SyscallLine p (syscalls_per_op C p)) <$> p_values)).
Proof.
  intros HC Hps. revert theoretical_values out.
  induction Hps as [|p ps Hp _ IH]; intros theoretical_values out.
  { simpl. by rewrite !app_nil_r. }
  cbn [syscall_loop]. rewrite bool_decide_eq_false_2 by lia.
  unfold mbind, IO_bind, print. rewrite IH.
  by rewrite !fmap_cons, <-!app_assoc.
Qed.
End syscall.

(** C8 (as amended). With [C] the concurrency (50 when the caller gives
    none), for every sequence of depths such that no [C × depth] is zero,
    the syscall-budget check reports passed and returns
    [syscalls_per_op = 2 / (C × p)] for each depth, in order.  (On a zero
    product the division raises instead.) *)
Theorem syscall_budget_theoretical p_values C out :
  let C' := default 50%Z C in
  C' ≠ 0%Z → Forall (λ p, p ≠ 0%Z) p_values →
  (validate_syscall_invariant p_values C out).1
  = Some (true, (λ p, (p, Qc_of_Z 2 / Qc_of_Z (C' * p))) <$> p_values).
Proof.
  intros C' HC Hps. unfold validate_syscall_invariant, mbind, IO_bind, print.
  fold C'. by rewrite syscall_loop_spec.
Qed.

(** C4 (as amended). The cycles-per-op check reports passed and the
    constant estimate [69.6 × 3.5 = 243.6] cycles per operation, the
    paper's [t1] in ns/op times its clock in GHz, whatever files it is
    given; no fitted value and no frequency enters. *)
Theorem cycles_per_op_constant csv_files out :
  (validate_cycles_per_op_band csv_files out).1 = (true, Q2Qc 243.6).
Proof.
  unfold validate_cycles_per_op_band, mbind, IO_bind, print, mret, IO_ret.
  cbn [fst]. apply (f_equal (pair true)). by apply Qc_is_canon.
Qed.

(** * Further properties of the scripts *)

(** ** File names *)

Lemma digit_nonneg c d : digit c = Some d → (0 ≤ d)%Z.
Proof. unfold digit. case_bool_decide; [|done]. intros [= <-]. lia. Qed.

Lemma digits_nonneg s acc p :
  (∀ a, acc = Some a → (0 ≤ a)%Z) → digits s acc = Some p → (0 ≤ p)%Z.
Proof.
  revert acc. induction s as [|c s IH]; intros acc Hacc; simpl; [by auto|].
  destruct (digit c) as [d|] eqn:Hd; [|by auto].
  apply IH. intros a [= <-]. apply digit_nonneg in Hd.
  destruct acc as [a|]; simpl; [specialize (Hacc a eq_refl)|]; lia.
Qed.

Lemma search_P_nonneg s p : search_P s = Some p → (0 ≤ p)%Z.
Proof.
  induction s as [|c s IH]; simpl; [done|].
  case_bool_decide; [|done].
  destruct (digits s None) as [q|] eqn:Hq; [|done].
  intros [= <-]. by apply (digits_nonneg s None q).
Qed.

Lemma digits_app s s' acc :
  no_leading_digit s' → digits (s +:+ s') acc = digits s acc.
Proof.
  intros Hs'. revert acc. induction s as [|c s IH]; intros acc; simpl.
  - destruct s' as [|c' s']; simpl in *; [done|]. by rewrite Hs'.
  - destruct (digit c); [apply IH|done].
Qed.

(** X1. On paths of ASCII text, the depth is read at the first place of
    the whole path where a [P] is followed by digits: once a path has such a
    place, whatever is appended to it (not starting with a digit) does not
    change the depth. *)
Theorem search_P_first_match s s' p :
  ascii_path s → ascii_path s' →
  search_P s = Some p → no_leading_digit s' → search_P (s +:+ s') = Some p.
Proof.
  intros _ _ Hs Hs'. induction s as [|c s IH]; simpl in *; [done|].
  case_bool_decide; [|by apply IH].
  rewrite digits_app by done.
  destruct (digits s None); [done|by apply IH].
Qed.

(** ** The fitter: which files count, and what is printed *)

(** [observation] says of which files the loop makes a data point. *)
Lemma observation_None fs csv_file :
  observation fs csv_file = None ↔
  fs !! csv_file = None
  ∨ search_P csv_file = None
  ∨ ∃ df, fs !! csv_file = Some df
      ∧ (columns df !! "rps" = None ∨ nrows df = 0%nat
         ∨ columns df !! "rps" = Some []).
Proof.
  unfold observation.
  destruct (fs !! csv_file) as [df|]; simpl; [|naive_solver].
  case_guard as Hg; simpl.
  - apply andb_True in Hg as [Hcol Hrows].
    apply bool_decide_unpack in Hcol as [col Hcol].
    apply bool_decide_unpack in Hrows.
    destruct (search_P csv_file) as [p|]; simpl; [|naive_solver].
    unfold iloc0. rewrite Hcol. simpl.
    destruct col as [|T col]; simpl; [naive_solver|].
    split; [done|].
    intros [|[|(df' & [= <-] & [|[|]])]]; simplify_eq; lia.
  - split; [intros _|done]. right; right. exists df. split; [done|].
    rewrite andb_True in Hg. apply not_and_l in Hg as [Hcol|Hrows].
    + left. unfold has_column in Hcol.
      rewrite bool_decide_spec in Hcol.
      by apply eq_None_not_Some.
    + right; left. rewrite bool_decide_spec in Hrows. lia.
Qed.

(** X2. A file that cannot be read, has no [rps] column, has no row, or
    has no depth in its name does not change the fitter's result, wherever it
    stands in the list. *)
Theorem fit_ignores_unusable_file `{NumLib}
    fs before csv_file after out out' :
  fs !! csv_file = None
  ∨ search_P csv_file = None
  ∨ (∃ df, fs !! csv_file = Some df
       ∧ (columns df !! "rps" = None ∨ nrows df = 0%nat)) →
  (fit_batched_service_model fs (before ++ csv_file :: after) out).1
  = (fit_batched_service_model fs (before ++ after) out').1.
Proof.
  intros Hbad.
  assert (observation fs csv_file = None) as Hnone.
  { apply observation_None.
    destruct Hbad as [?|[?|(df & ? & [?|?])]]; eauto 10. }
  rewrite !fit_result. unfold observations.
  rewrite !omap_app. cbn [omap list_omap]. by rewrite Hnone.
Qed.

Section fit_stdout.
Context (fs : filesystem) (Hwf : well_formed fs).

Lemma well_formed_iloc0 csv_file df name :
  fs !! csv_file = Some df → (0 < nrows df)%nat →
  is_Some (columns df !! name) → is_Some (iloc0 df name).
Proof.
  intros Hdf Hrows [col Hcol]. unfold iloc0. rewrite Hcol. simpl.
  pose proof (Hwf _ _ Hdf _ _ Hcol) as Hlen.
  destruct col; simpl in *; [lia|eauto].
Qed.

Lemma collect_point_stdout points csv_file out :
  (collect_point fs points csv_file out).2
  = out ++ (if decide (fs !! csv_file = None) then [Skipping csv_file] else []).
Proof.
  unfold collect_point.
  destruct (fs !! csv_file) as [df|] eqn:Hdf; simpl; [|done].
  rewrite app_nil_r.
  destruct (has_column df "rps") eqn:Hcol; simpl; [|done].
  case_bool_decide as Hrows; simpl; [|done].
  destruct (search_P csv_file); simpl; [|done].
  apply bool_decide_eq_true in Hcol.
  destruct (well_formed_iloc0 _ _ _ Hdf Hrows Hcol) as [T ->]. done.
Qed.

Lemma for_each_collect_stdout csv_files points out :
  (for_each csv_files (collect_point fs) points out).2
  = out ++ (Skipping <$> filter (λ f, fs !! f = None) csv_files).
Proof.
  revert points out.
  induction csv_files as [|f files IH]; intros points out.
  { simpl. by rewrite app_nil_r. }
  cbn [for_each]. unfold mbind at 1, IO_bind.
  pose proof (collect_point_stdout points f out) as Hstep.
  destruct (collect_point fs points f out) as [points' out']. simpl in Hstep.
  rewrite IH, Hstep, filter_cons.
  destruct (decide (fs !! f = None)); simpl;
    by rewrite <-?app_assoc, ?app_nil_r.
Qed.
End fit_stdout.

(** X3. On well-formed data frames the fitter prints one [Skipping] line
    for each file that cannot be read, in the order of the list, then its
    refusal if there are fewer than five data points, and nothing else: a
    readable file that is left out (no [rps] column, no row, no depth in its
    name) is left out silently. *)
Theorem fit_stdout `{NumLib} fs csv_files out :
  well_formed fs →
  (fit_batched_service_model fs csv_files out).2
  = out ++ (Skipping <$> filter (λ f, fs !! f = None) csv_files)
        ++ (if decide (length (observations fs csv_files) < 5)%nat
            then [InsufficientData] else []).
Proof.
  intros Hwf. unfold fit_batched_service_model, mbind, IO_bind.
  pose proof (for_each_collect fs csv_files [] out) as Hpts.
  pose proof (for_each_collect_stdout fs Hwf csv_files [] out) as Hout.
  destruct (for_each csv_files (collect_point fs) [] out) as [points out1].
  simpl in Hpts, Hout. subst points out1.
  case_bool_decide; case_decide; try done; simpl; unfold print; simpl.
  - by rewrite <-app_assoc.
  - by rewrite app_nil_r.
Qed.

Lemma data_points_fit_points `{NumLib} points :
  data_points (fit_points points) = Z.of_nat (length points).
Proof.
  unfold fit_points. by destruct (np_polyfit _ _) as [t1_sec t0_sec].
Qed.

(** X4. A result accounts for every data point once: [data_points] is
    the number of files that gave an observation, and [raw_data] holds
    exactly their (depth, throughput) pairs, none lost, repeated or
    changed. *)
Theorem fit_keeps_every_data_point `{NumLib} fs csv_files out r :
  (fit_batched_service_model fs csv_files out).1 = Some r →
  data_points r = Z.of_nat (length (observations fs csv_files))
  ∧ raw_data r
    ≡ₚ (λ d, [of_int d.1; Fin d.2]) <$> observations fs csv_files.
Proof.
  intros [_ ->]%fit_result_Some.
  rewrite data_points_fit_points, raw_data_fit_points.
  by rewrite (sorted_observations_perm fs csv_files).
Qed.

(** ** The closure check: what it returns and counts *)

Lemma validate_pipeline_closure_run fs csv_files C out :
  let C' := default 50%Z C in
  let obs := omap (latency_observation fs) csv_files in
  let violations := violation_record C' <$> filter (violates C') obs in
  let valid_points := valid_record C' <$> filter (λ o, ¬ violates C' o) obs in
  validate_pipeline_closure fs csv_files C out
  = ((bool_decide (length violations = 0%nat), valid_points),
     out ++ [ClosureHeader C'; ValidPoints (length valid_points);
             Violations (length violations)]
         ++ (if decide (violations = []) then []
             else ViolationsFound :: (violation_line <$> violations))).
Proof.
  intros C' obs violations valid_points.
  unfold validate_pipeline_closure, mbind, IO_bind. fold C'.
  rewrite for_each_closure. fold obs. simpl. fold violations valid_points.
  unfold print. simpl.
  destruct (decide (violations = [])) as [Hv|Hv].
  - rewrite (bool_decide_eq_false_2 (violations ≠ [])) by naive_solver.
    simpl. by rewrite <-!app_assoc.
  - rewrite (bool_decide_eq_true_2 (violations ≠ [])) by done.
    simpl. rewrite for_each_print_violation. by rewrite <-!app_assoc.
Qed.

Lemma latency_observation_depth fs csv_file o :
  latency_observation fs csv_file = Some o →
  search_P csv_file = Some o.1.1.1 ∧ o.2 = csv_file.
Proof.
  unfold latency_observation.
  destruct (fs !! csv_file) as [df|]; simpl; [|done].
  case_guard; simpl; [|done].
  destruct (search_P csv_file) as [p|]; simpl; [|done].
  destruct (iloc0 df "rps"); simpl; [|done].
  destruct (iloc0 df "p50_latency_ms"); simpl; [|done].
  by intros [= <-].
Qed.

Lemma not_violates C o : ¬ violates C o ↔ closure_lhs o ≤ Qc_of_Z (closure_rhs C o).
Proof. unfold violates. by rewrite Qcle_ngt. Qed.

(** X5. Every point the closure check returns is within capacity: it is
    a triple (depth, T·p50s, C·depth) of a latency-bearing file with
    [T·p50s ≤ C·depth].  A violating observation is never among the points
    returned (which are the points the script then plots). *)
Theorem closure_returns_points_within_capacity fs csv_files C out :
  Forall (λ v : Z * Qc * Z,
            v.1.2 ≤ Qc_of_Z v.2 ∧ v.2 = (default 50%Z C * v.1.1)%Z
            ∧ ∃ o, o ∈ omap (latency_observation fs) csv_files
                ∧ v = valid_record (default 50%Z C) o)
         (validate_pipeline_closure fs csv_files C out).1.2.
Proof.
  rewrite validate_pipeline_closure_run. simpl.
  apply Forall_fmap, Forall_forall.
  intros [[[p T] p50_ms] file] [Hok Ho]%list_elem_of_filter.
  apply not_violates in Hok. simpl in *. split_and!; [done..|].
  by eexists.
Qed.

Lemma length_filter_split {A} (P : A → Prop) `{∀ x, Decision (P x)} l :
  (length (filter P l) + length (filter (λ x, ¬ P x) l) = length l)%nat.
Proof.
  induction l as [|x l IH]; [done|]. rewrite !filter_cons.
  destruct (decide (P x)).
  - rewrite decide_False by naive_solver. simpl. lia.
  - rewrite decide_True by done. simpl. lia.
Qed.

(** X6. The check accounts for every latency-bearing file: the counts it
    prints, valid points and violations, add up to the number of files with
    a depth in their name and a first row in both the [rps] and the
    [p50_latency_ms] column; the first is the number of points returned,
    and the check passes exactly when the second is zero. *)
Theorem closure_counts_add_up fs csv_files C out :
  ∃ n m rest,
    (validate_pipeline_closure fs csv_files C out).2
    = out ++ ClosureHeader (default 50%Z C)
          :: ValidPoints n :: Violations m :: rest
    ∧ n = length (validate_pipeline_closure fs csv_files C out).1.2
    ∧ (n + m = length (omap (latency_observation fs) csv_files))%nat
    ∧ ((validate_pipeline_closure fs csv_files C out).1.1 = true ↔ m = 0%nat).
Proof.
  rewrite validate_pipeline_closure_run. simpl.
  do 3 eexists. split_and!; [done|done| |].
  - rewrite !length_fmap, Nat.add_comm. apply length_filter_split.
  - by rewrite bool_decide_eq_true.
Qed.

(** X7. A larger concurrency never turns a pass into a failure: depths
    read from file names are not negative, so [C × depth] only grows
    with [C]. *)
Theorem closure_pass_monotone fs csv_files C1 C2 out out' :
  (default 50%Z C1 ≤ default 50%Z C2)%Z →
  (validate_pipeline_closure fs csv_files C1 out).1.1 = true →
  (validate_pipeline_closure fs csv_files C2 out').1.1 = true.
Proof.
  intros HC. rewrite !validate_pipeline_closure_run. simpl.
  rewrite !bool_decide_eq_true, !length_zero_iff_nil.
  intros Hnil%fmap_nil_inv.
  destruct (filter (violates (default 50%Z C2)) _) as [|o k] eqn:E; [done|].
  exfalso.
  assert (o ∈ filter (violates (default 50%Z C2))
                (omap (latency_observation fs) csv_files))
    as [Hvio Ho]%list_elem_of_filter by (rewrite E; left).
  apply (filter_nil_not_elem_of _ _ o Hnil); [|done].
  apply list_elem_of_omap in Ho as (f & _ & Hf).
  apply latency_observation_depth in Hf as [Hp%search_P_nonneg _].
  destruct o as [[[p T] p50_ms] file]. unfold violates in *. simpl in *.
  eapply Qcle_lt_trans; [|exact Hvio].
  apply (proj1 (Z2Qc_inj_le _ _)). by apply Z.mul_le_mono_nonneg_r.
Qed.

(** ** The syscall budget: the division that raises *)

(** X8. The syscall check stops at the first depth whose product with
    the concurrency is zero: [2 / (C * p)] raises there, the lines of the
    depths before it have been printed, and no value is returned. *)
Theorem syscall_budget_raises before p after C out :
  Forall (λ q, (default 50%Z C * q)%Z ≠ 0%Z) before →
  (default 50%Z C * p)%Z = 0%Z →
  validate_syscall_invariant (before ++ p :: after) C out
  = (None,
     out ++ SyscallHeader
         :: ((λ q, SyscallLine q (syscalls_per_op (default 50%Z C) q))
               <$> before)).
Proof.
  intros Hbefore Hp. unfold validate_syscall_invariant, mbind, IO_bind, print.
  simpl.
  assert (∀ acc out1,
    syscall_loop (default 50%Z C) (before ++ p :: after) acc out1
    = (None, out1 ++ ((λ q, SyscallLine q (syscalls_per_op (default 50%Z C) q))
                        <$> before))) as ->.
  { induction Hbefore as [|q qs Hq _ IH]; intros acc out1.
    - simpl. rewrite bool_decide_eq_true_2 by done. by rewrite app_nil_r.
    - cbn [app syscall_loop]. rewrite bool_decide_eq_false_2 by done.
      unfold mbind, IO_bind, print. rewrite IH.
      by rewrite fmap_cons, <-app_assoc. }
  by rewrite <-app_assoc.
Qed.

(** ** Scripts: running the pieces *)

Section script_steps.
Context {A B : Type}.

Lemma bind_returned (m : Script A) (f : A → Script B) tr a tr' :
  m tr = (Returned a, tr') → (m ≫= f) tr = f a tr'.
Proof. unfold mbind, Script_bind. by intros ->. Qed.

Lemma bind_raised (m : Script A) (f : A → Script B) tr e tr' :
  m tr = (Raised e, tr') → (m ≫= f) tr = (Raised e, tr').
Proof. unfold mbind, Script_bind. by intros ->. Qed.

End script_steps.

Lemma emit_bind {B} e (f : unit → Script B) tr :
  (emit e ≫= f) tr = f () (tr ++ [e]).
Proof. done. Qed.

Lemma py_div_Fin a q tr :
  py_div a (Fin q) tr
  = if decide (q = 0) then (Raised ZeroDivisionError, tr)
    else (Returned (fdiv a (Fin q)), tr).
Proof.
  unfold py_div, Qc_zero. case_bool_decide; by case_decide.
Qed.

Lemma unzip2_pairs {A} (a b : A → float64) l tr :
  l ≠ [] →
  unzip2 ((λ d, [a d; b d]) <$> l) tr = (Returned (a <$> l, b <$> l), tr).
Proof.
  intros Hl. unfold unzip2.
  assert (mapM row2 ((λ d, [a d; b d]) <$> l) = Some ((λ d, (a d, b d)) <$> l))
    as ->.
  { apply mapM_Some. apply Forall2_fmap, Forall_Forall2_diag.
    by apply Forall_true. }
  rewrite bool_decide_eq_true_2.
  - by rewrite <-!list_fmap_compose.
  - destruct l as [|d l]; [done|]. by left.
Qed.

Lemma py_max_returns l tr :
  l ≠ [] → ∃ m, py_max l tr = (Returned m, tr).
Proof. destruct l; [done|]. by eexists. Qed.

(** ** What a run leaves on disk *)

Lemma json_dumps_app tr tr' : json_dumps (tr ++ tr') = json_dumps tr ++ json_dumps tr'.
Proof. apply omap_app. Qed.

Lemma saved_figures_app tr tr' :
  saved_figures (tr ++ tr') = saved_figures tr ++ saved_figures tr'.
Proof. apply omap_app. Qed.

Lemma json_dumps_Says out : json_dumps (Says <$> out) = [].
Proof. by induction out. Qed.

Lemma saved_figures_Says out : saved_figures (Says <$> out) = [].
Proof. by induction out. Qed.

Lemma json_dumps_Plt calls : json_dumps (Plt <$> calls) = [].
Proof. by induction calls. Qed.

Lemma saved_figures_Plt calls :
  Forall (λ c, ∀ p, c ≠ plt_savefig p) calls →
  saved_figures (Plt <$> calls) = [].
Proof.
  induction 1 as [|c calls Hc _ IH]; [done|].
  rewrite fmap_cons. unfold saved_figures in *. cbn [omap list_omap].
  rewrite IH. destruct c; try done. by destruct (Hc path).
Qed.

Ltac on_disk :=
  rewrite ?json_dumps_app, ?saved_figures_app, ?json_dumps_Says,
    ?saved_figures_Says, ?json_dumps_Plt.

(** ** The throughput figure *)

Lemma Fin_inj a b : Fin a = Fin b → a = b.
Proof. intros Hab. exact (f_equal finite_part Hab). Qed.

Lemma em9_scaled_zero b : fmul (Fin b) em9 = Fin 0 ↔ b = 0.
Proof.
  unfold em9. cbn [fmul]. split.
  - intros Hb%Fin_inj. apply Qcmult_integral in Hb as [Hb|Hb]; [done|].
    by vm_compute in Hb.
  - intros ->. by rewrite Qcmult_0_l.
Qed.

Lemma py_div_e6 a tr : py_div a e6 tr = (Returned (fdiv a e6), tr).
Proof.
  unfold py_div, e6, of_int. fold E6.
  by rewrite Qc_zero_false by (apply not_eq_sym, Qclt_not_eq, E6_pos).
Qed.

(** The knee of the curve: both divisions go through unless the slope is
    exactly zero. *)
Lemma knee_run {B} (t0 t1 : float64) (k : float64 → float64 → Script B) tr :
  (knee_p ← py_div (fmul t0 em6) (fmul t1 em9);
   knee_T' ← py_div (Fin 1) (fmul (fmul (Fin (Qc_of_Z 2)) t1) em9);
   knee_T ← py_div knee_T' e6;
   k knee_p knee_T) tr
  = if decide (t1 = Fin 0) then (Raised ZeroDivisionError, tr)
    else k (fdiv (fmul t0 em6) (fmul t1 em9))
           (fdiv (fdiv (Fin 1) (fmul (fmul (Fin (Qc_of_Z 2)) t1) em9)) e6)
           tr.
Proof.
  destruct t1 as [b| | |].
  - destruct (decide (b = 0)) as [->|Hb].
    + rewrite decide_True by done.
      apply bind_raised. unfold em9. cbn [fmul]. rewrite Qcmult_0_l.
      by rewrite py_div_Fin, decide_True.
    + rewrite decide_False by (by intros ?%Fin_inj).
      assert (∀ c, c ≠ 0 → fmul (Fin c) em9 ≠ Fin 0) as Hscaled.
      { intros c Hc. by rewrite em9_scaled_zero. }
      erewrite bind_returned; cycle 1.
      { pose proof (Hscaled b Hb) as Hne. unfold em9 in *. cbn [fmul] in *.
        rewrite py_div_Fin, decide_False; [done|].
        intros Heq. apply Hne. by rewrite Heq. }
      erewrite bind_returned; cycle 1.
      { assert (Qc_of_Z 2 * b ≠ 0) as H2b.
        { intros [H2|?]%Qcmult_integral; [by vm_compute in H2|done]. }
        pose proof (Hscaled _ H2b) as Hne. unfold em9 in *. cbn [fmul] in *.
        rewrite py_div_Fin, decide_False; [done|].
        intros Heq. apply Hne. by rewrite Heq. }
      erewrite bind_returned; [done|]. apply py_div_e6.
  - rewrite decide_False by done.
    erewrite bind_returned; cycle 1. { by vm_compute. }
    erewrite bind_returned; cycle 1. { by vm_compute. }
    erewrite bind_returned; [done|]. apply py_div_e6.
  - rewrite decide_False by done.
    erewrite bind_returned; cycle 1. { by vm_compute. }
    erewrite bind_returned; cycle 1. { by vm_compute. }
    erewrite bind_returned; [done|]. apply py_div_e6.
  - rewrite decide_False by done.
    erewrite bind_returned; cycle 1. { by destruct t0. }
    erewrite bind_returned; cycle 1. { by vm_compute. }
    erewrite bind_returned; [done|]. apply py_div_e6.
Qed.

Lemma generate_figure_run `{NumLib} points path tr :
  points ≠ [] →
  let r := fit_points points in
  ∃ head knee_p knee_T text xytext,
    Forall (λ c, ∀ p, c ≠ plt_savefig p) head
    ∧ fit_throughput_model.generate_figure (Some r) path tr
      = (if decide (t1_ns_per_op r = Fin 0)
         then (Raised ZeroDivisionError, tr ++ (Plt <$> head))
         else (Returned (),
               tr ++ (Plt <$> head
                        ++ [plt_annotate text (knee_p, knee_T) xytext;
                            plt_tight_layout; plt_savefig path; plt_close])))
    ∧ knee_p = fdiv (fmul (t0_us_per_batch r) em6) (fmul (t1_ns_per_op r) em9)
    ∧ knee_T = fdiv (fdiv (Fin 1)
                       (fmul (fmul (Fin (Qc_of_Z 2)) (t1_ns_per_op r)) em9))
                 e6.
Proof.
  intros Hpts r. unfold fit_throughput_model.generate_figure.
  assert (raw_data r = (λ d, [of_int d.1; Fin d.2]) <$> points) as ->
    by apply raw_data_fit_points.
  rewrite (bind_returned _ _ _ _ _ (unzip2_pairs _ _ points tr Hpts)).
  rewrite <-list_fmap_compose.
  destruct (py_max_returns ((λ d : Z * Qc, of_int d.1) <$> points) tr)
    as [p_max Hmax]; [by destruct points|].
  rewrite (bind_returned _ _ _ _ _ Hmax). unfold plt. rewrite !emit_bind.
  rewrite <-!app_assoc. cbn [app].
  rewrite knee_run.
  eexists [_; _; _; _; _; _; _; _], _, _, _, _.
  split; [|split; [|done]]; cycle 1.
  - case_decide; [done|].
    unfold plt. rewrite !emit_bind. unfold emit.
    by rewrite <-!app_assoc.
  - by repeat constructor.
Qed.

(** X9. Given a result of the fitter, the figure is drawn and saved
    unless the fitted slope is exactly zero: then locating the knee divides
    by zero, [ZeroDivisionError] is raised after the curve has been plotted,
    and no file is saved.  A slope that is infinite or not a number raises
    nothing.  The figure function calls matplotlib and does nothing else. *)
Theorem generate_figure_zero_slope `{NumLib} fs csv_files out r path tr :
  (fit_batched_service_model fs csv_files out).1 = Some r →
  let run := fit_throughput_model.generate_figure (Some r) path tr in
  ∃ calls,
    run.2 = tr ++ (Plt <$> calls)
    ∧ (run.1 = Raised ZeroDivisionError ↔ t1_ns_per_op r = Fin 0)
    ∧ (run.1 = Returned () ↔ t1_ns_per_op r ≠ Fin 0)
    ∧ (plt_savefig path ∈ calls ↔ t1_ns_per_op r ≠ Fin 0).
Proof.
  intros [Hlen ->]%fit_result_Some run. subst run.
  destruct (generate_figure_run (sorted_observations fs csv_files) path tr)
    as (head & knee_p & knee_T & text & xytext & Hhead & -> & _).
  { intros Hnil. rewrite <-(sorted_observations_perm fs csv_files) in Hlen.
    rewrite Hnil in Hlen. simpl in Hlen. lia. }
  case_decide as Hslope.
  - exists head. cbn [fst snd]. split_and!; [done|done|naive_solver|].
    split; [|done]. intros Hin. rewrite Forall_forall in Hhead.
    by destruct (Hhead _ Hin path).
  - eexists. cbn [fst snd]. split_and!; [done|naive_solver|done|].
    split; [done|intros _].
    rewrite elem_of_app, !elem_of_cons. auto.
Qed.

Lemma Qc_E_ne_0 : E6 ≠ 0 ∧ E9 ≠ 0 ∧ Qc_of_Z 2 ≠ 0 ∧ / E6 ≠ 0 ∧ / E9 ≠ 0.
Proof.
  split_and!; [by apply Qc_of_Z_ne_0..| |]; intros Hinv; by vm_compute in Hinv.
Qed.

(** X10. On a result with finite intercept and positive finite slope the
    figure marks the knee at [p = t0 / t1], at half of the saturation
    throughput [Tmax_Mops_s] that the fitter reports; when the intercept is
    not zero the marked point lies on the plotted model curve. *)
Theorem knee_at_half_saturation `{NumLib} fs csv_files out r path tr a b :
  (fit_batched_service_model fs csv_files out).1 = Some r →
  t0_us_per_batch r = Fin a → t1_ns_per_op r = Fin b → 0 < b →
  ∃ knee_p knee_T text xytext,
    Plt (plt_annotate text (Fin knee_p, Fin knee_T) xytext)
      ∈ (fit_throughput_model.generate_figure (Some r) path tr).2
    ∧ knee_p = (a / E6) / (b / E9)
    ∧ Tmax_Mops_s r = Fin (2 * knee_T)
    ∧ (a ≠ 0 →
       model_curve (fmul (t0_us_per_batch r) em6) (fmul (t1_ns_per_op r) em9)
         (Fin knee_p)
       = Fin knee_T).
Proof.
  intros [Hlen ->]%fit_result_Some Ht0 Ht1 Hb.
  destruct (generate_figure_run (sorted_observations fs csv_files) path tr)
    as (head & knee_p & knee_T & text & xytext & _ & -> & -> & ->).
  { intros Hnil. rewrite <-(sorted_observations_perm fs csv_files) in Hlen.
    rewrite Hnil in Hlen. simpl in Hlen. lia. }
  destruct (fit_points_Tmax (sorted_observations fs csv_files))
    as (t1_sec & Ht1' & ->).
  rewrite Ht0, Ht1 in *. clear Ht0 Ht1.
  destruct Qc_E_ne_0 as (H6 & H9 & H2 & Hi6 & Hi9).
  assert (b ≠ 0) as Hb0 by (by apply not_eq_sym, Qclt_not_eq).
  rewrite decide_False by (by intros ?%Fin_inj).
  assert (b * / E9 ≠ 0) as Hb9.
  { by intros [?|?]%Qcmult_integral. }
  assert (Qc_of_Z 2 * b * / E9 ≠ 0) as H2b9.
  { rewrite <-Qcmult_assoc. by intros [?|?]%Qcmult_integral. }
  unfold model_curve, em6, em9, e6, of_int. fold E6 E9. cbn [fmul snd].
  rewrite !fdiv_Fin by done.
  eexists _, _, _, _. split.
  { rewrite elem_of_app. right. apply list_elem_of_fmap_2.
    rewrite elem_of_app. right. left. }
  split; [by field|].
  destruct t1_sec as [q| | |]; simpl in Ht1'; unfold inf_times in Ht1';
    fold E9 in Ht1'; rewrite ?(Qc_zero_false E9) in Ht1' by done;
    try discriminate.
  apply Fin_inj in Ht1'. subst b.
  assert (Qc_of_Z 2 = 2) as Htwo by (by apply Qc_is_canon).
  rewrite Htwo in *.
  assert (0 < q) as Hq.
  { apply (Qcmult_lt_mono_pos_r _ _ E9); [apply E9_pos|].
    by rewrite Qcmult_0_l. }
  assert (q ≠ 0) as Hq0 by (by apply not_eq_sym, Qclt_not_eq).
  split.
  - cbn [flt]. rewrite bool_decide_eq_true_2 by done.
    unfold e6, of_int. fold E6. cbn [fmul].
    rewrite fdiv_Fin by (by intros [|]%Qcmult_integral).
    apply (f_equal Fin). by field.
  - intros Ha. cbn [fadd].
    assert (a * / E6 + q * E9 * / E9 * (a * / E6 / (q * E9 * / E9))
            = 2 * (a / E6)) as -> by (by field).
    assert (2 * (a / E6) ≠ 0) as Hden.
    { by intros [?|[?|?]%Qcmult_integral]%Qcmult_integral. }
    rewrite !fdiv_Fin by done.
    apply (f_equal Fin). by field.
Qed.

(** ** The fitting script as a whole *)

Lemma fit_points_intervals `{NumLib} points :
  ∃ lo0 hi0 lo1 hi1,
    t0_confidence_interval (fit_points points) = [lo0; hi0]
    ∧ t1_confidence_interval (fit_points points) = [lo1; hi1].
Proof.
  unfold fit_points. destruct (np_polyfit _ _) as [t1_sec t0_sec].
  by eexists _, _, _, _.
Qed.

Lemma call_run {A B} (m : IO A) (f : A → Script B) tr :
  (call m ≫= f) tr = f (m []).1 (tr ++ (Says <$> (m []).2)).
Proof. unfold mbind, Script_bind, call. by destruct (m []). Qed.

Lemma py_index_0 {A B} (a : A) l (f : A → Script B) tr :
  (py_index (a :: l) 0 ≫= f) tr = f a tr.
Proof. done. Qed.

Lemma py_index_1 {A B} (a b : A) l (f : A → Script B) tr :
  (py_index (a :: b :: l) 1 ≫= f) tr = f b tr.
Proof. done. Qed.

(** The run of [main] once the fitter has given a result. *)
Lemma fit_main_run `{NumLib} fs csv_files points out :
  csv_files ≠ [] → points ≠ [] →
  fit_batched_service_model fs csv_files [] = (Some (fit_points points), out) →
  ∃ pre calls post,
    json_dumps pre = [] ∧ saved_figures pre = []
    ∧ saved_figures (Plt <$> calls) = ["throughput_vs_pipeline_model.png"]
    ∧ json_dumps post
      = [("model_fit_results.json", FitResults (fit_points points))]
    ∧ saved_figures post = []
    ∧ fit_throughput_model.main fs csv_files []
      = (if decide (t1_ns_per_op (fit_points points) = Fin 0)
         then (Raised ZeroDivisionError, pre)
         else (Returned (), pre ++ (Plt <$> calls) ++ post)).
Proof.
  intros Hfiles Hpts Hfit. unfold fit_throughput_model.main.
  rewrite bool_decide_eq_false_2 by done.
  unfold say. rewrite emit_bind, call_run, Hfit. cbn [fst snd].
  destruct (fit_points_intervals points)
    as (lo0 & hi0 & lo1 & hi1 & Hci0 & Hci1).
  rewrite !emit_bind, Hci0, Hci1.
  rewrite py_index_0, py_index_1, emit_bind, py_index_0, py_index_1.
  rewrite !emit_bind.
  match goal with
  | |- context [(fit_throughput_model.generate_figure _ ?path ≫= _) ?tr] =>
      destruct (generate_figure_run points path tr Hpts)
        as (head & knee_p & knee_T & text & xytext & Hhead & Hrun & _)
  end.
  set (post := [Prints [Newline;
                        Text "Figure saved: throughput_vs_pipeline_model.png"];
                JsonDump "model_fit_results.json"
                  (FitResults (fit_points points));
                Prints [Text "Results saved: model_fit_results.json"]]).
  match goal with
  | |- context [(fit_throughput_model.generate_figure _ _ ≫= _) ?tr] =>
      set (pre := tr) in *
  end.
  assert (json_dumps pre = [] ∧ saved_figures pre = []) as [Hpre Hpre'].
  { unfold pre. by on_disk. }
  clearbody pre.
  case_decide as Hslope.
  - erewrite bind_raised by exact Hrun.
    exists (pre ++ (Plt <$> head)),
      [plt_savefig "throughput_vs_pipeline_model.png"], post.
    on_disk. rewrite Hpre, Hpre', saved_figures_Plt by done. done.
  - erewrite bind_returned by exact Hrun.
    rewrite !emit_bind. unfold emit.
    exists pre,
      (head ++ [plt_annotate text (knee_p, knee_T) xytext; plt_tight_layout;
                plt_savefig "throughput_vs_pipeline_model.png"; plt_close]),
      post.
    split_and!; [done|done| |done|done|].
    + rewrite fmap_app. on_disk. by rewrite saved_figures_Plt.
    + by rewrite <-!app_assoc.
Qed.

(** X11. What the fitting script leaves on disk.  It writes
    [model_fit_results.json], holding the fitter's result, only after the
    figure has been saved; with fewer than five data points (or no file at
    all) it returns having written and saved nothing; and when the fitted
    slope is exactly zero it ends in [ZeroDivisionError] with neither the
    figure nor the results saved. *)
Theorem fit_main_saves_results_after_figure `{NumLib} fs csv_files :
  let run := fit_throughput_model.main fs csv_files [] in
  match (fit_batched_service_model fs csv_files []).1 with
  | Some r =>
      if decide (t1_ns_per_op r = Fin 0)
      then run.1 = Raised ZeroDivisionError
           ∧ json_dumps run.2 = [] ∧ saved_figures run.2 = []
      else run.1 = Returned ()
           ∧ json_dumps run.2 = [("model_fit_results.json", FitResults r)]
           ∧ saved_figures run.2 = ["throughput_vs_pipeline_model.png"]
  | None =>
      run.1 = Returned () ∧ json_dumps run.2 = [] ∧ saved_figures run.2 = []
  end.
Proof.
  intros run. subst run.
  destruct (decide (csv_files = [])) as [->|Hfiles]; [done|].
  destruct (fit_batched_service_model fs csv_files []) as [res out] eqn:Hfit.
  cbn [fst]. destruct res as [r|].
  - assert ((fit_batched_service_model fs csv_files []).1 = Some r)
      as [Hlen ->]%fit_result_Some by (by rewrite Hfit).
    destruct (fit_main_run fs csv_files (sorted_observations fs csv_files)
                out Hfiles) as
      (pre & calls & post & Hpre & Hpre' & Hcalls & Hpost & Hpost' & ->);
      [|done|].
    { intros Hnil. rewrite <-(sorted_observations_perm fs csv_files) in Hlen.
      rewrite Hnil in Hlen. simpl in Hlen. lia. }
    case_decide; cbn [fst snd]; [done|].
    on_disk. by rewrite Hpre, Hpre', Hcalls, Hpost, Hpost'.
  - unfold fit_throughput_model.main.
    rewrite bool_decide_eq_false_2 by done.
    unfold say. rewrite emit_bind, call_run, Hfit. unfold emit. cbn [fst snd].
    by on_disk.
Qed.

(** ** The validation script as a whole *)

Lemma StronglySorted_le_lt (l : list Z) :
  StronglySorted Z.le l → NoDup l → StronglySorted Z.lt l.
Proof.
  induction 1 as [|x l _ IH Hx]; intros Hnd; [constructor|].
  apply NoDup_cons in Hnd as [Hnotin Hnd].
  constructor; [by apply IH|].
  rewrite Forall_forall in *. intros y Hy.
  specialize (Hx y Hy). assert (x ≠ y) by (by intros ->). lia.
Qed.

Lemma elem_of_depths_of csv_files p :
  p ∈ validate_invariants.depths_of csv_files
  ↔ ∃ f, f ∈ csv_files ∧ search_P f = Some p.
Proof.
  unfold validate_invariants.depths_of.
  rewrite merge_sort_Permutation, elem_of_elements.
  rewrite elem_of_list_to_set, list_elem_of_omap. naive_solver.
Qed.

(** X12. The depths handed to the syscall check are those found in the
    file names, each once and in ascending order, whether or not the file
    can be read. *)
Theorem depths_of_distinct_ascending csv_files :
  StronglySorted Z.lt (validate_invariants.depths_of csv_files)
  ∧ ∀ p, p ∈ validate_invariants.depths_of csv_files
         ↔ ∃ f, f ∈ csv_files ∧ search_P f = Some p.
Proof.
  unfold validate_invariants.depths_of. split.
  - apply StronglySorted_le_lt.
    + apply (StronglySorted_merge_sort Z.le).
    + rewrite merge_sort_Permutation. apply NoDup_elements.
  - apply elem_of_depths_of.
Qed.

(** [max] of finite numbers is one of them, and none exceeds it. *)
Lemma foldl_max_Fin x l :
  ∃ q, foldl (λ best y, if flt best y then y else best) (Fin x) (Fin <$> l)
       = Fin q
       ∧ q ∈ x :: l ∧ x ≤ q ∧ Forall (λ y, y ≤ q) l.
Proof.
  revert x. induction l as [|y l IH]; intros x.
  { exists x. split_and!; [done|by left|apply Qcle_refl|constructor]. }
  cbn [fmap list_fmap foldl flt]. case_bool_decide as Hxy.
  - destruct (IH y) as (q & -> & Hin & Hy & Hl).
    exists q. split_and!; [done|by right| |by constructor].
    eapply Qcle_trans; [by apply Qclt_le_weak|done].
  - destruct (IH x) as (q & -> & Hin & Hx & Hl).
    apply Qcnot_lt_le in Hxy.
    exists q. split_and!; [done| |done|].
    + apply elem_of_cons in Hin as [->|Hin]; [by left|by right; right].
    + constructor; [by eapply Qcle_trans|done].
Qed.

Lemma py_max_Fin l tr :
  l ≠ [] →
  ∃ q, py_max (Fin <$> l) tr = (Returned (Fin q), tr)
       ∧ q ∈ l ∧ Forall (λ y, y ≤ q) l.
Proof.
  destruct l as [|x l]; [done|intros _].
  destruct (foldl_max_Fin x l) as (q & Hq & Hin & Hx & Hl).
  exists q. unfold py_max. cbn [fmap list_fmap]. rewrite Hq.
  split_and!; [done|done|by constructor].
Qed.

(** The run of the closure figure on at least one point. *)
Lemma closure_figure_run (valid_points : list (Z * Qc * Z)) path tr :
  valid_points ≠ [] →
  ∃ m,
    validate_invariants.generate_pipeline_closure_figure valid_points path tr
    = (Returned (),
       tr ++ (Plt <$>
         [plt_figure 10 6;
          plt_scatter ((λ v : Z * Qc * Z, of_int v.2) <$> valid_points)
                      ((λ v : Z * Qc * Z, Fin v.1.2) <$> valid_points)
                      "Measured Points";
          plt_plot [Fin 0; Fin (m * Q2Qc 1.1)] [Fin 0; Fin (m * Q2Qc 1.1)]
                   [Text "y = x (Closure Boundary)"];
          plt_xlabel "C · p"; plt_ylabel "T · p50s";
          plt_title [Text "Pipeline Closure Verification"; Newline;
                     Text "(All points must lie at or below y = x line)"];
          plt_legend; plt_grid; plt_tight_layout; plt_savefig path;
          plt_close]))
    ∧ Forall (λ v : Z * Qc * Z, Qc_of_Z v.2 ≤ m ∧ v.1.2 ≤ m) valid_points.
Proof.
  intros Hpts. unfold validate_invariants.generate_pipeline_closure_figure.
  rewrite bool_decide_eq_false_2 by done.
  unfold plt. rewrite !emit_bind.
  destruct (py_max_Fin ((λ v : Z * Qc * Z, Qc_of_Z v.2) <$> valid_points)
              ((tr ++ [Plt (plt_figure 10 6)]) ++
               [Plt (plt_scatter ((λ v : Z * Qc * Z, of_int v.2) <$> valid_points)
                      ((λ v : Z * Qc * Z, Fin v.1.2) <$> valid_points)
                      "Measured Points")]))
    as (mr & Hmr & _ & Hler); [by destruct valid_points|].
  destruct (py_max_Fin ((λ v : Z * Qc * Z, v.1.2) <$> valid_points)
              ((tr ++ [Plt (plt_figure 10 6)]) ++
               [Plt (plt_scatter ((λ v : Z * Qc * Z, of_int v.2) <$> valid_points)
                      ((λ v : Z * Qc * Z, Fin v.1.2) <$> valid_points)
                      "Measured Points")]))
    as (ml & Hml & _ & Hlel); [by destruct valid_points|].
  rewrite <-list_fmap_compose in Hmr, Hml.
  erewrite bind_returned by exact Hmr.
  erewrite bind_returned by exact Hml.
  destruct (foldl_max_Fin mr [ml]) as (m & Hm & _ & Hmrm & Hmlm).
  apply Forall_cons in Hmlm as [Hmlm _].
  erewrite bind_returned; cycle 1.
  { unfold py_max. cbn [fmap list_fmap] in Hm. by rewrite Hm. }
  rewrite !emit_bind. unfold emit. cbn [fmul].
  exists m. split; [by rewrite <-!app_assoc|].
  rewrite Forall_fmap in Hler. rewrite Forall_fmap in Hlel.
  rewrite Forall_forall in *.
  intros v Hv. specialize (Hler v Hv). specialize (Hlel v Hv). simpl in *.
  split; by eapply Qcle_trans.
Qed.

Lemma valid_points_below fs csv_files C out :
  (0 ≤ default 50%Z C)%Z →
  Forall (λ v : Z * Qc * Z, v.1.2 ≤ Qc_of_Z v.2 ∧ 0 ≤ Qc_of_Z v.2)
         (validate_pipeline_closure fs csv_files C out).1.2.
Proof.
  intros HC. rewrite validate_pipeline_closure_run. simpl.
  apply Forall_fmap, Forall_forall.
  intros o [Hok Ho]%list_elem_of_filter.
  apply not_violates in Hok.
  apply list_elem_of_omap in Ho as (f & _ & Hf).
  apply latency_observation_depth in Hf as [Hp%search_P_nonneg _].
  destruct o as [[[p T] p50_ms] file]. simpl in *. split; [done|].
  apply (proj1 (Z2Qc_inj_le 0 _)). by apply Z.mul_nonneg_nonneg.
Qed.

(** X13. The closure figure of the points that the closure check returns
    (at a concurrency that is not negative): when there is at least one
    point the figure is saved, every plotted point lies on or below the
    boundary [y = x], and the boundary is drawn from the origin far enough
    to cover all of them. *)
Theorem closure_figure_points_below_boundary fs csv_files C out path tr :
  (0 ≤ default 50%Z C)%Z →
  (validate_pipeline_closure fs csv_files C out).1.2 ≠ [] →
  ∃ xs ys m rest,
    validate_invariants.generate_pipeline_closure_figure
      (validate_pipeline_closure fs csv_files C out).1.2 path tr
    = (Returned (),
       tr ++ (Plt <$> plt_figure 10 6
                :: plt_scatter (Fin <$> xs) (Fin <$> ys) "Measured Points"
                :: plt_plot [Fin 0; Fin m] [Fin 0; Fin m]
                     [Text "y = x (Closure Boundary)"]
                :: rest))
    ∧ plt_savefig path ∈ rest
    ∧ length xs = length (validate_pipeline_closure fs csv_files C out).1.2
    ∧ Forall2 (λ x y, y ≤ x ∧ 0 ≤ x ∧ x ≤ m) xs ys.
Proof.
  intros HC Hpts.
  pose proof (valid_points_below fs csv_files C out HC) as Hbelow.
  destruct (closure_figure_run _ path tr Hpts) as (m & -> & Hm).
  set (points := (validate_pipeline_closure fs csv_files C out).1.2) in *.
  exists ((λ v : Z * Qc * Z, Qc_of_Z v.2) <$> points),
    ((λ v : Z * Qc * Z, v.1.2) <$> points), (m * Q2Qc 1.1).
  eexists. split_and!.
  - by rewrite <-!list_fmap_compose.
  - do 6 right. left.
  - by rewrite length_fmap.
  - assert (0 ≤ m) as Hm0.
    { destruct points as [|v ?]; [done|].
      apply Forall_cons in Hm as [[Hm _] _].
      apply Forall_cons in Hbelow as [[_ Hv] _].
      by eapply Qcle_trans. }
    assert (m ≤ m * Q2Qc 1.1) as Hm1.
    { assert (m * Q2Qc 1.1 = m + m * Q2Qc 0.1) as ->.
      { assert (Q2Qc 1.1 = 1 + Q2Qc 0.1) as -> by (by apply Qc_is_canon).
        ring. }
      apply Qc_le_add. rewrite <-(Qcmult_0_l (Q2Qc 0.1)).
      by apply Qcmult_le_compat_r. }
    apply Forall2_fmap, Forall_Forall2_diag.
    rewrite Forall_forall in *. intros v Hv.
    destruct (Hm v Hv) as [Hvm _]. destruct (Hbelow v Hv) as [Hle H0].
    split_and!; [done|done|]. by eapply Qcle_trans.
Qed.

Lemma syscall_loop_None C p_values theoretical_values out :
  Exists (λ p, (C * p)%Z = 0%Z) p_values →
  (syscall_loop C p_values theoretical_values out).1 = None.
Proof.
  intros Hex. revert theoretical_values out.
  induction p_values as [|p ps IH]; intros theoretical_values out.
  { by apply Exists_nil in Hex. }
  cbn [syscall_loop]. case_bool_decide as Hp; [done|].
  apply Exists_cons in Hex as [?|Hex]; [done|].
  unfold mbind, IO_bind, print. by apply IH.
Qed.

Lemma call_syscall_run {B} p_values (f : bool * list (Z * Qc) → Script B) tr :
  ∃ out,
    (validate_invariants.call_syscall p_values ≫= f) tr
    = if decide (0%Z ∈ p_values)
      then (Raised ZeroDivisionError, tr ++ (Says <$> out))
      else f (true, (λ p, (p, syscalls_per_op 50 p)) <$> p_values)
             (tr ++ (Says <$> out)).
Proof.
  unfold validate_invariants.call_syscall.
  exists (validate_syscall_invariant p_values None []).2.
  unfold mbind at 1, Script_bind at 1. rewrite call_run.
  destruct (decide (0%Z ∈ p_values)) as [Hin|Hin].
  - assert ((validate_syscall_invariant p_values None []).1 = None) as ->; [|done].
    unfold validate_syscall_invariant, mbind, IO_bind, print. simpl.
    pose proof (syscall_loop_None 50 p_values [] [SyscallHeader]) as Hnone.
    destruct (syscall_loop _ _ _ _) as [[v|] out]; [|done].
    simpl in Hnone. discriminate Hnone.
    apply Exists_exists. by exists 0%Z.
  - assert (Forall (λ p, p ≠ 0%Z) p_values) as Hps.
    { apply Forall_forall. by intros p Hp ->. }
    unfold validate_syscall_invariant, mbind, IO_bind, print. simpl.
    rewrite syscall_loop_spec by done. done.
Qed.

(** The run of [main] on at least one file. *)
Lemma invariants_main_run fs csv_files :
  csv_files ≠ [] →
  let closure := (validate_pipeline_closure fs csv_files None []).1 in
  ∃ pre fig post,
    json_dumps pre = [] ∧ saved_figures pre = []
    ∧ json_dumps fig = []
    ∧ saved_figures fig
      = (if decide (closure.2 = []) then []
         else ["pipeline_closure_validation.png"])
    ∧ json_dumps post
      = [("invariant_validation_results.json",
          InvariantResults {|
            pipeline_closure_valid := closure.1;
            pipeline_closure_points_tested := Z.of_nat (length closure.2);
            syscall_budget_valid := true;
            syscall_budget_theoretical_values :=
              (λ p, (p, syscalls_per_op 50 p))
                <$> validate_invariants.depths_of csv_files;
            cycles_per_op_band_valid := true;
            cycles_per_op_band_estimated_cycles_per_op :=
              Q2Qc 69.6 * Q2Qc 3.5 |})]
    ∧ saved_figures post = []
    ∧ Prints [Text "2. Syscall Budget: "; Text "PASS"] ∈ post
    ∧ Prints [Text "3. Cycles/op Band: "; Text "PASS"] ∈ post
    ∧ validate_invariants.main fs csv_files []
      = (if decide (0%Z ∈ validate_invariants.depths_of csv_files)
         then (Raised ZeroDivisionError, pre)
         else (Returned (), pre ++ fig ++ post)).
Proof.
  intros Hfiles closure. subst closure. unfold validate_invariants.main.
  unfold say. rewrite !emit_bind.
  rewrite bool_decide_eq_false_2 by done.
  rewrite !emit_bind, call_run.
  destruct (validate_pipeline_closure fs csv_files None []).1
    as [closure_valid closure_points] eqn:Hc.
  cbn [fst snd].
  match goal with
  | |- context [(validate_invariants.call_syscall ?ps ≫= ?f) ?tr] =>
      destruct (call_syscall_run ps f tr) as [out ->];
      set (pre := tr ++ (Says <$> out))
  end.
  assert (json_dumps pre = [] ∧ saved_figures pre = []) as [Hpre Hpre'].
  { unfold pre. by on_disk. }
  clearbody pre.
  set (doc := InvariantResults {|
            pipeline_closure_valid := closure_valid;
            pipeline_closure_points_tested :=
              Z.of_nat (length closure_points);
            syscall_budget_valid := true;
            syscall_budget_theoretical_values :=
              (λ p, (p, syscalls_per_op 50 p))
                <$> validate_invariants.depths_of csv_files;
            cycles_per_op_band_valid := true;
            cycles_per_op_band_estimated_cycles_per_op :=
              Q2Qc 69.6 * Q2Qc 3.5 |}).
  set (post :=
    [Prints [Newline; Text "Invariant Validation Summary:"];
     Prints [Text "1. Pipeline Closure: ";
             validate_invariants.pass_fail closure_valid];
     Prints [Text "2. Syscall Budget: "; Text "PASS"];
     Prints [Text "3. Cycles/op Band: "; Text "PASS"];
     JsonDump "invariant_validation_results.json" doc;
     Prints [Text "Results saved: invariant_validation_results.json"]]).
  assert (Prints [Text "2. Syscall Budget: "; Text "PASS"] ∈ post
          ∧ Prints [Text "3. Cycles/op Band: "; Text "PASS"] ∈ post)
    as [Hpass2 Hpass3].
  { split; [do 2 right; left|do 3 right; left]. }
  destruct (decide (0%Z ∈ validate_invariants.depths_of csv_files)) as [Hzero|Hzero].
  { destruct (decide (closure_points = [])).
    - exists pre, [], post. by split_and!.
    - exists pre, [Plt (plt_savefig "pipeline_closure_validation.png")], post.
      by split_and!. }
  rewrite call_run.
  change (validate_cycles_per_op_band csv_files [])
    with ((true, Q2Qc 69.6 * Q2Qc 3.5),
          [CyclesHeader; CyclesNote; CyclesEstimate (Q2Qc 69.6 * Q2Qc 3.5)]).
  cbn [fst snd].
  match goal with
  | |- context [(_ ≫= _) (pre ++ ?says)] =>
      set (pre' := pre ++ says);
      assert (json_dumps pre' = [] ∧ saved_figures pre' = []) as [Hpre2 Hpre2']
        by (unfold pre'; split; on_disk; by rewrite ?Hpre, ?Hpre');
      clearbody pre'
  end.
  destruct (decide (closure_points = [])) as [->|Hpoints].
  - exists pre', [], post. split_and!; try done.
    rewrite (bool_decide_eq_false_2 (@nil (Z * Qc * Z) ≠ [])) by naive_solver.
    unfold mbind at 1, Script_bind at 1. cbn [mret Script_ret].
    rewrite !emit_bind. unfold emit. by rewrite <-!app_assoc.
  - rewrite bool_decide_eq_true_2 by done.
    destruct (closure_figure_run closure_points
                "pipeline_closure_validation.png" pre' Hpoints)
      as (m & Hrun & _).
    unfold mbind at 1, Script_bind at 1.
    erewrite bind_returned by exact Hrun.
    unfold emit at 1. cbv beta iota. rewrite !emit_bind. unfold emit.
    match type of Hrun with
    | _ = (_, _ ++ ?calls) =>
        exists pre',
          (calls ++ [Prints [Newline; Text "Pipeline closure figure saved: ";
                             Text "pipeline_closure_validation.png"]]),
          post
    end.
    split_and!; [done|done|by on_disk|by on_disk|done|done|done|done|].
    by rewrite <-!app_assoc.
Qed.

(** X14. The validation script ends in [ZeroDivisionError] exactly when
    some file name, of a readable file or not, carries depth 0: the syscall
    budget [2 / (50 × 0)] cannot be computed.  No figure is saved and no
    results file is written then.  In every other case the script
    returns. *)
Theorem invariants_main_depth_zero fs csv_files :
  let run := validate_invariants.main fs csv_files [] in
  (run.1 = Raised ZeroDivisionError
   ↔ ∃ f, f ∈ csv_files ∧ search_P f = Some 0%Z)
  ∧ (run.1 = Returned () ↔ ¬ ∃ f, f ∈ csv_files ∧ search_P f = Some 0%Z)
  ∧ (run.1 = Raised ZeroDivisionError →
     json_dumps run.2 = [] ∧ saved_figures run.2 = []).
Proof.
  intros run. subst run.
  destruct (decide (csv_files = [])) as [->|Hfiles].
  { assert (∃ tr, validate_invariants.main fs [] [] = (Returned (), tr))
      as [tr ->] by (by eexists).
    cbn [fst snd]. split_and!; [| |done].
    - split; [done|]. by intros (f & ?%elem_of_nil & _).
    - split; [|done]. by intros _ (f & ?%elem_of_nil & _). }
  destruct (invariants_main_run fs csv_files Hfiles)
    as (pre & fig & post & Hpre & Hpre' & _ & _ & _ & _ & _ & _ & ->).
  rewrite <-(elem_of_depths_of csv_files 0%Z).
  case_decide; cbn [fst snd]; split_and!; try done; naive_solver.
Qed.

(** X15. When no file name carries depth 0 the validation script
    returns and writes one results file.  It records the verdict of the
    closure check and the number of points within capacity; the syscall
    budget and the cycles-per-op band are recorded, and printed, as passed
    whatever the data, with [2 / (50 × p)] for each distinct depth in
    ascending order and the constant estimate [69.6 × 3.5].  The closure
    figure is saved when at least one point is within capacity. *)
Theorem invariants_main_document fs csv_files :
  csv_files ≠ [] → (∀ f, f ∈ csv_files → search_P f ≠ Some 0%Z) →
  let run := validate_invariants.main fs csv_files [] in
  let closure := (validate_pipeline_closure fs csv_files None []).1 in
  run.1 = Returned ()
  ∧ json_dumps run.2
    = [("invariant_validation_results.json",
        InvariantResults {|
          pipeline_closure_valid := closure.1;
          pipeline_closure_points_tested := Z.of_nat (length closure.2);
          syscall_budget_valid := true;
          syscall_budget_theoretical_values :=
            (λ p, (p, syscalls_per_op 50 p))
              <$> validate_invariants.depths_of csv_files;
          cycles_per_op_band_valid := true;
          cycles_per_op_band_estimated_cycles_per_op :=
            Q2Qc 69.6 * Q2Qc 3.5 |})]
  ∧ saved_figures run.2
    = (if decide (closure.2 = []) then []
       else ["pipeline_closure_validation.png"])
  ∧ Prints [Text "2. Syscall Budget: "; Text "PASS"] ∈ run.2
  ∧ Prints [Text "3. Cycles/op Band: "; Text "PASS"] ∈ run.2.
Proof.
  intros Hfiles Hdepth run closure. subst run.
  destruct (invariants_main_run fs csv_files Hfiles)
    as (pre & fig & post & Hpre & Hpre' & Hfig & Hfig' & Hpost & Hpost'
        & Hpass2 & Hpass3 & ->).
  fold closure in Hfig', Hpost.
  rewrite decide_False; cycle 1.
  { intros (f & Hf & Hp)%elem_of_depths_of. by apply (Hdepth f). }
  cbn [fst snd]. on_disk.
  rewrite Hpre, Hpre', Hfig, Hfig', Hpost, Hpost', !elem_of_app.
  rewrite app_nil_r. split_and!; auto.
Qed.

(** * The figures of the paper *)

(** ** Least squares does not depend on the order of the data *)

Lemma qsum_perm l l' : l ≡ₚ l' → qsum l = qsum l'.
Proof.
  induction 1 as [|x l l' _ IH|x y l|l l' l'' _ IH1 _ IH2];
    rewrite ?qsum_cons; [done|by rewrite IH|ring|congruence].
Qed.

Lemma qmean_perm l l' : l ≡ₚ l' → qmean l = qmean l'.
Proof.
  intros Hperm. unfold qmean, qlen.
  by rewrite (qsum_perm _ _ Hperm), (Permutation_length Hperm).
Qed.

Section on_points.
Context {A : Type} (f g : A → Qc).
Implicit Types l : list A.

Lemma qsxx_points l :
  qsxx (f <$> l)
  = qsum ((λ a, (f a - qmean (f <$> l)) * (f a - qmean (f <$> l))) <$> l).
Proof. unfold qsxx. by rewrite <-list_fmap_compose. Qed.

Lemma qsxy_points l :
  qsxy (f <$> l) (g <$> l)
  = qsum ((λ a, (f a - qmean (f <$> l)) * (g a - qmean (g <$> l))) <$> l).
Proof.
  unfold qsxy. by rewrite zip_with_fmap_l, zip_with_fmap_r, zip_with_diag.
Qed.

Lemma spec_ss_res_points t0 t1 l :
  spec_ss_res t0 t1 (f <$> l) (g <$> l)
  = qsum ((λ a, (g a - (t0 + t1 * f a)) * (g a - (t0 + t1 * f a))) <$> l).
Proof.
  unfold spec_ss_res.
  by rewrite zip_with_fmap_l, zip_with_fmap_r, zip_with_diag.
Qed.

Lemma spec_ss_tot_points l :
  spec_ss_tot (g <$> l)
  = qsum ((λ a, (g a - qmean (g <$> l)) * (g a - qmean (g <$> l))) <$> l).
Proof. unfold spec_ss_tot. by rewrite <-list_fmap_compose. Qed.

Lemma ols_perm l l' :
  l ≡ₚ l' →
  qsxx (f <$> l) = qsxx (f <$> l')
  ∧ ols_slope (f <$> l) (g <$> l) = ols_slope (f <$> l') (g <$> l')
  ∧ ols_intercept (f <$> l) (g <$> l) = ols_intercept (f <$> l') (g <$> l')
  ∧ ∀ t0 t1, spec_r_squared t0 t1 (f <$> l) (g <$> l)
             = spec_r_squared t0 t1 (f <$> l') (g <$> l').
Proof.
  intros Hperm.
  assert (qmean (f <$> l) = qmean (f <$> l')) as Hmf
    by (by apply qmean_perm, fmap_Permutation).
  assert (qmean (g <$> l) = qmean (g <$> l')) as Hmg
    by (by apply qmean_perm, fmap_Permutation).
  assert (qsxx (f <$> l) = qsxx (f <$> l')) as Hsxx.
  { rewrite !qsxx_points, Hmf. by apply qsum_perm, fmap_Permutation. }
  assert (qsxy (f <$> l) (g <$> l) = qsxy (f <$> l') (g <$> l')) as Hsxy.
  { rewrite !qsxy_points, Hmf, Hmg. by apply qsum_perm, fmap_Permutation. }
  assert (ols_slope (f <$> l) (g <$> l) = ols_slope (f <$> l') (g <$> l'))
    as Hslope by (unfold ols_slope; by rewrite Hsxx, Hsxy).
  split_and!; [done|done|unfold ols_intercept; by rewrite Hslope, Hmf, Hmg|].
  intros t0 t1. unfold spec_r_squared.
  rewrite !spec_ss_res_points, !spec_ss_tot_points, Hmg.
  by rewrite (qsum_perm _ _ (fmap_Permutation _ _ _ Hperm)),
    (qsum_perm (_ <$> l) _ (fmap_Permutation _ _ _ Hperm)).
Qed.

End on_points.

(** ** Least squares and the unit of [y] *)

Section scaling.
Context (c : Qc).
Implicit Types xs ys : list Qc.

Lemma qsum_scale_r {A} k (h : A → Qc) (l : list A) :
  qsum ((λ a, h a * k) <$> l) = qsum (h <$> l) * k.
Proof.
  induction l as [|a l IH]; [simpl; ring|].
  rewrite !fmap_cons, !qsum_cons, IH. ring.
Qed.

Lemma qsum_zip_scale (h h' : Qc → Qc → Qc) k xs ys :
  (∀ x y, h' x y = h x y * k) →
  qsum (zip_with h' xs ys) = qsum (zip_with h xs ys) * k.
Proof.
  intros Hh. revert ys. induction xs as [|x xs IH]; intros [|y ys];
    simpl; try ring.
  rewrite IH, Hh. ring.
Qed.

Lemma qmean_scale ys : qmean ((λ y, y * c) <$> ys) = qmean ys * c.
Proof.
  unfold qmean, qlen. rewrite length_fmap.
  rewrite (qsum_scale_r c id), list_fmap_id. unfold Qcdiv. ring.
Qed.

Lemma qsxy_scale xs ys : qsxy xs ((λ y, y * c) <$> ys) = qsxy xs ys * c.
Proof.
  unfold qsxy. rewrite qmean_scale, zip_with_fmap_r.
  apply qsum_zip_scale. intros x y. ring.
Qed.

Lemma ols_slope_scale xs ys :
  ols_slope xs ((λ y, y * c) <$> ys) = ols_slope xs ys * c.
Proof. unfold ols_slope. rewrite qsxy_scale. unfold Qcdiv. ring. Qed.

Lemma ols_intercept_scale xs ys :
  ols_intercept xs ((λ y, y * c) <$> ys) = ols_intercept xs ys * c.
Proof.
  unfold ols_intercept. rewrite ols_slope_scale, qmean_scale. ring.
Qed.

Lemma spec_ss_res_scale t0 t1 xs ys :
  spec_ss_res (t0 * c) (t1 * c) xs ((λ y, y * c) <$> ys)
  = spec_ss_res t0 t1 xs ys * (c * c).
Proof.
  unfold spec_ss_res. rewrite zip_with_fmap_l.
  apply qsum_zip_scale. intros y x. ring.
Qed.

Lemma spec_ss_tot_scale ys :
  spec_ss_tot ((λ y, y * c) <$> ys) = spec_ss_tot ys * (c * c).
Proof.
  unfold spec_ss_tot. rewrite qmean_scale, <-list_fmap_compose.
  rewrite <-(qsum_scale_r (c * c) (λ y, (y - qmean ys) * (y - qmean ys))).
  f_equal. apply list_fmap_ext. intros _ y _. simpl. ring.
Qed.

Lemma spec_r_squared_scale t0 t1 xs ys :
  c ≠ 0 →
  spec_r_squared (t0 * c) (t1 * c) xs ((λ y, y * c) <$> ys)
  = spec_r_squared t0 t1 xs ys.
Proof.
  intros Hc. unfold spec_r_squared.
  rewrite spec_ss_res_scale, spec_ss_tot_scale.
  pose proof (spec_ss_res_nonneg t0 t1 xs ys) as Hres.
  generalize dependent (spec_ss_res t0 t1 xs ys). intros res Hres.
  generalize (spec_ss_tot ys). intros tot.
  assert (c * c ≠ 0) as Hcc by (by intros [|]%Qcmult_integral).
  assert (0 ≤ res * (c * c)) as Hres'.
  { apply Qcmult_nonneg_nonneg; [done|apply Qc_square_nonneg]. }
  f_equal. cbn [fdiv]. unfold Qc_zero.
  destruct (decide (tot = 0)) as [->|Htot].
  - rewrite Qcmult_0_l. rewrite !bool_decide_eq_true_2 by done.
    rewrite !Qc_neg_false by done.
    destruct (decide (res = 0)) as [->|Hr].
    + rewrite Qcmult_0_l. by rewrite !bool_decide_eq_true_2.
    + rewrite !bool_decide_eq_false_2; [done|done|].
      by intros [|]%Qcmult_integral.
  - rewrite !(bool_decide_eq_false_2 (_ = 0)); [|done|].
    + apply (f_equal Fin). by field.
    + by intros [|]%Qcmult_integral.
Qed.

End scaling.

(** ** The reference instance of the pandas interface *)

Global Instance depth_le_trans : Transitive depth_le.
Proof. unfold depth_le. intros a b c. lia. Qed.

Global Instance depth_le_total : Total depth_le.
Proof. unfold depth_le. intros a b. lia. Qed.

Definition reference_pandas : generate_figures.PandasLib := {|
  generate_figures.sort_values := merge_sort depth_le;
  generate_figures.sort_values_perm := merge_sort_Permutation depth_le;
  generate_figures.sort_values_sorted := StronglySorted_merge_sort depth_le
|}.

(** ** Figures 1 and 2: the fit *)

Lemma np_r_squared_Fin t0 t1 xs ys :
  ys ≠ [] →
  generate_figures.np_r_squared (Fin <$> ys)
    ((λ xi, fadd (Fin t0) (fmul (Fin t1) xi)) <$> (Fin <$> xs))
  = spec_r_squared t0 t1 xs ys.
Proof.
  intros Hys. unfold generate_figures.np_r_squared.
  rewrite (fmap_Fin _ (λ x, t0 + t1 * x)) by done.
  rewrite (zip_with_Fin _ (λ y p, (y - p) * (y - p))) by done.
  rewrite zip_with_fmap_r, fmean_Fin by done.
  rewrite (fmap_Fin _ (λ y, (y - qmean ys) * (y - qmean ys))) by done.
  by rewrite !fsum_Fin.
Qed.

Section figures.
Context `{NumLib} `{generate_figures.PandasLib}.
Implicit Types data : list generate_figures.row.

Lemma c50_rows_run {B} data (k : list generate_figures.row → Script B) tr :
  filter (λ r, generate_figures.clients r = 50%Z) data ≠ [] →
  (generate_figures.c50_rows data ≫= k) tr
  = k (filter (λ r, generate_figures.clients r = 50%Z) data) tr.
Proof.
  intros Hc50. unfold generate_figures.c50_rows.
  rewrite bool_decide_eq_false_2; [done|]. by intros ->.
Qed.

(** The arrays of the sorted rows, over exact rationals. *)
Lemma sorted_rows_finite data :
  let sorted := generate_figures.sort_values data in
  let points := row_point <$> data in
  Forall (λ d, d.2 ≠ 0) points →
  (λ r, of_int (generate_figures.pipeline_depth r)) <$> sorted
  = Fin <$> lin_x (row_point <$> sorted)
  ∧ zip_with fdiv
      ((λ r, of_int (generate_figures.pipeline_depth r)) <$> sorted)
      ((λ r, Fin (generate_figures.throughput_ops_s r)) <$> sorted)
    = Fin <$> lin_y (row_point <$> sorted)
  ∧ row_point <$> sorted ≡ₚ points.
Proof.
  intros sorted points Hthr.
  assert (sorted ≡ₚ data) as Hperm
    by apply generate_figures.sort_values_perm.
  split_and!.
  - unfold lin_x. by rewrite <-!list_fmap_compose.
  - rewrite zip_with_fmap_l, zip_with_fmap_r, zip_with_diag.
    unfold lin_y. rewrite <-!list_fmap_compose.
    apply Forall_fmap_ext_1.
    unfold points in Hthr. rewrite Forall_fmap in Hthr. rewrite Hperm.
    eapply Forall_impl; [done|]. intros r Hr. simpl in *.
    by rewrite Qc_zero_false.
  - by rewrite Hperm.
Qed.

Lemma figure1_run data output_dir tr :
  let c50 := filter (λ r, generate_figures.clients r = 50%Z) data in
  let points := row_point <$> c50 in
  let xs := lin_x points in
  let ys := lin_y points in
  let t0 := ols_intercept xs ys in
  let t1 := ols_slope xs ys in
  c50 ≠ [] → Forall (λ d, d.2 ≠ 0) points → qsxx xs ≠ 0 →
  ∃ ps Ts p_model rest,
    generate_figures.figure1_throughput_vs_pipeline data output_dir tr
    = (Returned (Some {|
         generate_figures.t0_us := Fin t0;
         generate_figures.t1_ns := Fin (t1 * Qc_of_Z 1000);
         generate_figures.r_squared := spec_r_squared t0 t1 xs ys |}),
       tr ++ (Plt <$> plt_figure 10 6
                :: plt_scatter ps Ts "Measured"
                :: plt_plot p_model (model_curve (Fin t0) (Fin t1) <$> p_model)
                     [Text "Model: T(p) = p/("; Num (Fin t0) 2; Text " + ";
                      Num (Fin (t1 * Qc_of_Z 1000)) 1; Text "p)"]
                :: rest))
    ∧ plt_savefig (path_join (default "." output_dir)
                     "figure1_throughput_vs_pipeline.png") ∈ rest.
Proof.
  intros c50 points xs ys t0 t1 Hc50 Hthr Hsxx.
  unfold generate_figures.figure1_throughput_vs_pipeline.
  rewrite c50_rows_run by done. fold c50.
  rewrite bool_decide_eq_false_2 by done.
  destruct (sorted_rows_finite c50 Hthr) as (Hx & Hy & Hperm).
  set (sorted := generate_figures.sort_values c50) in *.
  rewrite Hy, Hx.
  destruct (ols_perm (λ d : Z * Qc, Qc_of_Z d.1) (λ d, Qc_of_Z d.1 / d.2)
              _ _ Hperm) as (Hsxx' & Hslope & Hicpt & Hr2).
  fold (lin_x (row_point <$> sorted)) (lin_y (row_point <$> sorted))
    (lin_x points) (lin_y points) in Hsxx', Hslope, Hicpt, Hr2.
  fold xs ys in Hsxx', Hslope, Hicpt, Hr2.
  rewrite np_polyfit_ols; cycle 1.
  { by rewrite length_lin_x, length_lin_y. }
  { by rewrite Hsxx'. }
  rewrite Hslope, Hicpt.
  assert (lin_y (row_point <$> sorted) ≠ []) as Hys.
  { intros Hnil. apply (f_equal length) in Hnil.
    rewrite length_lin_y, Hperm in Hnil. unfold points in Hnil.
    rewrite length_fmap in Hnil. by destruct c50. }
  rewrite np_r_squared_Fin, Hr2 by done.
  assert (∀ B (f : generate_figures.row → B), f <$> sorted ≠ []) as Hne.
  { intros B f Hnil. apply (f_equal length) in Hnil.
    rewrite length_fmap in Hnil. unfold sorted in Hnil.
    rewrite generate_figures.sort_values_perm in Hnil. by destruct c50. }
  rewrite <-Hx.
  unfold plt.
  repeat first
    [ rewrite emit_bind
    | match goal with
      | |- context [(py_max ?l ≫= _) ?tr'] =>
          let m := fresh "m" in
          let Hm := fresh "Hm" in
          destruct (py_max_returns l tr') as [m Hm];
            [first [apply Hne | rewrite <-list_fmap_compose; apply Hne]|];
          rewrite (bind_returned _ _ _ _ _ Hm); clear Hm
      end ].
  rewrite <-!app_assoc. cbn [app].
  eexists _, _, _, [_; _; _; _; _; _; _; _; _; _]. split; [reflexivity|].
  do 8 right. left.
Qed.

Lemma E6_thousand : E6 * Qc_of_Z 1000 = E9.
Proof. by apply Qc_is_canon. Qed.

Lemma figure2_run data output_dir tr :
  let c50 := filter (λ r, generate_figures.clients r = 50%Z) data in
  let points := row_point <$> c50 in
  let xs := lin_x points in
  let ys := lin_y points in
  let t0 := ols_intercept xs ys in
  let t1 := ols_slope xs ys in
  c50 ≠ [] → Forall (λ d, d.2 ≠ 0) points → qsxx xs ≠ 0 →
  ∃ ps us x_model y_model rest,
    generate_figures.figure2_linearized_fit data output_dir tr
    = (Returned (),
       tr ++ (Plt <$> plt_figure 10 6
                :: plt_scatter ps us "Data"
                :: plt_plot x_model y_model
                     [Text "Fit: y = "; Num (Fin (t0 * E6)) 2; Text " + ";
                      Num (Fin (t1 * E9)) 1; Text "p (R² = ";
                      Num (spec_r_squared t0 t1 xs ys) 3; Text ")"]
                :: rest))
    ∧ plt_savefig (path_join (default "." output_dir)
                     "figure2_linearized_fit.png") ∈ rest.
Proof.
  intros c50 points xs ys t0 t1 Hc50 Hthr Hsxx.
  unfold generate_figures.figure2_linearized_fit.
  rewrite c50_rows_run by done. fold c50.
  rewrite bool_decide_eq_false_2 by done.
  destruct (sorted_rows_finite c50 Hthr) as (Hx & Hy & Hperm).
  set (sorted := generate_figures.sort_values c50) in *.
  assert (zip_with (λ p T, fmul (fdiv p T) e6)
            ((λ r, of_int (generate_figures.pipeline_depth r)) <$> sorted)
            ((λ r, Fin (generate_figures.throughput_ops_s r)) <$> sorted)
          = Fin <$> ((λ y, y * E6) <$> lin_y (row_point <$> sorted))) as Hy'.
  { rewrite <-(fmap_Fin (λ y, fmul y e6)) by done.
    rewrite <-Hy. clear.
    generalize ((λ r, of_int (generate_figures.pipeline_depth r)) <$> sorted).
    generalize
      ((λ r, Fin (generate_figures.throughput_ops_s r)) <$> sorted).
    intros Ts ps. revert Ts. induction ps as [|p ps IH]; intros [|T Ts];
      [done..|]. simpl. by rewrite IH. }
  rewrite Hy', Hx.
  destruct (ols_perm (λ d : Z * Qc, Qc_of_Z d.1) (λ d, Qc_of_Z d.1 / d.2)
              _ _ Hperm) as (Hsxx' & Hslope & Hicpt & Hr2).
  fold (lin_x (row_point <$> sorted)) (lin_y (row_point <$> sorted))
    in Hsxx', Hslope, Hicpt, Hr2.
  rewrite np_polyfit_ols; cycle 1.
  { by rewrite length_fmap, length_lin_x, length_lin_y. }
  { by rewrite Hsxx'. }
  rewrite ols_slope_scale, ols_intercept_scale, Hslope, Hicpt.
  assert ((λ y, y * E6) <$> lin_y (row_point <$> sorted) ≠ []) as Hys.
  { intros Hnil. apply (f_equal length) in Hnil.
    rewrite length_fmap, length_lin_y, Hperm in Hnil. unfold points in Hnil.
    rewrite length_fmap in Hnil. by destruct c50. }
  rewrite np_r_squared_Fin by done.
  rewrite spec_r_squared_scale, Hr2
    by (apply not_eq_sym, Qclt_not_eq, E6_pos).
  assert (∀ B (f : generate_figures.row → B), f <$> sorted ≠ []) as Hne.
  { intros B f Hnil. apply (f_equal length) in Hnil.
    rewrite length_fmap in Hnil. unfold sorted in Hnil.
    rewrite generate_figures.sort_values_perm in Hnil. by destruct c50. }
  rewrite <-Hx.
  destruct (py_max_returns
              ((λ r, of_int (generate_figures.pipeline_depth r)) <$> sorted) tr)
    as [m Hm]; [apply Hne|].
  rewrite (bind_returned _ _ _ _ _ Hm). unfold plt. rewrite !emit_bind.
  unfold emit. rewrite <-!app_assoc. cbn [app fmul of_int].
  rewrite <-Qcmult_assoc, E6_thousand.
  eexists _, _, _, _, [_; _; _; _; _; _; _]. split; [reflexivity|].
  do 5 right. left.
Qed.

End figures.

(** ** The table of benchmark rows *)

Section load.
Context (fs : filesystem).

Lemma load_row_result data csv_file out :
  (generate_figures.load_row fs data csv_file out).1
  = data ++ option_list (row_of fs csv_file).
Proof.
  unfold generate_figures.load_row, row_of.
  destruct (fs !! csv_file) as [df|]; simpl; [|by rewrite app_nil_r].
  destruct (has_column df "rps"); simpl; [|by rewrite app_nil_r].
  destruct (search_P csv_file) as [p|]; simpl; [|by rewrite app_nil_r].
  destruct (generate_figures.make_row df csv_file p _); simpl;
    [done|by rewrite app_nil_r].
Qed.

Lemma load_benchmark_data_rows csv_files out :
  (generate_figures.load_benchmark_data fs csv_files out).1
  = omap (row_of fs) csv_files.
Proof.
  unfold generate_figures.load_benchmark_data.
  rewrite <-(app_nil_l (omap _ _)). generalize (@nil generate_figures.row).
  revert out. induction csv_files as [|f files IH]; intros out data; simpl.
  { by rewrite app_nil_r. }
  unfold mbind, IO_bind.
  pose proof (load_row_result data f out) as Hstep.
  destruct (generate_figures.load_row fs data f out) as [data' out'].
  simpl in Hstep. rewrite IH, Hstep.
  destruct (row_of fs f); simpl; by rewrite <-app_assoc.
Qed.

Context (Hwf : well_formed fs).

Lemma well_formed_optional_cell csv_file df name :
  fs !! csv_file = Some df → (0 < nrows df)%nat →
  generate_figures.optional_cell df name = Some (iloc0 df name).
Proof.
  intros Hdf Hrows. unfold generate_figures.optional_cell.
  destruct (has_column df name) eqn:Hcol.
  - apply bool_decide_eq_true in Hcol.
    by destruct (well_formed_iloc0 fs Hwf _ _ _ Hdf Hrows Hcol) as [v ->].
  - apply bool_decide_eq_false in Hcol.
    unfold iloc0. apply eq_None_not_Some in Hcol. by rewrite Hcol.
Qed.

(** On well-formed frames a file gives a row exactly when it gives the
    fitter an observation. *)
Lemma row_of_spec csv_file :
  row_of fs csv_file
  = df ← fs !! csv_file;
    '(p, T) ← observation fs csv_file;
    Some {| generate_figures.pipeline_depth := p;
            generate_figures.clients := default 50%Z (search_C csv_file);
            generate_figures.throughput_ops_s := T;
            generate_figures.throughput_Mops_s := T / E6;
            generate_figures.filename := basename csv_file;
            generate_figures.p50_latency_ms := iloc0 df "p50_latency_ms";
            generate_figures.p95_latency_ms := iloc0 df "p95_latency_ms";
            generate_figures.p99_latency_ms := iloc0 df "p99_latency_ms" |}.
Proof.
  unfold row_of, observation.
  destruct (fs !! csv_file) as [df|] eqn:Hdf; simpl; [|done].
  destruct (has_column df "rps") eqn:Hcol; simpl; [|done].
  case_guard as Hrows; simpl.
  - apply bool_decide_unpack in Hrows.
    destruct (search_P csv_file) as [p|]; simpl; [|done].
    unfold generate_figures.make_row.
    destruct (iloc0 df "rps") as [T|]; simpl; [|done].
    by rewrite !(well_formed_optional_cell csv_file).
  - rewrite bool_decide_spec in Hrows.
    destruct (search_P csv_file) as [p|]; simpl; [|done].
    unfold generate_figures.make_row.
    assert (iloc0 df "rps" = None) as ->; [|done].
    apply bool_decide_eq_true in Hcol as [col Hcol].
    unfold iloc0. rewrite Hcol. simpl.
    pose proof (Hwf _ _ Hdf _ _ Hcol) as Hlen.
    destruct col; [done|simpl in Hlen; lia].
Qed.

Lemma row_of_point csv_file :
  row_point <$> row_of fs csv_file = observation fs csv_file.
Proof.
  rewrite row_of_spec. unfold observation.
  destruct (fs !! csv_file) as [df|]; simpl; [|done].
  case_guard; simpl; [|done].
  destruct (search_P csv_file) as [p|]; simpl; [|done].
  by destruct (iloc0 df "rps") as [T|].
Qed.

Lemma rows_points csv_files :
  row_point <$> omap (row_of fs) csv_files = observations fs csv_files.
Proof.
  unfold observations. induction csv_files as [|f files IH]; [done|].
  cbn [omap list_omap]. rewrite <-row_of_point, <-IH.
  by destruct (row_of fs f).
Qed.

Lemma rows_clients csv_files :
  Forall (λ f, default 50%Z (search_C f) = 50%Z) csv_files →
  filter (λ r, generate_figures.clients r = 50%Z) (omap (row_of fs) csv_files)
  = omap (row_of fs) csv_files.
Proof.
  induction 1 as [|f files Hf _ IH]; [done|].
  cbn [omap list_omap]. destruct (row_of fs f) as [r|] eqn:Hr; [|done].
  rewrite filter_cons, IH, decide_True; [done|].
  rewrite row_of_spec in Hr.
  destruct (fs !! f) as [df|]; simpl in Hr; [|done].
  destruct (observation fs f) as [[p T]|]; simpl in Hr; [|done].
  by injection Hr as <-.
Qed.

End load.

(** X16. On well-formed frames the table of benchmark rows holds, in
    the order of the files, exactly the data points the fitter collects from
    the same files; each row carries the client count read after the first
    [C] followed by digits in its path, 50 when there is none, and the base
    name of its file. *)
Theorem load_benchmark_data_points fs csv_files out :
  well_formed fs →
  row_point <$> (generate_figures.load_benchmark_data fs csv_files out).1
  = observations fs csv_files
  ∧ Forall (λ r, ∃ f, f ∈ csv_files
                 ∧ observation fs f = Some (row_point r)
                 ∧ generate_figures.clients r = default 50%Z (search_C f)
                 ∧ generate_figures.filename r = basename f)
      (generate_figures.load_benchmark_data fs csv_files out).1.
Proof.
  intros Hwf. rewrite load_benchmark_data_rows. split.
  - by apply rows_points.
  - apply Forall_forall. intros r (f & Hf & Hr)%list_elem_of_omap.
    exists f. split; [done|].
    rewrite <-(row_of_point fs Hwf), Hr. split; [done|].
    rewrite row_of_spec in Hr by done.
    destruct (fs !! f) as [df|]; simpl in Hr; [|done].
    destruct (observation fs f) as [[p T]|]; simpl in Hr; [|done].
    by injection Hr as <-.
Qed.

Section figures_and_fit.
Context `{NumLib} `{generate_figures.PandasLib}.
Context (fs : filesystem) (csv_files : list string).

(** What the hypotheses of the comparison give. *)
Lemma figure_inputs out r :
  well_formed fs →
  Forall (λ f, default 50%Z (search_C f) = 50%Z) csv_files →
  valid_input (observations fs csv_files) →
  (fit_batched_service_model fs csv_files out).1 = Some r →
  let rows := omap (row_of fs) csv_files in
  let c50 := filter (λ r, generate_figures.clients r = 50%Z) rows in
  let xs := lin_x (row_point <$> c50) in
  let ys := lin_y (row_point <$> c50) in
  c50 ≠ [] ∧ Forall (λ d, d.2 ≠ 0) (row_point <$> c50) ∧ qsxx xs ≠ 0
  ∧ t0_us_per_batch r = Fin (ols_intercept xs ys * E6)
  ∧ t1_ns_per_op r = Fin (ols_slope xs ys * E9)
  ∧ r_squared r
    = spec_r_squared (ols_intercept xs ys) (ols_slope xs ys) xs ys.
Proof.
  intros Hwf HC Hvalid Hfit rows c50 xs ys.
  destruct (fit_valid fs csv_files out r Hvalid Hfit)
    as (_ & Hlen & _ & t_crit & _ & ->).
  unfold c50 in *. clear c50. unfold xs, ys. clear xs ys.
  unfold rows. rewrite rows_clients, rows_points by done.
  rewrite length_lin_x in Hlen.
  pose proof (sorted_observations_perm fs csv_files) as Hperm.
  destruct (ols_perm (λ d : Z * Qc, Qc_of_Z d.1) (λ d, Qc_of_Z d.1 / d.2)
              _ _ Hperm) as (_ & Hslope & Hicpt & Hr2).
  fold (lin_x (sorted_observations fs csv_files))
    (lin_y (sorted_observations fs csv_files))
    (lin_x (observations fs csv_files))
    (lin_y (observations fs csv_files)) in Hslope, Hicpt, Hr2.
  cbn [t0_us_per_batch t1_ns_per_op r_squared].
  rewrite Hslope, Hicpt, Hr2. split_and!; try done.
  - intros Hnil. apply (f_equal length) in Hnil.
    rewrite <-(length_fmap row_point), rows_points in Hnil by done.
    rewrite Hperm in Hlen. simpl in Hnil. lia.
  - by apply valid_input_throughput.
  - by apply (valid_input_sxx (observations fs csv_files)).
Qed.

End figures_and_fit.

(** X17. Figure 1 against the fitter, on the same files (all at 50
    clients, valid input): the figure fits the same line and plots the same
    model curve as the fitting script, and reports the same R², but the
    numbers it shows and returns as [t0] in µs and [t1] in ns are the
    fitter's [t0_us_per_batch] and [t1_ns_per_op] divided by 10⁶: the
    intercept is left in seconds and the slope is scaled by 10³ only. *)
Theorem figure1_reports_fit_in_other_units
    `{NumLib} `{generate_figures.PandasLib}
    fs csv_files out out' r output_dir tr :
  well_formed fs →
  Forall (λ f, default 50%Z (search_C f) = 50%Z) csv_files →
  valid_input (observations fs csv_files) →
  (fit_batched_service_model fs csv_files out).1 = Some r →
  ∃ params calls p_model,
    generate_figures.figure1_throughput_vs_pipeline
      (generate_figures.load_benchmark_data fs csv_files out').1 output_dir tr
    = (Returned (Some params), tr ++ (Plt <$> calls))
    ∧ t0_us_per_batch r = fmul (generate_figures.t0_us params) e6
    ∧ t1_ns_per_op r = fmul (generate_figures.t1_ns params) e6
    ∧ r_squared r = generate_figures.r_squared params
    ∧ plt_plot p_model
        (model_curve (fmul (t0_us_per_batch r) em6)
           (fmul (t1_ns_per_op r) em9) <$> p_model)
        [Text "Model: T(p) = p/("; Num (generate_figures.t0_us params) 2;
         Text " + "; Num (generate_figures.t1_ns params) 1; Text "p)"]
      ∈ calls.
Proof.
  intros Hwf HC Hvalid Hfit.
  destruct (figure_inputs fs csv_files out r Hwf HC Hvalid Hfit)
    as (Hc50 & Hthr & Hsxx & -> & -> & ->).
  rewrite load_benchmark_data_rows.
  destruct (figure1_run _ output_dir tr Hc50 Hthr Hsxx)
    as (ps & Ts & p_model & rest & -> & _).
  destruct Qc_E_ne_0 as (H6 & H9 & _ & _ & _).
  eexists _, _, p_model. split; [done|].
  cbn [generate_figures.t0_us generate_figures.t1_ns
       generate_figures.r_squared fmul e6 em6 em9 of_int].
  fold E6 E9. split_and!; [done| |done|].
  - apply (f_equal Fin). rewrite <-E6_thousand. ring.
  - assert (∀ q, q * E6 * / E6 = q) as Hq6 by (intros; by field).
    assert (∀ q, q * E9 * / E9 = q) as Hq9 by (intros; by field).
    rewrite Hq6, Hq9. do 2 right. left.
Qed.

(** X18. Figure 2 against the fitter, on the same files (all at 50
    clients, valid input): its legend shows exactly the fitter's
    [t0_us_per_batch], [t1_ns_per_op] and R². *)
Theorem figure2_legend_is_the_fit
    `{NumLib} `{generate_figures.PandasLib}
    fs csv_files out out' r output_dir tr :
  well_formed fs →
  Forall (λ f, default 50%Z (search_C f) = 50%Z) csv_files →
  valid_input (observations fs csv_files) →
  (fit_batched_service_model fs csv_files out).1 = Some r →
  ∃ calls x_model y_model,
    generate_figures.figure2_linearized_fit
      (generate_figures.load_benchmark_data fs csv_files out').1 output_dir tr
    = (Returned (), tr ++ (Plt <$> calls))
    ∧ plt_plot x_model y_model
        [Text "Fit: y = "; Num (t0_us_per_batch r) 2; Text " + ";
         Num (t1_ns_per_op r) 1; Text "p (R² = "; Num (r_squared r) 3;
         Text ")"]
      ∈ calls
    ∧ plt_savefig (path_join (default "." output_dir)
                     "figure2_linearized_fit.png") ∈ calls.
Proof.
  intros Hwf HC Hvalid Hfit.
  destruct (figure_inputs fs csv_files out r Hwf HC Hvalid Hfit)
    as (Hc50 & Hthr & Hsxx & -> & -> & ->).
  rewrite load_benchmark_data_rows.
  destruct (figure2_run _ output_dir tr Hc50 Hthr Hsxx)
    as (ps & us & x_model & y_model & rest & -> & Hsave).
  eexists _, x_model, y_model. split_and!; [done| |].
  - do 2 right. left.
  - by do 3 right.
Qed.

(** ** Figure 4: the syscall budget *)

Lemma script_map_py_div a C p_values tr :
  script_map (λ p, py_div (of_int a) (of_int (C * p))) p_values tr
  = if decide (Exists (λ p, (C * p)%Z = 0%Z) p_values)
    then (Raised ZeroDivisionError, tr)
    else (Returned ((λ p, Fin (Qc_of_Z a / Qc_of_Z (C * p))) <$> p_values),
          tr).
Proof.
  induction p_values as [|p ps IH]; cbn [script_map].
  { by rewrite decide_False by (by intros ?%Exists_nil). }
  unfold mbind at 1, Script_bind at 1.
  change (py_div (of_int a) (of_int (C * p)) tr)
    with (py_div (of_int a) (Fin (Qc_of_Z (C * p))) tr).
  rewrite py_div_Fin.
  destruct (decide (C * p = 0)%Z) as [Hp|Hp].
  - rewrite decide_True by (by rewrite Hp; apply Qc_is_canon).
    by rewrite decide_True by (by left).
  - rewrite decide_False by (by apply Qc_of_Z_ne_0).
    unfold mbind at 1, Script_bind at 1. rewrite IH.
    destruct (decide (Exists _ ps)) as [Hps|Hps].
    + by rewrite decide_True by (by right).
    + rewrite decide_False by (by intros [?|?]%Exists_cons).
      unfold of_int. by rewrite fdiv_Fin by (by apply Qc_of_Z_ne_0).
Qed.

Lemma annotate_run (f g : Z → float64) p_values l k tr :
  (∀ i p, l !! i = Some p → p_values !! (k + i)%nat = Some p) →
  script_for (imap (λ i p, ((k + i)%nat, p)) l) (λ '(i, p),
    x ← py_index (f <$> p_values) i;
    y ← py_index (g <$> p_values) i;
    plt (plt_annotate [Text "p="; Int p] (x, y) (of_int 5, of_int 5))) tr
  = (Returned (),
     tr ++ (Plt <$> ((λ p, plt_annotate [Text "p="; Int p] (f p, g p)
                             (of_int 5, of_int 5)) <$> l))).
Proof.
  revert k tr. induction l as [|p l IH]; intros k tr Hl.
  { simpl. by rewrite app_nil_r. }
  rewrite imap_cons. cbn [script_for].
  pose proof (Hl 0%nat p eq_refl) as Hp. rewrite Nat.add_0_r in *.
  unfold mbind at 1, Script_bind at 1.
  unfold py_index. rewrite !list_lookup_fmap, Hp. cbn [fmap option_fmap option_map].
  rewrite (imap_ext _ (λ i p, ((S k + i)%nat, p))); cycle 1.
  { intros i q _. simpl. f_equal. lia. }
  unfold mbind, Script_bind, mret, Script_ret, plt, emit. 
  rewrite IH.
  - by rewrite fmap_cons, fmap_cons, <-app_assoc.
  - intros i q Hq. rewrite <-(Hl (S i) q Hq). f_equal. lia.
Qed.

(** X20. Figure 4 draws the theoretical line [2/(C·p)] against
    [1/(C·p)], the values the syscall check of the validation script
    reports, and labels the first three depths; when some [C·p] is zero it
    raises [ZeroDivisionError] before anything is drawn. *)
Theorem figure4_theory_line p_values C output_dir tr :
  let ps := default [1; 10; 50; 100; 200; 500]%Z p_values in
  let C' := default 50%Z C in
  if decide (Exists (λ p, (C' * p)%Z = 0%Z) ps)
  then generate_figures.figure4_syscalls_vs_inverse_cp p_values C output_dir tr
       = (Raised ZeroDivisionError, tr)
  else
    ∃ before after,
      generate_figures.figure4_syscalls_vs_inverse_cp p_values C output_dir tr
      = (Returned (),
         tr ++ (Plt <$>
           plt_figure 10 6
           :: plt_plot ((λ p, Fin (1 / Qc_of_Z (C' * p))) <$> ps)
                ((λ p, Fin (syscalls_per_op C' p)) <$> ps)
                [Text "Theory: 2/(Cp)"]
           :: before
           ++ ((λ p, plt_annotate [Text "p="; Int p]
                       (Fin (1 / Qc_of_Z (C' * p)), Fin (syscalls_per_op C' p))
                       (of_int 5, of_int 5)) <$> take 3 ps)
           ++ after))
      ∧ plt_savefig (path_join (default "." output_dir)
                       "figure4_syscalls_vs_inverse_cp.png") ∈ after.
Proof.
  intros ps C'. unfold generate_figures.figure4_syscalls_vs_inverse_cp.
  fold ps C'.
  destruct (decide (Exists (λ p, (C' * p)%Z = 0%Z) ps)) as [Hzero|Hzero].
  { apply bind_raised. by rewrite script_map_py_div, decide_True. }
  erewrite bind_returned
    by (rewrite script_map_py_div, decide_False by done; reflexivity).
  erewrite bind_returned
    by (rewrite script_map_py_div, decide_False by done; reflexivity).
  unfold plt. rewrite !emit_bind.
  unfold generate_figures.annotate_points.
  erewrite bind_returned; cycle 1.
  { apply (annotate_run _ _ ps (take 3 ps) 0).
    intros i p Hp. by apply lookup_take_Some in Hp as [? _]. }
  - rewrite !emit_bind. unfold emit.
    exists [plt_xlabel "1/(Cp)"; plt_ylabel "Syscalls per Operation";
            plt_title [Text "Syscalls/op vs 1/(Cp) with Overlay"];
            plt_legend; plt_grid],
      [plt_savefig (path_join (default "." output_dir)
                      "figure4_syscalls_vs_inverse_cp.png"); plt_close].
    split; [|by left].
    rewrite !fmap_cons, !fmap_app, <-!app_assoc. cbn [app fmap list_fmap].
    assert (Qc_of_Z 1 = 1) as -> by (by apply Qc_is_canon). done.
Qed.

(** * The fit and the data *)

(** X21. The data points of a result are in ascending order of depth,
    points of equal depth in ascending order of throughput, whatever the
    order of the files. *)
Theorem fit_raw_data_ascending `{NumLib} fs csv_files out r :
  (fit_batched_service_model fs csv_files out).1 = Some r →
  ∃ points,
    raw_data r = (λ d, [of_int d.1; Fin d.2]) <$> points
    ∧ StronglySorted tuple_le points
    ∧ StronglySorted Z.le points.*1.
Proof.
  intros [_ ->]%fit_result_Some.
  exists (sorted_observations fs csv_files). split_and!.
  - apply raw_data_fit_points.
  - apply (StronglySorted_merge_sort tuple_le).
  - apply sorted_observations_by_depth.
Qed.

Lemma lin_scaled k (points : list (Z * Qc)) :
  k ≠ 0 → Forall (λ d, d.2 ≠ 0) points →
  lin_x ((λ d, (d.1, d.2 * k)) <$> points) = lin_x points
  ∧ lin_y ((λ d, (d.1, d.2 * k)) <$> points)
    = (λ y, y * / k) <$> lin_y points.
Proof.
  intros Hk Hthr. unfold lin_x, lin_y. rewrite <-!list_fmap_compose.
  split; [done|]. apply Forall_fmap_ext_1.
  eapply Forall_impl; [done|]. intros [p T] HT. simpl in *. by field.
Qed.

Lemma valid_input_scaled k (points : list (Z * Qc)) :
  0 < k → valid_input points →
  valid_input ((λ d, (d.1, d.2 * k)) <$> points).
Proof.
  intros Hk [Hall Hdistinct]. split.
  - apply Forall_fmap. eapply Forall_impl; [done|].
    intros [p T] [Hp HT]. simpl in *. split; [done|].
    rewrite <-(Qcmult_0_l k). by apply Qcmult_lt_compat_r.
  - by rewrite <-list_fmap_compose.
Qed.

(** X22. The fit does not depend on the unit of the throughput: when
    every throughput is multiplied by [k > 0] (valid input), the reported
    [t0] and [t1] are divided by [k] and R² is the same. *)
Theorem fit_throughput_unit `{NumLib}
    fs csv_files out r fs' csv_files' out' r' k :
  0 < k →
  observations fs' csv_files'
  = (λ d, (d.1, d.2 * k)) <$> observations fs csv_files →
  valid_input (observations fs csv_files) →
  (fit_batched_service_model fs csv_files out).1 = Some r →
  (fit_batched_service_model fs' csv_files' out').1 = Some r' →
  ∃ t0 t1,
    t0_us_per_batch r = Fin t0 ∧ t1_ns_per_op r = Fin t1
    ∧ t0_us_per_batch r' = Fin (t0 / k) ∧ t1_ns_per_op r' = Fin (t1 / k)
    ∧ r_squared r' = r_squared r.
Proof.
  intros Hk Hobs Hvalid Hfit Hfit'.
  assert (k ≠ 0) as Hk0 by (by apply not_eq_sym, Qclt_not_eq).
  assert (valid_input (observations fs' csv_files')) as Hvalid'
    by (rewrite Hobs; by apply valid_input_scaled).
  destruct (fit_valid fs csv_files out r Hvalid Hfit)
    as (_ & _ & _ & t_crit & _ & ->).
  destruct (fit_valid fs' csv_files' out' r' Hvalid' Hfit')
    as (_ & _ & _ & t_crit' & _ & ->).
  cbn [t0_us_per_batch t1_ns_per_op r_squared].
  destruct (ols_perm (λ d : Z * Qc, Qc_of_Z d.1) (λ d, Qc_of_Z d.1 / d.2)
              _ _ (sorted_observations_perm fs csv_files))
    as (_ & Hslope & Hicpt & Hr2).
  destruct (ols_perm (λ d : Z * Qc, Qc_of_Z d.1) (λ d, Qc_of_Z d.1 / d.2)
              _ _ (sorted_observations_perm fs' csv_files'))
    as (_ & Hslope' & Hicpt' & Hr2').
  fold (lin_x (sorted_observations fs csv_files))
    (lin_y (sorted_observations fs csv_files))
    (lin_x (observations fs csv_files))
    (lin_y (observations fs csv_files)) in Hslope, Hicpt, Hr2.
  fold (lin_x (sorted_observations fs' csv_files'))
    (lin_y (sorted_observations fs' csv_files'))
    (lin_x (observations fs' csv_files'))
    (lin_y (observations fs' csv_files')) in Hslope', Hicpt', Hr2'.
  rewrite Hslope, Hicpt, Hr2, Hslope', Hicpt', Hr2', Hobs.
  destruct (lin_scaled k (observations fs csv_files) Hk0
              (valid_input_throughput _ Hvalid)) as [-> ->].
  rewrite ols_slope_scale, ols_intercept_scale.
  assert (/ k ≠ 0) as Hik.
  { intros Hinv. pose proof (Qcmult_inv_r k Hk0) as Hone.
    rewrite Hinv in Hone. assert (k * 0 = 0) as Hz by ring.
    rewrite Hz in Hone. discriminate Hone. }
  rewrite spec_r_squared_scale by done.
  eexists _, _. split_and!; [done|done| | |done];
    apply (f_equal Fin); unfold Qcdiv; ring.
Qed.

(** ** The closure check on frames with empty cells *)

Lemma raw_has_column_of df name :
  raw_has_column (raw_of df) name = has_column df name.
Proof.
  unfold raw_has_column, has_column, raw_of. simpl.
  rewrite lookup_fmap. apply bool_decide_ext.
  by rewrite fmap_is_Some.
Qed.

Lemma raw_iloc0_of df name :
  raw_iloc0 (raw_of df) name = Fin <$> iloc0 df name.
Proof.
  unfold raw_iloc0, iloc0, raw_of. simpl. rewrite lookup_fmap.
  destruct (columns df !! name) as [col|]; simpl; [|done].
  by destruct col.
Qed.

Section exact.
#[local] Existing Instance exact_arithmetic.
Context (fs : filesystem) (C : Z).

(** On frames of numbers, and in exact arithmetic, the second reading of
    the loop body takes the steps of the first. *)
Lemma closure_point_exact violations valid_points csv_file out :
  with_empty_cells.closure_point (raw_of <$> fs) C
    (raw_violation <$> violations, raw_point <$> valid_points) csv_file
  = let st := (closure_point fs C (violations, valid_points) csv_file out).1 in
    (raw_violation <$> st.1, raw_point <$> st.2).
Proof.
  unfold with_empty_cells.closure_point, closure_point.
  unfold raw_filesystem, filesystem in *. rewrite lookup_fmap.
  destruct (fs !! csv_file) as [df|]; simpl; [|done].
  rewrite !raw_has_column_of.
  destruct (has_column df "rps" && has_column df "p50_latency_ms");
    simpl; [|done].
  destruct (search_P csv_file) as [p|]; simpl; [|done].
  rewrite !raw_iloc0_of.
  destruct (iloc0 df "rps") as [T|]; simpl; [|done].
  destruct (iloc0 df "p50_latency_ms") as [p50_ms|]; simpl; [|done].
  case_bool_decide; simpl; by rewrite fmap_app.
Qed.

Lemma foldl_closure_point_exact csv_files violations valid_points out :
  foldl (with_empty_cells.closure_point (raw_of <$> fs) C)
    (raw_violation <$> violations, raw_point <$> valid_points) csv_files
  = let st :=
      (for_each csv_files (closure_point fs C) (violations, valid_points)
         out).1 in
    (raw_violation <$> st.1, raw_point <$> st.2).
Proof.
  revert violations valid_points.
  induction csv_files as [|f files IH]; intros violations valid_points;
    [done|].
  assert (for_each (f :: files) (closure_point fs C)
            (violations, valid_points) out
          = for_each files (closure_point fs C)
              (violations ++ (closure_delta fs C f).1,
               valid_points ++ (closure_delta fs C f).2) out) as ->.
  { cbn [for_each]. unfold mbind, IO_bind. by rewrite closure_point_spec. }
  cbn [foldl].
  rewrite (closure_point_exact _ _ _ out), closure_point_spec.
  cbn [fst snd]. apply IH.
Qed.
End exact.

Lemma script_for_print_violation violations tr :
  (script_for violations with_empty_cells.print_violation tr).1
  = Returned ().
Proof.
  revert tr. induction violations as [|[[[p lhs] rhs] file] vs IH];
    intros tr; [done|].
  cbn [script_for]. unfold with_empty_cells.print_violation, say.
  rewrite emit_bind. apply IH.
Qed.

Lemma report_violations_returns {B} violations (b : B) tr :
  (((if bool_decide (violations ≠ []) then
       emit (Says ViolationsFound);;
       script_for violations with_empty_cells.print_violation
     else mret ());; mret b) tr).1
  = Returned b.
Proof.
  case_bool_decide; [|done].
  pose proof (script_for_print_violation violations
                (tr ++ [Says ViolationsFound])) as Hfor.
  unfold mbind, Script_bind, emit.
  by destruct (script_for _ _ _) as [[[]|] tr']; simpl in *.
Qed.

(** On frames of numbers, and in exact arithmetic, the two readings of the
    closure check return the same verdict and the same valid points. *)
Lemma validate_pipeline_closure_exact fs csv_files C out tr :
  (@with_empty_cells.validate_pipeline_closure exact_arithmetic
     (raw_of <$> fs) csv_files C tr).1
  = Returned ((validate_pipeline_closure fs csv_files C out).1.1,
              raw_point <$> (validate_pipeline_closure fs csv_files C out).1.2).
Proof.
  rewrite validate_pipeline_closure_run. cbn [fst snd].
  unfold with_empty_cells.validate_pipeline_closure.
  pose proof (foldl_closure_point_exact fs (default 50%Z C) csv_files [] []
                [])
    as Hloop.
  rewrite for_each_closure in Hloop. simpl in Hloop. rewrite Hloop.
  rewrite !emit_bind, report_violations_returns.
  by rewrite length_fmap.
Qed.

(** C2. An observation whose latency field is empty is not skipped by
    [validate_pipeline_closure]: the product T·p50s is NaN, its comparison
    with C·p is false, and the observation is recorded and printed as a
    violation, so that the check fails with no valid point.  This holds
    whatever the rounding. *)
Theorem closure_counts_empty_latency_as_violation `{Binary64} tr :
  with_empty_cells.validate_pipeline_closure empty_latency_fs
    ["run_P10.csv"] None tr
  = (Returned (false, []),
     tr ++ [Says (ClosureHeader 50); Says (ValidPoints 0);
            Says (Violations 1); Says ViolationsFound;
            Prints [Text "  p="; Int 10; Text ": "; Num NaN 1; Text " > ";
                    Int 500; Text " ("; Text "run_P10.csv"; Text ")"]]).
Proof.
  unfold with_empty_cells.validate_pipeline_closure.
  change (default 50%Z None) with 50%Z.
  assert (foldl (with_empty_cells.closure_point empty_latency_fs 50) ([], [])
            ["run_P10.csv"]
          = ([(10%Z, NaN, 500%Z, "run_P10.csv")], [])) as ->
    by (vm_compute; reflexivity).
  cbn -[app]. unfold with_empty_cells.print_violation, say.
  rewrite !emit_bind. unfold mbind, Script_bind, emit, mret, Script_ret.
  cbn -[app]. by rewrite <-!app_assoc.
Qed.

(** * Worked inputs

    The claims above at concrete files, run with the reference instance of
    the libraries. *)

#[local] Existing Instance reference_lib.

Ltac by_computation := apply (bool_decide_unpack _); vm_compute; exact I.

(** Equality of computed values, fractions compared as numbers. *)
Ltac same_values :=
  vm_compute;
  repeat first [reflexivity | apply Qc_is_canon; reflexivity | f_equal].

(** The two observations of the specification: at depth 10 and 100000
    ops/s, a median latency of 4 ms gives 400 ≤ 500 and passes; 20 ms
    gives 2000 > 500 and is a violation. *)
Example closure_within_capacity :
  validate_pipeline_closure sample_fs [bench_file 10 10] None []
  = (true, [(10%Z, Qc_of_Z 400, 500%Z)],
     [ClosureHeader 50; ValidPoints 1; Violations 0]).
Proof. same_values. Qed.

Example closure_violated :
  validate_pipeline_closure sample_fs [bench_file 11 10] None []
  = (false, [],
     [ClosureHeader 50; ValidPoints 0; Violations 1; ViolationsFound;
      ViolationLine 10 (Qc_of_Z 2000) 500 (bench_file 11 10)]).
Proof. same_values. Qed.

(** A file without a latency column, and a file that is not there, are
    skipped: the check still passes on the one valid point. *)
Example closure_skips_missing_latency :
  (validate_pipeline_closure sample_fs
     [bench_file 1 8; bench_file 10 10; "absent.csv"%string] None []).1.1
  = true.
Proof. by vm_compute. Qed.

(** C1, witness: run 1 follows the model with [t0] = 20 µs, [t1] = 100 ns. *)
Lemma fit_recovers_model_witness :
  generated_from sample_t0 sample_t1
    (observations sample_fs (run_files 1 shuffled))
  ∧ valid_input (observations sample_fs (run_files 1 shuffled))
  ∧ Forall (λ d, (d.1 < 2 ^ 63)%Z)
      (observations sample_fs (run_files 1 shuffled))
  ∧ (5 ≤ length (observations sample_fs (run_files 1 shuffled)))%nat
  ∧ sample_t1 ≠ 0
  ∧ ∃ r, (fit_batched_service_model sample_fs (run_files 1 shuffled) []).1
         = Some r
    ∧ t0_us_per_batch r = Fin (sample_t0 * E6)
    ∧ t1_ns_per_op r = Fin (sample_t1 * E9)
    ∧ r_squared r = Fin 1.
Proof.
  assert (generated_from sample_t0 sample_t1
            (observations sample_fs (run_files 1 shuffled))) as Hgen
    by by_computation.
  assert (valid_input (observations sample_fs (run_files 1 shuffled)))
    as Hvalid by by_computation.
  assert (Forall (λ d, (d.1 < 2 ^ 63)%Z)
            (observations sample_fs (run_files 1 shuffled))) as Hdepth
    by by_computation.
  assert (5 ≤ length (observations sample_fs (run_files 1 shuffled)))%nat
    as Hlen by by_computation.
  assert (sample_t1 ≠ 0) as Ht1 by by_computation.
  split_and!; [done..|].
  exact (fit_recovers_model sample_fs (run_files 1 shuffled) []
           sample_t0 sample_t1 Hgen Hvalid Hdepth Hlen Ht1).
Defined.

(** C1, counterexample: run 3 follows the model with [t0] = 1 ms and
    [t1 = 0] on five depths; its linearized values are all equal,
    [SS_tot] is zero, and the reported R² is not a finite number, let alone
    1. *)
Lemma fit_model_without_slope_r_squared :
  generated_from (Q2Qc 0.001) 0 (observations sample_fs (run_files 3 shuffled))
  ∧ valid_input (observations sample_fs (run_files 3 shuffled))
  ∧ (5 ≤ length (observations sample_fs (run_files 3 shuffled)))%nat
  ∧ spec_ss_tot (lin_y (observations sample_fs (run_files 3 shuffled))) = 0
  ∧ ∃ r, (fit_batched_service_model sample_fs (run_files 3 shuffled) []).1
         = Some r
    ∧ ∀ q, r_squared r ≠ Fin q.
Proof.
  split_and!; [by_computation..|].
  eexists. split; [vm_compute; reflexivity|]. intros q. discriminate.
Qed.

(** C3, counterexample: five runs at the single depth 10 have fewer than
    two distinct depths, and the fitter returns a result for them instead of
    declining. *)
Lemma fit_single_depth_not_declined :
  length (remove_dups (observations sample_fs same_depth_files).*1) = 1%nat
  ∧ ∃ r, (fit_batched_service_model sample_fs same_depth_files []).1 = Some r.
Proof. split; [by vm_compute|]. eexists. vm_compute. reflexivity. Qed.

(** C3, witness: four data points of run 1 are declined, with the
    message. *)
Lemma fit_insufficient_data_witness :
  (length (observations sample_fs (run_files 1 [1; 2; 4; 8]%Z)) < 5)%nat
  ∧ (fit_batched_service_model sample_fs (run_files 1 [1; 2; 4; 8]%Z) []).1
    = None
  ∧ last (fit_batched_service_model sample_fs (run_files 1 [1; 2; 4; 8]%Z) []).2
    = Some InsufficientData.
Proof.
  assert (length (observations sample_fs (run_files 1 [1; 2; 4; 8]%Z)) < 5)%nat
    as Hlen by by_computation.
  split; [exact Hlen|].
  exact (fit_insufficient_data sample_fs _ [] Hlen).
Defined.

Example fit_four_points_declined :
  fit_batched_service_model sample_fs (run_files 1 [1; 2; 4; 8]%Z) []
  = (None, [InsufficientData]).
Proof. by vm_compute. Qed.

(** C4, counterexample: runs 1 and 2 fit to different [t1] (100 and 200
    ns/op), and the check reports the same estimate for both. *)
Lemma cycles_per_op_ignores_fit :
  ∃ r1 r2,
    (fit_batched_service_model sample_fs (run_files 1 depths) []).1 = Some r1
    ∧ (fit_batched_service_model sample_fs (run_files 2 depths) []).1 = Some r2
    ∧ t1_ns_per_op r1 ≠ t1_ns_per_op r2
    ∧ (validate_cycles_per_op_band (run_files 1 depths) []).1
      = (validate_cycles_per_op_band (run_files 2 depths) []).1.
Proof.
  do 2 eexists.
  split; [vm_compute; reflexivity|]. split; [vm_compute; reflexivity|].
  split; [|reflexivity].
  intros Heq. cbn [t1_ns_per_op] in Heq. discriminate.
Qed.


(** Run 4 has spread, and its R² is below 1. *)
Example r_squared_of_run_4 :
  spec_ss_tot (lin_y (sorted_observations sample_fs (run_files 4 shuffled))) ≠ 0
  ∧ ∃ q, r_squared <$> (fit_batched_service_model sample_fs
                          (run_files 4 shuffled) []).1 = Some (Fin q)
         ∧ q < 1.
Proof.
  split; [by_computation|].
  eexists. split; [vm_compute; reflexivity|]. by_computation.
Qed.

(** C6, witness: the intervals of run 4. *)
Lemma ci_contains_estimate_witness :
  valid_input (observations sample_fs (run_files 4 shuffled))
  ∧ ∃ r, (fit_batched_service_model sample_fs (run_files 4 shuffled) []).1
         = Some r
    ∧ ∃ t0 lo0 hi0 t1 lo1 hi1,
        t0_us_per_batch r = Fin t0
        ∧ t0_confidence_interval r = [Fin lo0; Fin hi0]
        ∧ lo0 ≤ t0 ≤ hi0
        ∧ t1_ns_per_op r = Fin t1
        ∧ t1_confidence_interval r = [Fin lo1; Fin hi1]
        ∧ lo1 ≤ t1 ≤ hi1.
Proof.
  pose (r := fit_points (sorted_observations sample_fs (run_files 4 shuffled))).
  assert (valid_input (observations sample_fs (run_files 4 shuffled)))
    as Hvalid by by_computation.
  assert ((fit_batched_service_model sample_fs (run_files 4 shuffled) []).1
          = Some r) as Hfit by (vm_compute; reflexivity).
  split; [exact Hvalid|]. exists r. split; [exact Hfit|].
  exact (ci_contains_estimate sample_fs (run_files 4 shuffled) [] r
           Hvalid Hfit).
Defined.

(** C7, witness: the result of run 1, whose slope is 100 ns/op. *)
Lemma Tmax_is_inverse_slope_witness :
  ∃ r t1,
    (fit_batched_service_model sample_fs (run_files 1 shuffled) []).1 = Some r
    ∧ t1_ns_per_op r = Fin t1
    ∧ (0 < t1 → ∃ Tmax, Tmax_Mops_s r = Fin Tmax ∧ Tmax * E6 = 1 / (t1 / E9))
    ∧ (t1 ≤ 0 → Tmax_Mops_s r = PInf).
Proof.
  pose (r := fit_points (sorted_observations sample_fs (run_files 1 shuffled))).
  assert ((fit_batched_service_model sample_fs (run_files 1 shuffled) []).1
          = Some r) as Hfit by (vm_compute; reflexivity).
  assert (t1_ns_per_op r = Fin (finite_part (t1_ns_per_op r))) as Ht
    by (vm_compute; reflexivity).
  exists r, (finite_part (t1_ns_per_op r)).
  exact (conj Hfit (conj Ht
           (Tmax_is_inverse_slope sample_fs _ [] _ _ Hfit Ht))).
Defined.

(** Run 1 saturates at 10 Mops/s; run 4 has a negative slope and reports
    the sentinel. *)
Example Tmax_of_run_1 :
  Tmax_Mops_s <$> (fit_batched_service_model sample_fs (run_files 1 depths) []).1
  = Some (Fin (Qc_of_Z 10)).
Proof. same_values. Qed.

Example Tmax_of_run_4 :
  Tmax_Mops_s <$> (fit_batched_service_model sample_fs (run_files 4 depths) []).1
  = Some PInf.
Proof. by vm_compute. Qed.

(** C8, witness: depths 1, 2, 4 at the default concurrency. *)
Lemma syscall_budget_theoretical_witness :
  default 50%Z None ≠ 0%Z
  ∧ Forall (λ p, p ≠ 0%Z) [1; 2; 4]%Z
  ∧ (validate_syscall_invariant [1; 2; 4]%Z None []).1
    = Some (true, (λ p, (p, Qc_of_Z 2 / Qc_of_Z (default 50%Z None * p)))
                    <$> [1; 2; 4]%Z).
Proof.
  assert (default 50%Z None ≠ 0%Z) as HC by done.
  assert (Forall (λ p, p ≠ 0%Z) [1; 2; 4]%Z) as Hps by by_computation.
  split_and!; [done..|].
  exact (syscall_budget_theoretical [1; 2; 4]%Z None [] HC Hps).
Defined.

(** C8, counterexample: with concurrency 0 the first division raises
    [ZeroDivisionError]; the check reports nothing. *)
Lemma syscall_budget_zero_concurrency :
  validate_syscall_invariant [1; 2; 4]%Z (Some 0%Z) [] = (None, [SyscallHeader]).
Proof. by vm_compute. Qed.

(** C10, witness: run 1 read in two orders. *)
Lemma fit_permutation_invariant_witness :
  run_files 1 shuffled ≡ₚ run_files 1 depths
  ∧ (fit_batched_service_model sample_fs (run_files 1 shuffled) []).1
    = (fit_batched_service_model sample_fs (run_files 1 depths) []).1.
Proof.
  assert (run_files 1 shuffled ≡ₚ run_files 1 depths) as Hperm
    by by_computation.
  split; [exact Hperm|].
  exact (proj1 (fit_permutation_invariant sample_fs _ _ [] [] Hperm)).
Defined.

(** X1, witness: a directory named after a depth shadows the file's own. *)
Lemma search_P_first_match_witness :
  ascii_path "bench_P99"
  ∧ ascii_path "/run1_P4.csv"
  ∧ search_P "bench_P99" = Some 99%Z
  ∧ no_leading_digit "/run1_P4.csv"
  ∧ search_P ("bench_P99" +:+ "/run1_P4.csv") = Some 99%Z.
Proof.
  assert (ascii_path "bench_P99") as Ha by by_computation.
  assert (ascii_path "/run1_P4.csv") as Ha' by by_computation.
  assert (search_P "bench_P99" = Some 99%Z) as Hs by reflexivity.
  assert (no_leading_digit "/run1_P4.csv") as Hs' by reflexivity.
  split; [exact Ha|]. split; [exact Ha'|].
  split; [exact Hs|]. split; [exact Hs'|].
  exact (search_P_first_match _ _ _ Ha Ha' Hs Hs').
Defined.

(** X2, witness: a file that is not there, between the files of run 1. *)
Lemma fit_ignores_unusable_file_witness :
  (sample_fs !! "absent.csv" = None
   ∨ search_P "absent.csv" = None
   ∨ (∃ df, sample_fs !! "absent.csv" = Some df
        ∧ (columns df !! "rps" = None ∨ nrows df = 0%nat)))
  ∧ (fit_batched_service_model sample_fs
       (run_files 1 [1; 2]%Z ++ "absent.csv" :: run_files 1 [4; 8; 16]%Z) []).1
    = (fit_batched_service_model sample_fs
         (run_files 1 [1; 2]%Z ++ run_files 1 [4; 8; 16]%Z) []).1.
Proof.
  assert (sample_fs !! "absent.csv" = None
          ∨ search_P "absent.csv" = None
          ∨ (∃ df, sample_fs !! "absent.csv" = Some df
               ∧ (columns df !! "rps" = None ∨ nrows df = 0%nat))) as Hbad
    by (left; vm_compute; reflexivity).
  split; [exact Hbad|].
  exact (fit_ignores_unusable_file sample_fs (run_files 1 [1; 2]%Z)
           "absent.csv" (run_files 1 [4; 8; 16]%Z) [] [] Hbad).
Defined.

(** X3, witness: run 1 with a file that is not there. *)
Lemma fit_stdout_witness :
  well_formed sample_fs
  ∧ (fit_batched_service_model sample_fs
       ("absent.csv" :: run_files 1 depths) []).2
    = [] ++ (Skipping <$> filter (λ f, sample_fs !! f = None)
                            ("absent.csv" :: run_files 1 depths))
         ++ (if decide (length (observations sample_fs
                                  ("absent.csv" :: run_files 1 depths)) < 5)%nat
             then [InsufficientData] else []).
Proof.
  assert (well_formed sample_fs) as Hwf by by_computation.
  split; [exact Hwf|].
  exact (fit_stdout sample_fs ("absent.csv" :: run_files 1 depths) [] Hwf).
Defined.

(** X4, witness: the five files of run 1. *)
Lemma fit_keeps_every_data_point_witness :
  ∃ r,
    (fit_batched_service_model sample_fs (run_files 1 shuffled) []).1 = Some r
    ∧ data_points r
      = Z.of_nat (length (observations sample_fs (run_files 1 shuffled)))
    ∧ raw_data r
      ≡ₚ (λ d, [of_int d.1; Fin d.2])
           <$> observations sample_fs (run_files 1 shuffled).
Proof.
  pose (r := fit_points (sorted_observations sample_fs (run_files 1 shuffled))).
  assert ((fit_batched_service_model sample_fs (run_files 1 shuffled) []).1
          = Some r) as Hfit by (vm_compute; reflexivity).
  exists r. split; [exact Hfit|].
  exact (fit_keeps_every_data_point sample_fs (run_files 1 shuffled) [] r Hfit).
Defined.

(** X7, witness: the sample within capacity at 50 clients, at 50 and 64. *)
Lemma closure_pass_monotone_witness :
  (default 50%Z None ≤ default 50%Z (Some 64%Z))%Z
  ∧ (validate_pipeline_closure sample_fs [bench_file 10 10] None []).1.1 = true
  ∧ (validate_pipeline_closure sample_fs [bench_file 10 10] (Some 64%Z) []).1.1
    = true.
Proof.
  assert (default 50%Z None ≤ default 50%Z (Some 64%Z))%Z as HC
    by (vm_compute; discriminate).
  assert ((validate_pipeline_closure sample_fs [bench_file 10 10] None []).1.1
          = true) as Hpass by (vm_compute; reflexivity).
  split; [exact HC|]. split; [exact Hpass|].
  exact (closure_pass_monotone sample_fs [bench_file 10 10] None (Some 64%Z)
           [] [] HC Hpass).
Defined.

(** X8, witness: depth 0 after depths 1 and 2. *)
Lemma syscall_budget_raises_witness :
  Forall (λ q, (default 50%Z None * q)%Z ≠ 0%Z) [1; 2]%Z
  ∧ (default 50%Z None * 0)%Z = 0%Z
  ∧ validate_syscall_invariant ([1; 2]%Z ++ 0%Z :: [4]%Z) None []
    = (None,
       [] ++ SyscallHeader
          :: ((λ q, SyscallLine q (syscalls_per_op (default 50%Z None) q))
                <$> [1; 2]%Z)).
Proof.
  assert (Forall (λ q, (default 50%Z None * q)%Z ≠ 0%Z) [1; 2]%Z) as Hbefore
    by by_computation.
  assert ((default 50%Z None * 0)%Z = 0%Z) as Hp by reflexivity.
  split; [exact Hbefore|]. split; [exact Hp|].
  exact (syscall_budget_raises [1; 2]%Z 0%Z [4]%Z None [] Hbefore Hp).
Defined.

(** X9, witness: the result of run 1. *)
Lemma generate_figure_zero_slope_witness :
  ∃ r,
    (fit_batched_service_model sample_fs (run_files 1 shuffled) []).1 = Some r
    ∧ ∃ calls,
        (fit_throughput_model.generate_figure (Some r) "figure.png" []).2
        = [] ++ (Plt <$> calls)
        ∧ ((fit_throughput_model.generate_figure (Some r) "figure.png" []).1
           = Raised ZeroDivisionError ↔ t1_ns_per_op r = Fin 0)
        ∧ ((fit_throughput_model.generate_figure (Some r) "figure.png" []).1
           = Returned () ↔ t1_ns_per_op r ≠ Fin 0)
        ∧ (plt_savefig "figure.png" ∈ calls ↔ t1_ns_per_op r ≠ Fin 0).
Proof.
  pose (r := fit_points (sorted_observations sample_fs (run_files 1 shuffled))).
  assert ((fit_batched_service_model sample_fs (run_files 1 shuffled) []).1
          = Some r) as Hfit by (vm_compute; reflexivity).
  exists r. split; [exact Hfit|].
  exact (generate_figure_zero_slope sample_fs (run_files 1 shuffled) [] r
           "figure.png" [] Hfit).
Defined.

(** X10, witness: the result of run 1, with 20 µs per batch and 100 ns per
    operation. *)
Lemma knee_at_half_saturation_witness :
  ∃ r a b,
    (fit_batched_service_model sample_fs (run_files 1 shuffled) []).1 = Some r
    ∧ t0_us_per_batch r = Fin a ∧ t1_ns_per_op r = Fin b ∧ 0 < b
    ∧ ∃ knee_p knee_T text xytext,
        Plt (plt_annotate text (Fin knee_p, Fin knee_T) xytext)
          ∈ (fit_throughput_model.generate_figure (Some r) "figure.png" []).2
        ∧ knee_p = (a / E6) / (b / E9)
        ∧ Tmax_Mops_s r = Fin (2 * knee_T)
        ∧ (a ≠ 0 →
           model_curve (fmul (t0_us_per_batch r) em6)
             (fmul (t1_ns_per_op r) em9) (Fin knee_p)
           = Fin knee_T).
Proof.
  pose (r := fit_points (sorted_observations sample_fs (run_files 1 shuffled))).
  assert ((fit_batched_service_model sample_fs (run_files 1 shuffled) []).1
          = Some r) as Hfit by (vm_compute; reflexivity).
  assert (t0_us_per_batch r = Fin (finite_part (t0_us_per_batch r))) as Ht0
    by (vm_compute; reflexivity).
  assert (t1_ns_per_op r = Fin (finite_part (t1_ns_per_op r))) as Ht1
    by (vm_compute; reflexivity).
  assert (0 < finite_part (t1_ns_per_op r)) as Hpos by by_computation.
  exists r, (finite_part (t0_us_per_batch r)), (finite_part (t1_ns_per_op r)).
  exact (conj Hfit (conj Ht0 (conj Ht1 (conj Hpos
           (knee_at_half_saturation sample_fs (run_files 1 shuffled) [] r
              "figure.png" [] _ _ Hfit Ht0 Ht1 Hpos))))).
Defined.

(** X13, witness: the sample within capacity. *)
Lemma closure_figure_points_below_boundary_witness :
  (0 ≤ default 50%Z None)%Z
  ∧ (validate_pipeline_closure sample_fs [bench_file 10 10] None []).1.2 ≠ []
  ∧ ∃ xs ys m rest,
      validate_invariants.generate_pipeline_closure_figure
        (validate_pipeline_closure sample_fs [bench_file 10 10] None []).1.2
        "figure.png" []
      = (Returned (),
         [] ++ (Plt <$> plt_figure 10 6
                  :: plt_scatter (Fin <$> xs) (Fin <$> ys) "Measured Points"
                  :: plt_plot [Fin 0; Fin m] [Fin 0; Fin m]
                       [Text "y = x (Closure Boundary)"]
                  :: rest))
      ∧ plt_savefig "figure.png" ∈ rest
      ∧ length xs
        = length (validate_pipeline_closure sample_fs [bench_file 10 10]
                    None []).1.2
      ∧ Forall2 (λ x y, y ≤ x ∧ 0 ≤ x ∧ x ≤ m) xs ys.
Proof.
  assert (0 ≤ default 50%Z None)%Z as HC by (vm_compute; discriminate).
  assert ((validate_pipeline_closure sample_fs [bench_file 10 10] None []).1.2
          ≠ []) as Hpts by (vm_compute; discriminate).
  split; [exact HC|]. split; [exact Hpts|].
  exact (closure_figure_points_below_boundary sample_fs [bench_file 10 10]
           None [] "figure.png" [] HC Hpts).
Defined.

(** X15, witness: the two latency-bearing samples. *)
Lemma invariants_main_document_witness :
  [bench_file 10 10; bench_file 11 10] ≠ []
  ∧ (∀ f, f ∈ [bench_file 10 10; bench_file 11 10] → search_P f ≠ Some 0%Z)
  ∧ (validate_invariants.main sample_fs
       [bench_file 10 10; bench_file 11 10] []).1 = Returned ()
  ∧ Prints [Text "2. Syscall Budget: "; Text "PASS"]
      ∈ (validate_invariants.main sample_fs
           [bench_file 10 10; bench_file 11 10] []).2.
Proof.
  assert ([bench_file 10 10; bench_file 11 10] ≠ []) as Hfiles by discriminate.
  assert (∀ f, f ∈ [bench_file 10 10; bench_file 11 10] →
               search_P f ≠ Some 0%Z) as Hdepth.
  { apply Forall_forall. by_computation. }
  split; [exact Hfiles|]. split; [exact Hdepth|].
  pose proof (invariants_main_document sample_fs
                [bench_file 10 10; bench_file 11 10] Hfiles Hdepth) as Hdoc.
  exact (conj (proj1 Hdoc) (proj1 (proj2 (proj2 (proj2 Hdoc))))).
Defined.

(** A name with depth 0 stops the validation, though the file is not
    there. *)
Example invariants_main_stops_at_depth_zero :
  (validate_invariants.main sample_fs [bench_file 10 10; bench_file 1 0] []).1
  = Raised ZeroDivisionError.
Proof. by vm_compute. Qed.

#[local] Existing Instance reference_pandas.

(** X16, witness: run 1 and a file that is not there. *)
Lemma load_benchmark_data_points_witness :
  well_formed sample_fs
  ∧ row_point <$> (generate_figures.load_benchmark_data sample_fs
                     ("absent.csv" :: run_files 1 shuffled) []).1
    = observations sample_fs ("absent.csv" :: run_files 1 shuffled)
  ∧ Forall (λ r, ∃ f, f ∈ "absent.csv" :: run_files 1 shuffled
                 ∧ observation sample_fs f = Some (row_point r)
                 ∧ generate_figures.clients r = default 50%Z (search_C f)
                 ∧ generate_figures.filename r = basename f)
      (generate_figures.load_benchmark_data sample_fs
         ("absent.csv" :: run_files 1 shuffled) []).1.
Proof.
  assert (well_formed sample_fs) as Hwf by by_computation.
  split; [exact Hwf|].
  exact (load_benchmark_data_points sample_fs
           ("absent.csv" :: run_files 1 shuffled) [] Hwf).
Defined.

(** X17, witness: run 1, which the fitter reports as 20 µs and 100 ns. *)
Lemma figure1_reports_fit_in_other_units_witness :
  ∃ r,
    well_formed sample_fs
    ∧ Forall (λ f, default 50%Z (search_C f) = 50%Z) (run_files 1 shuffled)
    ∧ valid_input (observations sample_fs (run_files 1 shuffled))
    ∧ (fit_batched_service_model sample_fs (run_files 1 shuffled) []).1
      = Some r
    ∧ ∃ params calls p_model,
        generate_figures.figure1_throughput_vs_pipeline
          (generate_figures.load_benchmark_data sample_fs
             (run_files 1 shuffled) []).1 None []
        = (Returned (Some params), [] ++ (Plt <$> calls))
        ∧ t0_us_per_batch r = fmul (generate_figures.t0_us params) e6
        ∧ t1_ns_per_op r = fmul (generate_figures.t1_ns params) e6
        ∧ r_squared r = generate_figures.r_squared params
        ∧ plt_plot p_model
            (model_curve (fmul (t0_us_per_batch r) em6)
               (fmul (t1_ns_per_op r) em9) <$> p_model)
            [Text "Model: T(p) = p/("; Num (generate_figures.t0_us params) 2;
             Text " + "; Num (generate_figures.t1_ns params) 1; Text "p)"]
          ∈ calls.
Proof.
  pose (r := fit_points (sorted_observations sample_fs (run_files 1 shuffled))).
  assert (well_formed sample_fs) as Hwf by by_computation.
  assert (Forall (λ f, default 50%Z (search_C f) = 50%Z)
            (run_files 1 shuffled)) as HC by by_computation.
  assert (valid_input (observations sample_fs (run_files 1 shuffled)))
    as Hvalid by by_computation.
  assert ((fit_batched_service_model sample_fs (run_files 1 shuffled) []).1
          = Some r) as Hfit by (vm_compute; reflexivity).
  exists r.
  exact (conj Hwf (conj HC (conj Hvalid (conj Hfit
           (figure1_reports_fit_in_other_units sample_fs
              (run_files 1 shuffled) [] [] r None [] Hwf HC Hvalid Hfit))))).
Defined.

(** X18, witness: run 4, off the model. *)
Lemma figure2_legend_is_the_fit_witness :
  ∃ r,
    well_formed sample_fs
    ∧ Forall (λ f, default 50%Z (search_C f) = 50%Z) (run_files 4 shuffled)
    ∧ valid_input (observations sample_fs (run_files 4 shuffled))
    ∧ (fit_batched_service_model sample_fs (run_files 4 shuffled) []).1
      = Some r
    ∧ ∃ calls x_model y_model,
        generate_figures.figure2_linearized_fit
          (generate_figures.load_benchmark_data sample_fs
             (run_files 4 shuffled) []).1 None []
        = (Returned (), [] ++ (Plt <$> calls))
        ∧ plt_plot x_model y_model
            [Text "Fit: y = "; Num (t0_us_per_batch r) 2; Text " + ";
             Num (t1_ns_per_op r) 1; Text "p (R² = "; Num (r_squared r) 3;
             Text ")"]
          ∈ calls
        ∧ plt_savefig (path_join (default "." None)
                         "figure2_linearized_fit.png") ∈ calls.
Proof.
  pose (r := fit_points (sorted_observations sample_fs (run_files 4 shuffled))).
  assert (well_formed sample_fs) as Hwf by by_computation.
  assert (Forall (λ f, default 50%Z (search_C f) = 50%Z)
            (run_files 4 shuffled)) as HC by by_computation.
  assert (valid_input (observations sample_fs (run_files 4 shuffled)))
    as Hvalid by by_computation.
  assert ((fit_batched_service_model sample_fs (run_files 4 shuffled) []).1
          = Some r) as Hfit by (vm_compute; reflexivity).
  exists r.
  exact (conj Hwf (conj HC (conj Hvalid (conj Hfit
           (figure2_legend_is_the_fit sample_fs
              (run_files 4 shuffled) [] [] r None [] Hwf HC Hvalid Hfit))))).
Defined.

(** Run 1 in figure 1: the fitter reports 20 µs per batch and 100 ns per
    operation; the figure shows 0.00002 and 0.0001 under the same units. *)
Example figure1_of_run_1 :
  ∃ params,
    (generate_figures.figure1_throughput_vs_pipeline
       (generate_figures.load_benchmark_data sample_fs
          (run_files 1 depths) []).1 None []).1
    = Returned (Some params)
    ∧ generate_figures.t0_us params = Fin (Q2Qc 0.00002)
    ∧ generate_figures.t1_ns params = Fin (Q2Qc 0.0001)
    ∧ t0_us_per_batch <$> (fit_batched_service_model sample_fs
                             (run_files 1 depths) []).1
      = Some (Fin (Qc_of_Z 20))
    ∧ t1_ns_per_op <$> (fit_batched_service_model sample_fs
                          (run_files 1 depths) []).1
      = Some (Fin (Qc_of_Z 100)).
Proof.
  eexists. split; [vm_compute; reflexivity|].
  split_and!; same_values.
Qed.

(** Figure 4 with its own depths and no clients. *)
Example figure4_without_clients :
  generate_figures.figure4_syscalls_vs_inverse_cp None (Some 0%Z) None []
  = (Raised ZeroDivisionError, []).
Proof. by vm_compute. Qed.

(** X21, witness: run 1, read out of order. *)
Lemma fit_raw_data_ascending_witness :
  ∃ r,
    (fit_batched_service_model sample_fs (run_files 1 shuffled) []).1 = Some r
    ∧ ∃ points,
        raw_data r = (λ d, [of_int d.1; Fin d.2]) <$> points
        ∧ StronglySorted tuple_le points
        ∧ StronglySorted Z.le points.*1.
Proof.
  pose (r := fit_points (sorted_observations sample_fs (run_files 1 shuffled))).
  assert ((fit_batched_service_model sample_fs (run_files 1 shuffled) []).1
          = Some r) as Hfit by (vm_compute; reflexivity).
  exists r. split; [exact Hfit|].
  exact (fit_raw_data_ascending sample_fs (run_files 1 shuffled) [] r Hfit).
Defined.

(** X22, witness: run 1 and the same run with throughputs a thousand
    times larger. *)
Lemma fit_throughput_unit_witness :
  ∃ r r',
    0 < Qc_of_Z 1000
    ∧ observations rescaled_fs (run_files 1 depths)
      = (λ d, (d.1, d.2 * Qc_of_Z 1000))
          <$> observations sample_fs (run_files 1 depths)
    ∧ valid_input (observations sample_fs (run_files 1 depths))
    ∧ (fit_batched_service_model sample_fs (run_files 1 depths) []).1 = Some r
    ∧ (fit_batched_service_model rescaled_fs (run_files 1 depths) []).1
      = Some r'
    ∧ ∃ t0 t1,
        t0_us_per_batch r = Fin t0 ∧ t1_ns_per_op r = Fin t1
        ∧ t0_us_per_batch r' = Fin (t0 / Qc_of_Z 1000)
        ∧ t1_ns_per_op r' = Fin (t1 / Qc_of_Z 1000)
        ∧ r_squared r' = r_squared r.
Proof.
  pose (r := fit_points (sorted_observations sample_fs (run_files 1 depths))).
  pose (r' := fit_points (sorted_observations rescaled_fs (run_files 1 depths))).
  assert (0 < Qc_of_Z 1000) as Hk by by_computation.
  assert (observations rescaled_fs (run_files 1 depths)
          = (λ d, (d.1, d.2 * Qc_of_Z 1000))
              <$> observations sample_fs (run_files 1 depths)) as Hobs
    by by_computation.
  assert (valid_input (observations sample_fs (run_files 1 depths)))
    as Hvalid by by_computation.
  assert ((fit_batched_service_model sample_fs (run_files 1 depths) []).1
          = Some r) as Hfit by (vm_compute; reflexivity).
  assert ((fit_batched_service_model rescaled_fs (run_files 1 depths) []).1
          = Some r') as Hfit' by (vm_compute; reflexivity).
  exists r, r'.
  exact (conj Hk (conj Hobs (conj Hvalid (conj Hfit (conj Hfit'
           (fit_throughput_unit sample_fs (run_files 1 depths) [] r
              rescaled_fs (run_files 1 depths) [] r' (Qc_of_Z 1000)
              Hk Hobs Hvalid Hfit Hfit')))))).
Defined.
